(** * CosmoOS training-data generator: a shallow embedding

    The development follows [scripts/generate_training_data.py]:
    the Python values the script manipulates, its encoder
    ([escape], [make_function_call], [make_function_call_from_dict]), the
    eleven template generators with their vocabularies, the validator and
    the assembling part of [main].

    Conventions of the embedding:
    - a Python [str] is a [string]; the vocabularies of the script are ASCII;
    - a Python [dict] is an association list in insertion order, kept free
      of duplicate keys by [dict_set];
    - an operation that raises in Python returns [None];
    - the module-level [random] generator is an oracle passed explicitly. *)

From Stdlib Require Import String Ascii List ZArith Lia Bool Arith.
From Stdlib Require Import Permutation DecimalString DecimalZ DecimalPos.
Import ListNotations.
Open Scope string_scope.
Set Warnings "-register-all,-abstract-large-number".

(** ** Python values *)

Inductive value : Type :=
| VNone
| VBool (b : bool)
| VInt (n : Z)
| VStr (s : string)
| VList (l : list value)
| VDict (d : list (string * value)).

Definition dict := list (string * value).

Section ValueInduction.
Variable P : value -> Prop.
Hypothesis HNone : P VNone.
Hypothesis HBool : forall b, P (VBool b).
Hypothesis HInt : forall n, P (VInt n).
Hypothesis HStr : forall s, P (VStr s).
Hypothesis HList : forall l, Forall P l -> P (VList l).
Hypothesis HDict : forall d, Forall (fun kv => P (snd kv)) d -> P (VDict d).

Fixpoint value_ind' (v : value) : P v :=
    match v with
    | VNone => HNone
    | VBool b => HBool b
    | VInt n => HInt n
    | VStr s => HStr s
    | VList l =>
        HList l ((fix go (l : list value) : Forall P l :=
                    match l with
                    | [] => Forall_nil _
                    | x :: r => Forall_cons x (value_ind' x) (go r)
                    end) l)
    | VDict d =>
        HDict d ((fix go (d : dict) : Forall (fun kv => P (snd kv)) d :=
                    match d with
                    | [] => Forall_nil _
                    | kv :: r => Forall_cons kv (value_ind' (snd kv)) (go r)
                    end) d)
    end.
End ValueInduction.

(** ** Strings *)

Module Str.

  (** [sep.join(parts)] *)
Definition join (sep : string) (parts : list string) : string :=
    String.concat sep parts.

Definition startswith (s p : string) : bool := prefix p s.

Fixpoint drop (n : nat) (s : string) : string :=
    match n, s with
    | 0, _ => s
    | S k, String _ r => drop k r
    | S _, EmptyString => EmptyString
    end.

Definition endswith (s p : string) : bool :=
    (String.length p <=? String.length s)%nat
    && String.eqb (drop (String.length s - String.length p) s) p.

  (** [sub in s] *)
Fixpoint contains (sub s : string) : bool :=
    prefix sub s
    || match s with
       | EmptyString => false
       | String _ r => contains sub r
       end.

  (** [s.replace(old, new)] for a non-empty [old]: occurrences are taken
      left to right and do not overlap.  [skip] counts the characters of a
      match that are still to be passed over. *)
Fixpoint replace_from (old new s : string) (skip : nat) : string :=
    match s with
    | EmptyString => EmptyString
    | String c r =>
        match skip with
        | S k => replace_from old new r k
        | 0 =>
            if prefix old s
            then new ++ replace_from old new r (String.length old - 1)
            else String c (replace_from old new r 0)
        end
    end.

Definition replace (old new s : string) : string :=
    replace_from old new s 0.

Definition upper (c : ascii) : ascii :=
    let n := nat_of_ascii c in
    if ((97 <=? n) && (n <=? 122))%nat then ascii_of_nat (n - 32) else c.

Definition lower (c : ascii) : ascii :=
    let n := nat_of_ascii c in
    if ((65 <=? n) && (n <=? 90))%nat then ascii_of_nat (n + 32) else c.

Fixpoint map (f : ascii -> ascii) (s : string) : string :=
    match s with
    | EmptyString => EmptyString
    | String c r => String (f c) (map f r)
    end.

  (** [s.capitalize()]: first character upper-cased, the rest lower-cased. *)
Definition capitalize (s : string) : string :=
    match s with
    | EmptyString => EmptyString
    | String c r => String (upper c) (map lower r)
    end.

  (** [s[:n]] *)
Definition take (n : nat) (s : string) : string := substring 0 n s.

Definition is_space (c : ascii) : bool :=
    let n := nat_of_ascii c in ((n =? 32) || ((9 <=? n) && (n <=? 13)))%nat.

  (** [s.split()[-1]]: the last whitespace-separated word; [cur] is the word
      being read and [last] the last complete one. *)
Fixpoint last_word_from (s cur last : string) : string :=
    match s with
    | EmptyString => if String.eqb cur "" then last else cur
    | String c r =>
        if is_space c
        then last_word_from r "" (if String.eqb cur "" then last else cur)
        else last_word_from r (cur ++ String c "") last
    end.

Definition last_word (s : string) : string := last_word_from s "" "".

  (** [str(n)] for an [int] *)
Definition of_Z (n : Z) : string := NilZero.string_of_int (Z.to_int n).
Definition of_nat (n : nat) : string := of_Z (Z.of_nat n).

Definition newline : ascii := ascii_of_nat 10.

  (** No line feed occurs in [s]. *)
Fixpoint nl_free (s : string) : bool :=
    match s with
    | EmptyString => true
    | String c r => negb (Ascii.eqb c newline) && nl_free r
    end.

  (** No opening brace occurs in [s]. *)
Fixpoint brace_free (s : string) : bool :=
    match s with
    | EmptyString => true
    | String c r => negb (Ascii.eqb c "{") && brace_free r
    end.

End Str.

(** ** Dictionaries in insertion order *)

Fixpoint dict_get {A} (k : string) (d : list (string * A)) : option A :=
  match d with
  | [] => None
  | (k', v) :: r => if String.eqb k k' then Some v else dict_get k r
  end.

Definition dict_has {A} (k : string) (d : list (string * A)) : bool :=
  match dict_get k d with Some _ => true | None => false end.

(** [d[k] = v]: an existing key keeps its position, a new one goes last. *)
Fixpoint dict_set {A} (k : string) (v : A) (d : list (string * A))
  : list (string * A) :=
  match d with
  | [] => [(k, v)]
  | (k', v') :: r =>
      if String.eqb k k' then (k', v) :: r else (k', v') :: dict_set k v r
  end.

Definition keys {A} (d : list (string * A)) : list string := List.map fst d.

(** [d.get(k, default)] *)
Definition get_default (k : string) (default : value) (d : dict) : value :=
  match dict_get k d with Some v => v | None => default end.

(** ** [json.dumps] *)

Module Json.

Definition dquote : string := String (ascii_of_nat 34) "".

Definition hex_digit (n : nat) : string :=
    String (nth n (list_ascii_of_string "0123456789abcdef") "0"%char) "".

  (** The output is ASCII ([ensure_ascii] is left at its default): the quote
      and the backslash are escaped, and every character outside the range
      from space to tilde is written as an escape sequence. *)
Definition escape_char (c : ascii) : string :=
    let n := nat_of_ascii c in
    if (n =? 34)%nat then "\" ++ dquote
    else if (n =? 92)%nat then "\\"
    else if (n =? 10)%nat then "\n"
    else if (n =? 13)%nat then "\r"
    else if (n =? 9)%nat then "\t"
    else if (n =? 12)%nat then "\f"
    else if (n =? 8)%nat then "\b"
    else if ((n <? 32) || (126 <? n))%nat
         then "\u00" ++ hex_digit (n / 16) ++ hex_digit (n mod 16)
    else String c "".

Fixpoint escape_chars (s : string) : string :=
    match s with
    | EmptyString => EmptyString
    | String c r => escape_char c ++ escape_chars r
    end.

Definition encode_string (s : string) : string :=
    dquote ++ escape_chars s ++ dquote.

  (** [json.dumps(v, separators=(item_sep, key_sep))] *)
Fixpoint dumps (item_sep key_sep : string) (v : value) : string :=
    match v with
    | VNone => "null"
    | VBool b => if b then "true" else "false"
    | VInt n => Str.of_Z n
    | VStr s => encode_string s
    | VList l => "[" ++ Str.join item_sep (List.map (dumps item_sep key_sep) l) ++ "]"
    | VDict d =>
        "{" ++ Str.join item_sep
                 (List.map (fun kv => encode_string (fst kv) ++ key_sep
                                      ++ dumps item_sep key_sep (snd kv)) d)
            ++ "}"
    end.

  (** [json.dumps(v)] with the default separators *)
Definition dumps_default (v : value) : string := dumps ", " ": " v.

  (** [json.dumps(v, separators=(',', ':'))] *)
Definition dumps_compact (v : value) : string := dumps "," ":" v.

End Json.

(** ** The encoder *)

Definition FUNCTIONGEMMA_SYSTEM_PROMPT : string :=
  "You are FunctionGemma, the CosmoOS Micro-Brain. You interpret user voice commands and output exactly ONE function call."
  ++ String Str.newline
  "You NEVER reason, explain, or generate text. You ONLY output function calls in the format:"
  ++ String Str.newline
  "<start_function_call>call:FUNCTION_NAME{params}<end_function_call>"
  ++ String Str.newline (String Str.newline
  "Available functions: create_atom, update_atom, delete_atom, search_atoms, batch_create, navigate, query_level_system, start_deep_work, stop_deep_work, extend_deep_work, log_workout, trigger_correlation_analysis").

(** [escape(value)]: the branches are tried in the order of the script.  The
    last branch is [str(value)]; of the values modelled here it receives
    strings and [None]. *)
Definition escape (v : value) : string :=
  match v with
  | VDict _ => Json.dumps_compact v
  | VList _ => Json.dumps_compact v
  | VBool b => if b then "true" else "false"
  | VInt n => Str.of_Z n
  | VStr s => s
  | VNone => "None"
  end.

Definition param_part (kv : string * value) : string :=
  fst kv ++ ":<escape>" ++ escape (snd kv) ++ "<escape>".

Definition make_function_call (func_name : string) (params : dict) : string :=
  let param_parts := List.map param_part params in
  let params_str := Str.join "," param_parts in
  "<start_function_call>call:" ++ func_name ++ "{" ++ params_str
    ++ "}<end_function_call>".

(** [if k in src: params[k] = src[k]] *)
Definition copy_if_present (k : string) (src params : dict) : dict :=
  match dict_get k src with
  | Some v => dict_set k v params
  | None => params
  end.

(** [action == s] for the value returned by [output_dict.get("action")] *)
Definition action_is (action : option value) (s : string) : bool :=
  match action with
  | Some (VStr a) => String.eqb a s
  | _ => false
  end.

(** One item of a batch: [item.get] raises unless the item is a dict. *)
Definition batch_item (item : value) : option value :=
  match item with
  | VDict it =>
      let item_dict :=
        [("atom_type", get_default "type" (VStr "task") it);
         ("title", get_default "title" (VStr "Untitled") it)] in
      Some (VDict (copy_if_present "links" it item_dict))
  | _ => None
  end.

Fixpoint batch_items (items : list value) : option (list value) :=
  match items with
  | [] => Some []
  | item :: rest =>
      match batch_item item, batch_items rest with
      | Some i, Some r => Some (i :: r)
      | _, _ => None
      end
  end.

(** [for item in output_dict.get("items", [])]: a list is walked item by
    item; iterating a dict or a string yields strings, on which [item.get]
    raises; the other values are not iterable. *)
Definition iter_items (items : value) : option (list value) :=
  match items with
  | VList l => batch_items l
  | VDict [] => Some []
  | VStr EmptyString => Some []
  | _ => None
  end.

(** [make_function_call_from_dict(output_dict)]; [None] when the script
    raises. *)
Definition make_function_call_from_dict (output_dict : dict) : option string :=
  let action := dict_get "action" output_dict in
  if action_is action "create" then
    let atom_type := get_default "type" (VStr "idea") output_dict in
    let params :=
      [("atom_type", atom_type);
       ("title", get_default "title" (VStr "Untitled") output_dict)] in
    let params := copy_if_present "body" output_dict params in
    let params := copy_if_present "metadata" output_dict params in
    let params := copy_if_present "links" output_dict params in
    Some (make_function_call "create_atom" params)
  else if action_is action "update" then
    let params := [("target", get_default "target" (VStr "context") output_dict)] in
    let params := copy_if_present "title" output_dict params in
    let params := copy_if_present "body" output_dict params in
    let params := copy_if_present "metadata" output_dict params in
    let params := copy_if_present "links" output_dict params in
    Some (make_function_call "update_atom" params)
  else if action_is action "delete" then
    Some (make_function_call "delete_atom"
            [("target", get_default "target" (VStr "context") output_dict)])
  else if action_is action "search" then
    let params := copy_if_present "query" output_dict [] in
    let params :=
      match dict_get "type" output_dict with
      | Some t => dict_set "types" (VList [t]) params
      | None => params
      end in
    let flattened :=
      match dict_get "filter" output_dict with
      | Some (VDict filter) =>
          Some (fold_left (fun p kv => dict_set (fst kv) (snd kv) p) filter params)
      | Some _ => None
      | None => Some params
      end in
    match flattened with
    | Some params =>
        let params := copy_if_present "mode" output_dict params in
        let params := copy_if_present "target" output_dict params in
        Some (make_function_call "search_atoms" params)
    | None => None
    end
  else if action_is action "batch" then
    match iter_items (get_default "items" (VList []) output_dict) with
    | Some items => Some (make_function_call "batch_create" [("items", VList items)])
    | None => None
    end
  else if action_is action "navigate" then
    Some (make_function_call "navigate"
            [("destination", get_default "destination" (VStr "home") output_dict)])
  else
    Some (make_function_call "create_atom"
            [("atom_type", VStr "idea"); ("title", VStr "Unknown")]).

(** ** Examples and the chat envelope *)

Record example : Type := Example { input : string; output : value }.

(** The encoded output of an example, as [format_for_mlx_lm] computes it:
    a string is kept, anything else goes through the legacy path (where
    [.get] raises on a value that is not a dict). *)
Definition encoded_output (ex : example) : option string :=
  match output ex with
  | VStr s => Some s
  | VDict d => make_function_call_from_dict d
  | _ => None
  end.

Definition envelope (user_text model_text : string) : value :=
  VDict [("messages",
          VList [VDict [("role", VStr "developer");
                        ("content", VStr FUNCTIONGEMMA_SYSTEM_PROMPT)];
                 VDict [("role", VStr "user"); ("content", VStr user_text)];
                 VDict [("role", VStr "model"); ("content", VStr model_text)]])].

Fixpoint format_for_mlx_lm (examples : list example) : option (list value) :=
  match examples with
  | [] => Some []
  | ex :: rest =>
      match encoded_output ex, format_for_mlx_lm rest with
      | Some out, Some formatted => Some (envelope (input ex) out :: formatted)
      | _, _ => None
      end
  end.

(** ** The validator *)

Definition valid_functions : list string :=
  ["create_atom"; "update_atom"; "delete_atom"; "search_atoms";
   "batch_create"; "navigate"; "query_level_system";
   "start_deep_work"; "stop_deep_work"; "extend_deep_work";
   "log_workout"; "trigger_correlation_analysis"].

Definition valid_actions : list string :=
  ["create"; "update"; "delete"; "search"; "batch"; "navigate"].

Definition mem (s : string) (l : list string) : bool :=
  existsb (String.eqb s) l.

Module Re.

  (** [\w] on ASCII text *)
Definition is_word (c : ascii) : bool :=
    let n := nat_of_ascii c in
    (((48 <=? n) && (n <=? 57)) || ((65 <=? n) && (n <=? 90))
     || ((97 <=? n) && (n <=? 122)) || (n =? 95))%nat.

  (** The longest run of word characters at the head of [s], and the rest. *)
Fixpoint span_word (s : string) : string * string :=
    match s with
    | EmptyString => (EmptyString, EmptyString)
    | String c r =>
        if is_word c
        then let (w, t) := span_word r in (String c w, t)
        else (EmptyString, s)
    end.

  (** A match of [call:(\w+)\{] anchored at the head of [s]: the group.
      The run of word characters is the longest one, since the brace that
      must follow is not a word character. *)
Definition match_call_here (s : string) : option string :=
    if prefix "call:" s then
      let (w, t) := span_word (Str.drop 5 s) in
      match w, t with
      | String _ _, String "{" _ => Some w
      | _, _ => None
      end
    else None.

  (** [re.search(r"call:(\w+)\{", s)]: group 1 of the leftmost match. *)
Fixpoint search_call (s : string) : option string :=
    match match_call_here s with
    | Some w => Some w
    | None =>
        match s with
        | EmptyString => None
        | String _ r => search_call r
        end
    end.

End Re.

(** Truth value of a Python object *)
Definition truthy (v : value) : bool :=
  match v with
  | VNone => false
  | VBool b => b
  | VInt n => negb (n =? 0)%Z
  | VStr s => negb (String.eqb s "")
  | VList l => match l with [] => false | _ => true end
  | VDict d => match d with [] => false | _ => true end
  end.

(** [str(v)] for the hashable values (the only ones formatted by the
    validator) *)
Definition py_str (v : value) : string :=
  match v with
  | VStr s => s
  | VInt n => Str.of_Z n
  | VBool b => if b then "True" else "False"
  | _ => "None"
  end.

Definition issue (i : nat) (message : string) : string :=
  "Example " ++ Str.of_nat i ++ ": " ++ message.

(** The findings for example number [i]; [None] when the script raises
    (membership of an unhashable action in the set of valid actions). *)
Definition validate_one (i : nat) (ex : example) : option (list string) :=
  match output ex with
  | VStr out =>
      if negb (Str.startswith out "<start_function_call>") then
        Some [issue i "Missing <start_function_call> prefix"]
      else if negb (Str.endswith out "<end_function_call>") then
        Some [issue i "Missing <end_function_call> suffix"]
      else
        match Re.search_call out with
        | Some func_name =>
            if negb (mem func_name valid_functions)
            then Some [issue i ("Unknown function '" ++ func_name ++ "'")]
            else Some []
        | None => Some [issue i "Could not parse function name"]
        end
  | VDict d =>
      match dict_get "action" d with
      | Some action =>
          if truthy action then
            match action with
            | VList _ | VDict _ => None
            | VStr a =>
                if negb (mem a valid_actions)
                then Some [issue i ("Invalid action '" ++ a ++ "'")]
                else Some []
            | _ => Some [issue i ("Invalid action '" ++ py_str action ++ "'")]
            end
          else Some []
      | None => Some []
      end
  | _ => Some []
  end.

Fixpoint validate_from (i : nat) (examples : list example)
  : option (list string) :=
  match examples with
  | [] => Some []
  | ex :: rest =>
      match validate_one i ex, validate_from (S i) rest with
      | Some a, Some b => Some (a ++ b)%list
      | _, _ => None
      end
  end.

Definition validate_examples (examples : list example) : option (list string) :=
  validate_from 0 examples.

(** ** The random source *)

(** The shared generator of the [random] module is an oracle: an unbounded
    supply of draws, of which each call consumes the first. *)
Definition rng : Type := nat -> nat.

Definition Rand (A : Type) : Type := rng -> A * rng.

Definition ret {A} (x : A) : Rand A := fun g => (x, g).

Definition bind {A B} (m : Rand A) (f : A -> Rand B) : Rand B :=
  fun g => let (x, g') := m g in f x g'.

Notation "x <- m ;; k" := (bind m (fun x => k))
  (at level 61, m at next level, right associativity).
Notation "' p <- m ;; k" := (bind m (fun x => let p := x in k))
  (at level 61, p pattern, m at next level, right associativity).

(** A uniform draw below [n] *)
Definition randbelow (n : nat) : Rand nat :=
  fun g => (g 0 mod n, fun i => g (S i)).

(** [random.choice(seq)]; the pools of the script are never empty, the
    default [d] stands for the [IndexError] of an empty one. *)
Definition choice {A} (d : A) (seq : list A) : Rand A :=
  i <- randbelow (length seq) ;; ret (nth i seq d).

(** [for _ in range(n): examples.append(step())] *)
Fixpoint repeatM {A} (n : nat) (step : Rand A) : Rand (list A) :=
  match n with
  | 0 => ret []
  | S k => x <- step ;; xs <- repeatM k step ;; ret (x :: xs)
  end.

(** [random.sample(population, k)]: the values at [k] distinct positions.
    Each draw takes one position out of the remaining ones. *)
Fixpoint sample {A} (k : nat) (population : list A) : Rand (list A) :=
  match k with
  | 0 => ret []
  | S k' =>
      j <- randbelow (length population) ;;
      match nth_error population j with
      | Some x =>
          rest <- sample k' (firstn j population ++ skipn (S j) population) ;;
          ret (x :: rest)
      | None => ret []
      end
  end.

Fixpoint list_set {A} (i : nat) (x : A) (l : list A) : list A :=
  match l, i with
  | [], _ => []
  | _ :: r, 0 => x :: r
  | y :: r, S k => y :: list_set k x r
  end.

(** [x[i], x[j] = x[j], x[i]] *)
Definition swap {A} (i j : nat) (x : list A) : list A :=
  match nth_error x i, nth_error x j with
  | Some xi, Some xj => list_set j xi (list_set i xj x)
  | _, _ => x
  end.

(** [random.shuffle(x)]: for [i] from [len(x) - 1] down to [1], exchange
    position [i] with a position drawn below [i + 1]. *)
Fixpoint shuffle_from {A} (i : nat) (x : list A) : Rand (list A) :=
  match i with
  | 0 => ret x
  | S k => j <- randbelow (S i) ;; shuffle_from k (swap i j x)
  end.

Definition shuffle {A} (x : list A) : Rand (list A) :=
  shuffle_from (length x - 1) x.

(** [l * k] *)
Fixpoint times {A} (l : list A) (k : nat) : list A :=
  match k with
  | 0 => []
  | S k' => l ++ times l k'
  end.

(** ** Vocabularies (the data banks of the script) *)

(** A template pairs an input pattern with an output skeleton. *)
Definition template : Type := string * value.

(** Dictionary literals are written as in the script: [k ::= v] is an entry,
    and a bare string stands for the Python string. *)
Coercion VStr : string >-> value.
Notation "k ::= v" := (@pair string value k v) (at level 65, no associativity).

Definition TOPICS : list string :=
  [
   "marketing strategy"; "brand positioning"; "customer acquisition";
   "retention metrics"; "social media campaign"; "content marketing";
   "SEO optimization"; "email automation"; "lead generation";
   "conversion funnel"; "A/B testing"; "user personas";
   "competitive analysis"; "market research"; "pricing strategy";
   "product launch"; "feature architecture"; "API design"; "database schema";
   "caching strategy"; "performance optimization"; "code refactoring";
   "technical debt"; "microservices"; "authentication flow";
   "authorization patterns"; "error handling"; "logging strategy";
   "CI/CD pipeline"; "deployment automation"; "monitoring setup";
   "incident response"; "mobile optimization"; "offline support";
   "data migration"; "versioning strategy"; "user onboarding";
   "navigation patterns"; "color scheme"; "typography system";
   "component library"; "design tokens"; "accessibility improvements";
   "mobile UX"; "dark mode implementation"; "animation principles";
   "icon system"; "layout grid"; "form validation UX"; "error messaging";
   "loading states"; "empty states"; "growth hacking"; "viral loops";
   "referral program"; "partnership strategy"; "investor pitch";
   "fundraising deck"; "unit economics"; "market expansion";
   "international launch"; "localization"; "pricing tiers"; "freemium model";
   "learning roadmap"; "skill development"; "reading list";
   "networking strategy"; "time management"; "productivity system";
   "habit formation"; "goal setting"; "morning routine"; "evening routine";
   "meditation practice"; "exercise plan"; "blog post series";
   "newsletter topics"; "podcast episodes"; "video content"; "case studies";
   "whitepapers"; "documentation"; "help articles"; "social posts"; "ad copy";
   "landing pages"; "email sequences"; "user research"; "market trends";
   "competitor analysis"; "technology evaluation"; "framework comparison";
   "best practices"; "industry benchmarks"; "case study analysis"
  ].

Definition TASKS : list string :=
  [
   "call mom"; "call dad"; "call Sarah"; "call John"; "call the dentist";
   "email the team"; "email investors"; "email marketing"; "email support";
   "text Alex"; "text the group"; "message the client";
   "follow up with leads"; "schedule meeting with product";
   "book 1:1 with manager"; "set up call with design"; "finish the report";
   "review the PR"; "update documentation"; "fix the bug"; "write tests";
   "deploy to staging"; "merge the feature branch"; "update dependencies";
   "create the presentation"; "prepare for standup"; "update the roadmap";
   "write specs"; "review analytics"; "check metrics"; "update dashboards";
   "run experiments"; "interview candidates"; "review applications";
   "prepare interview questions"; "buy groceries"; "pick up laundry";
   "return package"; "pay bills"; "renew subscription";
   "cancel gym membership"; "book dentist"; "schedule haircut";
   "water plants"; "clean apartment"; "do laundry"; "cook dinner"; "exercise";
   "meditate"; "read for 30 minutes"; "practice Spanish"; "take vitamins";
   "drink water"; "go for a walk"; "stretch"; "order supplies";
   "buy birthday gift"; "get flowers"; "pick up prescription"; "return shoes";
   "exchange jacket"; "order office supplies"; "buy charger"; "drop off mail";
   "go to bank"; "visit post office"; "get car serviced"; "renew license";
   "update passport"; "file taxes"; "submit expense report"
  ].

Definition PROJECTS : list string :=
  [
   "marketing"; "product"; "engineering"; "design"; "sales"; "operations";
   "personal"; "health"; "finance"; "learning"; "side project"; "home";
   "q1 goals"; "q2 planning"; "annual review"; "strategic initiative";
   "app redesign"; "backend migration"; "mobile app"; "web platform";
   "customer success"; "support"; "content"; "growth"; "partnerships"
  ].

Definition PERSON_NAMES : list string :=
  [
   "Michael"; "Sarah"; "John"; "Emily"; "David"; "Lisa"; "James"; "Jennifer";
   "Robert"; "Jessica"; "William"; "Ashley"; "Christopher"; "Amanda";
   "Daniel"; "Nicole"; "Matthew"; "Stephanie"; "Anthony"; "Melissa"; "Mark";
   "Michelle"; "Andrew"; "Elizabeth"; "Joshua"; "Kimberly"; "Steven";
   "Rebecca"; "Kevin"; "Laura"; "Brian"; "Rachel"; "Alex"; "Chris"; "Sam";
   "Jordan"; "Taylor"; "Morgan"; "Casey"; "Jamie"; "Cameron"; "Drew"; "Pat";
   "Quinn"; "Riley"; "Dr. Smith"; "Dr. Johnson"; "Professor Lee";
   "Coach Williams"
  ].

Definition COMPANY_NAMES : list string :=
  [
   "Acme"; "TechCorp"; "GlobalSoft"; "Innovate Inc"; "StartupX"; "ClientCo";
   "PartnerGroup"; "VentureOne"; "CloudNine"; "DataDriven"; "NextGen";
   "BlueChip"; "GreenLeaf"; "RedRock"; "SilverLine"; "GoldStar"
  ].

Definition TIMES : list string :=
  [
   "9am"; "10am"; "11am"; "12pm"; "1pm"; "2pm"; "3pm"; "4pm"; "5pm"; "6pm";
   "9"; "10"; "11"; "12"; "1"; "2"; "3"; "4"; "5"; "6"; "9:30"; "10:30";
   "11:30"; "12:30"; "1:30"; "2:30"; "3:30"; "4:30"; "morning"; "afternoon";
   "evening"; "noon"; "end of day"; "close of business"
  ].

Definition RELATIVE_TIMES : list string :=
  [
   "tomorrow"; "next week"; "next Monday"; "next Tuesday"; "next Wednesday";
   "this Friday"; "this weekend"; "in an hour"; "in 2 hours"; "in 30 minutes";
   "later today"; "tonight"; "this evening"; "next month"; "end of week"
  ].

Definition DURATIONS : list (string * Z) :=
  [
    ("30 minutes", 30%Z);
    ("1 hour", 60%Z);
    ("1.5 hours", 90%Z);
    ("2 hours", 120%Z);
    ("45 minutes", 45%Z);
    ("15 minutes", 15%Z);
    ("3 hours", 180%Z);
    ("half hour", 30%Z);
    ("an hour", 60%Z);
    ("couple hours", 120%Z)
  ].

Definition PRIORITIES : list string :=
  [
   "low"; "medium"; "high"
  ].


(** ** Template instantiation *)

(** [template.format(name=value, ...)] for the patterns of the script, whose
    fields are plain names: every field is replaced by its value.  (The values
    contain no brace, so replacing the fields one after the other gives the
    single pass of [str.format].) *)
Definition format (template : string) (args : list (string * string)) : string :=
  fold_left (fun s a => Str.replace ("{" ++ fst a ++ "}") (snd a) s) args template.

(** The replacement of [old] by [new] in the text of a JSON document, seen
    on the document's value: it reaches every string, keys included. *)
Fixpoint subst_value (old new : string) (v : value) : value :=
  match v with
  | VStr s => VStr (Str.replace old new s)
  | VList l => VList (List.map (subst_value old new) l)
  | VDict d =>
      VDict (List.map (fun kv => (Str.replace old new (fst kv),
                                  subst_value old new (snd kv))) d)
  | _ => v
  end.

(** [json.loads(json.dumps(output_template).replace("{a}", x).replace ...)]:
    a deep copy of the skeleton in which the placeholders are replaced, in
    the order of the [replace] calls.  A placeholder is a brace followed by a
    letter, which the punctuation of the document never forms, and the
    vocabularies hold no character that JSON escapes ([banks_plain] below),
    so the replacement in the text is the replacement in the strings. *)
Definition substitute (output_template : value) (args : list (string * string))
  : value :=
  fold_left (fun v a => subst_value ("{" ++ fst a ++ "}") (snd a) v)
            args output_template.

Definition no_template : template := ("", VDict []).

(** ** The category generators *)

Module SimpleCreation.

Definition idea_templates : list template :=
    [
      ("Create idea about {topic}",
         VDict ["action" ::= "create"; "type" ::= "idea";
         "title" ::= "{topic}"]);
      ("New idea about {topic}",
         VDict ["action" ::= "create"; "type" ::= "idea";
         "title" ::= "{topic}"]);
      ("Add idea for {topic}",
         VDict ["action" ::= "create"; "type" ::= "idea";
         "title" ::= "{topic}"]);
      ("Jot down idea about {topic}",
         VDict ["action" ::= "create"; "type" ::= "idea";
         "title" ::= "{topic}"]);
      ("Note about {topic}",
         VDict ["action" ::= "create"; "type" ::= "idea";
         "title" ::= "{topic}"]);
      ("I have an idea about {topic}",
         VDict ["action" ::= "create"; "type" ::= "idea";
         "title" ::= "{topic}"]);
      ("Thought about {topic}",
         VDict ["action" ::= "create"; "type" ::= "idea";
         "title" ::= "{topic}"]);
      ("Add thought on {topic}",
         VDict ["action" ::= "create"; "type" ::= "idea";
         "title" ::= "{topic}"]);
      ("Capture idea for {topic}",
         VDict ["action" ::= "create"; "type" ::= "idea";
         "title" ::= "{topic}"]);
      ("Quick idea {topic}",
         VDict ["action" ::= "create"; "type" ::= "idea";
         "title" ::= "{topic}"]);
      ("Idea {topic}",
         VDict ["action" ::= "create"; "type" ::= "idea";
         "title" ::= "{topic}"]);
      ("{topic} idea",
         VDict ["action" ::= "create"; "type" ::= "idea";
         "title" ::= "{topic}"]);
      ("Brain dump about {topic}",
         VDict ["action" ::= "create"; "type" ::= "idea";
         "title" ::= "{topic}"]);
      ("Let me note down {topic}",
         VDict ["action" ::= "create"; "type" ::= "idea";
         "title" ::= "{topic}"]);
      ("Save idea about {topic}",
         VDict ["action" ::= "create"; "type" ::= "idea";
         "title" ::= "{topic}"])
    ].

Definition task_templates : list template :=
    [
      ("Create task {task}",
         VDict ["action" ::= "create"; "type" ::= "task";
         "title" ::= "{task}"]);
      ("New task {task}",
         VDict ["action" ::= "create"; "type" ::= "task";
         "title" ::= "{task}"]);
      ("Add task {task}",
         VDict ["action" ::= "create"; "type" ::= "task";
         "title" ::= "{task}"]);
      ("I need to {task}",
         VDict ["action" ::= "create"; "type" ::= "task";
         "title" ::= "{task}"]);
      ("Remind me to {task}",
         VDict ["action" ::= "create"; "type" ::= "task";
         "title" ::= "{task}"]);
      ("Don't let me forget to {task}",
         VDict ["action" ::= "create"; "type" ::= "task";
         "title" ::= "{task}"]);
      ("Add to my list {task}",
         VDict ["action" ::= "create"; "type" ::= "task";
         "title" ::= "{task}"]);
      ("Todo {task}",
         VDict ["action" ::= "create"; "type" ::= "task";
         "title" ::= "{task}"]);
      ("To do {task}",
         VDict ["action" ::= "create"; "type" ::= "task";
         "title" ::= "{task}"]);
      ("{task}",
         VDict ["action" ::= "create"; "type" ::= "task";
         "title" ::= "{task}"]);
      ("Make sure I {task}",
         VDict ["action" ::= "create"; "type" ::= "task";
         "title" ::= "{task}"]);
      ("Put on my list {task}",
         VDict ["action" ::= "create"; "type" ::= "task";
         "title" ::= "{task}"]);
      ("Add {task} to tasks",
         VDict ["action" ::= "create"; "type" ::= "task";
         "title" ::= "{task}"]);
      ("Task to {task}",
         VDict ["action" ::= "create"; "type" ::= "task";
         "title" ::= "{task}"]);
      ("Need to {task}",
         VDict ["action" ::= "create"; "type" ::= "task"; "title" ::= "{task}"])
    ].

Definition project_templates : list template :=
    [
      ("Create project called {project}",
         VDict ["action" ::= "create"; "type" ::= "project";
         "title" ::= "{project}"]);
      ("New project {project}",
         VDict ["action" ::= "create"; "type" ::= "project";
         "title" ::= "{project}"]);
      ("Start a project for {project}",
         VDict ["action" ::= "create"; "type" ::= "project";
         "title" ::= "{project}"]);
      ("Add project {project}",
         VDict ["action" ::= "create"; "type" ::= "project";
         "title" ::= "{project}"])
    ].

Definition research_templates : list template :=
    [
      ("Save this article about {topic}",
         VDict ["action" ::= "create"; "type" ::= "research";
         "title" ::= "{topic}"]);
      ("Add to research {topic}",
         VDict ["action" ::= "create"; "type" ::= "research";
         "title" ::= "{topic}"]);
      ("Research about {topic}",
         VDict ["action" ::= "create"; "type" ::= "research";
         "title" ::= "{topic}"]);
      ("Look into {topic}",
         VDict ["action" ::= "create"; "type" ::= "research";
         "title" ::= "{topic}"]);
      ("Investigate {topic}",
         VDict ["action" ::= "create"; "type" ::= "research";
         "title" ::= "{topic}"])
    ].

Definition note_templates : list template :=
    [
      ("Create note about {topic}",
         VDict ["action" ::= "create"; "type" ::= "note";
         "title" ::= "{topic}"]);
      ("New note {topic}",
         VDict ["action" ::= "create"; "type" ::= "note";
         "title" ::= "{topic}"]);
      ("Add note about {topic}",
         VDict ["action" ::= "create"; "type" ::= "note";
         "title" ::= "{topic}"]);
      ("Quick note {topic}",
         VDict ["action" ::= "create"; "type" ::= "note";
         "title" ::= "{topic}"]);
      ("Note {topic}",
         VDict ["action" ::= "create"; "type" ::= "note";
         "title" ::= "{topic}"]);
      ("Floating note {topic}",
         VDict ["action" ::= "create"; "type" ::= "note";
         "title" ::= "{topic}"]);
      ("Add floating note about {topic}",
         VDict ["action" ::= "create"; "type" ::= "note";
         "title" ::= "{topic}"]);
      ("Drop a note about {topic}",
         VDict ["action" ::= "create"; "type" ::= "note";
         "title" ::= "{topic}"])
    ].

Definition thinkspace_templates : list template :=
    [
      ("Create thinkspace for {topic}",
         VDict ["action" ::= "create"; "type" ::= "thinkspace";
         "title" ::= "{topic}"]);
      ("New thinkspace {topic}",
         VDict ["action" ::= "create"; "type" ::= "thinkspace";
         "title" ::= "{topic}"]);
      ("Add thinkspace about {topic}",
         VDict ["action" ::= "create"; "type" ::= "thinkspace";
         "title" ::= "{topic}"]);
      ("Create canvas for {topic}",
         VDict ["action" ::= "create"; "type" ::= "thinkspace";
         "title" ::= "{topic}"]);
      ("New canvas {topic}",
         VDict ["action" ::= "create"; "type" ::= "thinkspace";
         "title" ::= "{topic}"]);
      ("Start a thinkspace for {topic}",
         VDict ["action" ::= "create"; "type" ::= "thinkspace";
         "title" ::= "{topic}"]);
      ("Make a thinking space for {topic}",
         VDict ["action" ::= "create"; "type" ::= "thinkspace";
         "title" ::= "{topic}"])
    ].

Definition connection_templates : list template :=
    [
      ("Create connection about {topic}",
         VDict ["action" ::= "create"; "type" ::= "connection";
         "title" ::= "{topic}"]);
      ("New connection {topic}",
         VDict ["action" ::= "create"; "type" ::= "connection";
         "title" ::= "{topic}"]);
      ("Add connection for {topic}",
         VDict ["action" ::= "create"; "type" ::= "connection";
         "title" ::= "{topic}"]);
      ("Mental model for {topic}",
         VDict ["action" ::= "create"; "type" ::= "connection";
         "title" ::= "{topic}"]);
      ("Create mental model about {topic}",
         VDict ["action" ::= "create"; "type" ::= "connection";
         "title" ::= "{topic}"]);
      ("Link {topic}",
         VDict ["action" ::= "create"; "type" ::= "connection";
         "title" ::= "{topic}"]);
      ("Connect {topic}",
         VDict ["action" ::= "create"; "type" ::= "connection";
         "title" ::= "{topic}"])
    ].

Definition idea_priority_templates : list template :=
    [
      ("Create {priority} priority idea about {topic}",
         VDict ["action" ::= "create"; "type" ::= "idea"; "title" ::= "{topic}";
         "metadata" ::= VDict ["priority" ::= "{priority}"]]);
      ("High priority idea about {topic}",
         VDict ["action" ::= "create"; "type" ::= "idea"; "title" ::= "{topic}";
         "metadata" ::= VDict ["priority" ::= "high"]]);
      ("Important idea about {topic}",
         VDict ["action" ::= "create"; "type" ::= "idea"; "title" ::= "{topic}";
         "metadata" ::= VDict ["priority" ::= "high"]])
    ].

Definition task_priority_templates : list template :=
    [
      ("Urgent task {task}",
         VDict ["action" ::= "create"; "type" ::= "task"; "title" ::= "{task}";
         "metadata" ::= VDict ["priority" ::= "high"]]);
      ("High priority {task}",
         VDict ["action" ::= "create"; "type" ::= "task"; "title" ::= "{task}";
         "metadata" ::= VDict ["priority" ::= "high"]]);
      ("Low priority {task}",
         VDict ["action" ::= "create"; "type" ::= "task"; "title" ::= "{task}";
         "metadata" ::= VDict ["priority" ::= "low"]]);
      ("Important {task}",
         VDict ["action" ::= "create"; "type" ::= "task"; "title" ::= "{task}";
         "metadata" ::= VDict ["priority" ::= "high"]]);
      ("When I get to it {task}",
         VDict ["action" ::= "create"; "type" ::= "task"; "title" ::= "{task}";
         "metadata" ::= VDict ["priority" ::= "low"]])
    ].

Definition all_templates : list template :=
    (times idea_templates 3 ++
     times task_templates 4 ++
     project_templates ++
     research_templates ++
     times note_templates 2 ++
     thinkspace_templates ++
     connection_templates ++
     idea_priority_templates ++
     task_priority_templates)%list.

End SimpleCreation.

(** One pass of the loop of [generate_simple_creation_examples] *)
Definition simple_creation_example : Rand example :=
  '(template, output_template) <- choice no_template SimpleCreation.all_templates ;;
  topic <- choice "" TOPICS ;;
  task <- choice "" TASKS ;;
  project <- choice "" PROJECTS ;;
  priority <- choice "" PRIORITIES ;;
  let input_text :=
    format template [("topic", topic); ("task", task);
                     ("project", project); ("priority", priority)] in
  let output :=
    substitute output_template [("topic", topic); ("task", task);
                                ("project", project); ("priority", priority)] in
  ret (Example input_text output).

Definition generate_simple_creation_examples (n : nat) : Rand (list example) :=
  repeatM n simple_creation_example.

(** [PROJECT_REFERENCES]: person, company and generic project names, each
    with its kind. *)
Definition get_project_references : list (string * string) :=
  (List.map (fun name => (name, "person")) PERSON_NAMES ++
   List.map (fun name => (name, "company")) COMPANY_NAMES ++
   List.map (fun name => (name, "project")) PROJECTS)%list.

Definition PROJECT_REFERENCES : list (string * string) := get_project_references.

Module ProjectSpecific.

Definition idea_for_project_templates : list template :=
    [
      ("Idea for {project_ref} {topic}",
         VDict ["action" ::= "create"; "type" ::= "idea"; "title" ::= "{topic}";
         "links" ::= VList [VDict ["type" ::= "project";
         "query" ::= "{project_ref}"]]]);
      ("Idea for {project_ref} about {topic}",
         VDict ["action" ::= "create"; "type" ::= "idea"; "title" ::= "{topic}";
         "links" ::= VList [VDict ["type" ::= "project";
         "query" ::= "{project_ref}"]]]);
      ("Idea for {project_ref}: {topic}",
         VDict ["action" ::= "create"; "type" ::= "idea"; "title" ::= "{topic}";
         "links" ::= VList [VDict ["type" ::= "project";
         "query" ::= "{project_ref}"]]]);
      ("New idea for {project_ref} {topic}",
         VDict ["action" ::= "create"; "type" ::= "idea"; "title" ::= "{topic}";
         "links" ::= VList [VDict ["type" ::= "project";
         "query" ::= "{project_ref}"]]]);
      ("New idea for {project_ref} about {topic}",
         VDict ["action" ::= "create"; "type" ::= "idea"; "title" ::= "{topic}";
         "links" ::= VList [VDict ["type" ::= "project";
         "query" ::= "{project_ref}"]]]);
      ("I just got this idea for {project_ref} {topic}",
         VDict ["action" ::= "create"; "type" ::= "idea"; "title" ::= "{topic}";
         "links" ::= VList [VDict ["type" ::= "project";
         "query" ::= "{project_ref}"]]]);
      ("I just had this idea for {project_ref} {topic}",
         VDict ["action" ::= "create"; "type" ::= "idea"; "title" ::= "{topic}";
         "links" ::= VList [VDict ["type" ::= "project";
         "query" ::= "{project_ref}"]]]);
      ("Just got an idea for {project_ref} {topic}",
         VDict ["action" ::= "create"; "type" ::= "idea"; "title" ::= "{topic}";
         "links" ::= VList [VDict ["type" ::= "project";
         "query" ::= "{project_ref}"]]]);
      ("Just had a thought for {project_ref} {topic}",
         VDict ["action" ::= "create"; "type" ::= "idea"; "title" ::= "{topic}";
         "links" ::= VList [VDict ["type" ::= "project";
         "query" ::= "{project_ref}"]]]);
      ("Thought for {project_ref} {topic}",
         VDict ["action" ::= "create"; "type" ::= "idea"; "title" ::= "{topic}";
         "links" ::= VList [VDict ["type" ::= "project";
         "query" ::= "{project_ref}"]]]);
      ("Quick thought for {project_ref} {topic}",
         VDict ["action" ::= "create"; "type" ::= "idea"; "title" ::= "{topic}";
         "links" ::= VList [VDict ["type" ::= "project";
         "query" ::= "{project_ref}"]]]);
      ("Note for {project_ref} {topic}",
         VDict ["action" ::= "create"; "type" ::= "idea"; "title" ::= "{topic}";
         "links" ::= VList [VDict ["type" ::= "project";
         "query" ::= "{project_ref}"]]]);
      ("Add note for {project_ref} {topic}",
         VDict ["action" ::= "create"; "type" ::= "idea"; "title" ::= "{topic}";
         "links" ::= VList [VDict ["type" ::= "project";
         "query" ::= "{project_ref}"]]]);
      ("Add to {project_ref} {topic}",
         VDict ["action" ::= "create"; "type" ::= "idea"; "title" ::= "{topic}";
         "links" ::= VList [VDict ["type" ::= "project";
         "query" ::= "{project_ref}"]]]);
      ("Add to {project_ref} inbox {topic}",
         VDict ["action" ::= "create"; "type" ::= "idea"; "title" ::= "{topic}";
         "links" ::= VList [VDict ["type" ::= "project";
         "query" ::= "{project_ref}"]]]);
      ("Put in {project_ref} inbox {topic}",
         VDict ["action" ::= "create"; "type" ::= "idea"; "title" ::= "{topic}";
         "links" ::= VList [VDict ["type" ::= "project";
         "query" ::= "{project_ref}"]]]);
      ("For {project_ref} {topic}",
         VDict ["action" ::= "create"; "type" ::= "idea"; "title" ::= "{topic}";
         "links" ::= VList [VDict ["type" ::= "project";
         "query" ::= "{project_ref}"]]]);
      ("For {project_ref} idea about {topic}",
         VDict ["action" ::= "create"; "type" ::= "idea"; "title" ::= "{topic}";
         "links" ::= VList [VDict ["type" ::= "project";
         "query" ::= "{project_ref}"]]]);
      ("Idea for {project_ref} project {topic}",
         VDict ["action" ::= "create"; "type" ::= "idea"; "title" ::= "{topic}";
         "links" ::= VList [VDict ["type" ::= "project";
         "query" ::= "{project_ref}"]]]);
      ("Add idea to {project_ref} project {topic}",
         VDict ["action" ::= "create"; "type" ::= "idea"; "title" ::= "{topic}";
         "links" ::= VList [VDict ["type" ::= "project";
         "query" ::= "{project_ref}"]]]);
      ("Capture for {project_ref} {topic}",
         VDict ["action" ::= "create"; "type" ::= "idea"; "title" ::= "{topic}";
         "links" ::= VList [VDict ["type" ::= "project";
         "query" ::= "{project_ref}"]]]);
      ("Save for {project_ref} {topic}",
         VDict ["action" ::= "create"; "type" ::= "idea"; "title" ::= "{topic}";
         "links" ::= VList [VDict ["type" ::= "project";
         "query" ::= "{project_ref}"]]])
    ].

Definition task_for_project_templates : list template :=
    [
      ("Task for {project_ref} {task}",
         VDict ["action" ::= "create"; "type" ::= "task"; "title" ::= "{task}";
         "links" ::= VList [VDict ["type" ::= "project";
         "query" ::= "{project_ref}"]]]);
      ("New task for {project_ref} {task}",
         VDict ["action" ::= "create"; "type" ::= "task"; "title" ::= "{task}";
         "links" ::= VList [VDict ["type" ::= "project";
         "query" ::= "{project_ref}"]]]);
      ("Add task for {project_ref} {task}",
         VDict ["action" ::= "create"; "type" ::= "task"; "title" ::= "{task}";
         "links" ::= VList [VDict ["type" ::= "project";
         "query" ::= "{project_ref}"]]]);
      ("Add task to {project_ref} {task}",
         VDict ["action" ::= "create"; "type" ::= "task"; "title" ::= "{task}";
         "links" ::= VList [VDict ["type" ::= "project";
         "query" ::= "{project_ref}"]]]);
      ("Create task in {project_ref} {task}",
         VDict ["action" ::= "create"; "type" ::= "task"; "title" ::= "{task}";
         "links" ::= VList [VDict ["type" ::= "project";
         "query" ::= "{project_ref}"]]]);
      ("For {project_ref} {task}",
         VDict ["action" ::= "create"; "type" ::= "task"; "title" ::= "{task}";
         "links" ::= VList [VDict ["type" ::= "project";
         "query" ::= "{project_ref}"]]]);
      ("For {project_ref} task to {task}",
         VDict ["action" ::= "create"; "type" ::= "task"; "title" ::= "{task}";
         "links" ::= VList [VDict ["type" ::= "project";
         "query" ::= "{project_ref}"]]]);
      ("I need to {task} for {project_ref}",
         VDict ["action" ::= "create"; "type" ::= "task"; "title" ::= "{task}";
         "links" ::= VList [VDict ["type" ::= "project";
         "query" ::= "{project_ref}"]]]);
      ("Need to {task} for {project_ref}",
         VDict ["action" ::= "create"; "type" ::= "task"; "title" ::= "{task}";
         "links" ::= VList [VDict ["type" ::= "project";
         "query" ::= "{project_ref}"]]]);
      ("Remind me for {project_ref} to {task}",
         VDict ["action" ::= "create"; "type" ::= "task"; "title" ::= "{task}";
         "links" ::= VList [VDict ["type" ::= "project";
         "query" ::= "{project_ref}"]]]);
      ("Task for {project_ref} project {task}",
         VDict ["action" ::= "create"; "type" ::= "task"; "title" ::= "{task}";
         "links" ::= VList [VDict ["type" ::= "project";
         "query" ::= "{project_ref}"]]]);
      ("{task} for {project_ref} project",
         VDict ["action" ::= "create"; "type" ::= "task"; "title" ::= "{task}";
         "links" ::= VList [VDict ["type" ::= "project";
         "query" ::= "{project_ref}"]]]);
      ("Todo for {project_ref} {task}",
         VDict ["action" ::= "create"; "type" ::= "task"; "title" ::= "{task}";
         "links" ::= VList [VDict ["type" ::= "project";
         "query" ::= "{project_ref}"]]]);
      ("To do for {project_ref} {task}",
         VDict ["action" ::= "create"; "type" ::= "task"; "title" ::= "{task}";
         "links" ::= VList [VDict ["type" ::= "project";
         "query" ::= "{project_ref}"]]])
    ].

Definition research_for_project_templates : list template :=
    [
      ("Research for {project_ref} {topic}",
         VDict ["action" ::= "create"; "type" ::= "research";
         "title" ::= "{topic}"; "links" ::= VList [VDict ["type" ::= "project";
         "query" ::= "{project_ref}"]]]);
      ("Add research for {project_ref} about {topic}",
         VDict ["action" ::= "create"; "type" ::= "research";
         "title" ::= "{topic}"; "links" ::= VList [VDict ["type" ::= "project";
         "query" ::= "{project_ref}"]]]);
      ("Save for {project_ref} research {topic}",
         VDict ["action" ::= "create"; "type" ::= "research";
         "title" ::= "{topic}"; "links" ::= VList [VDict ["type" ::= "project";
         "query" ::= "{project_ref}"]]])
    ].

Definition ending_with_for_templates : list template :=
    [
      ("{topic} idea for {project_ref}",
         VDict ["action" ::= "create"; "type" ::= "idea"; "title" ::= "{topic}";
         "links" ::= VList [VDict ["type" ::= "project";
         "query" ::= "{project_ref}"]]]);
      ("Idea about {topic} for {project_ref}",
         VDict ["action" ::= "create"; "type" ::= "idea"; "title" ::= "{topic}";
         "links" ::= VList [VDict ["type" ::= "project";
         "query" ::= "{project_ref}"]]]);
      ("New idea about {topic} for {project_ref}",
         VDict ["action" ::= "create"; "type" ::= "idea"; "title" ::= "{topic}";
         "links" ::= VList [VDict ["type" ::= "project";
         "query" ::= "{project_ref}"]]]);
      ("Thought about {topic} for {project_ref}",
         VDict ["action" ::= "create"; "type" ::= "idea"; "title" ::= "{topic}";
         "links" ::= VList [VDict ["type" ::= "project";
         "query" ::= "{project_ref}"]]]);
      ("{task} for {project_ref}",
         VDict ["action" ::= "create"; "type" ::= "task"; "title" ::= "{task}";
         "links" ::= VList [VDict ["type" ::= "project";
         "query" ::= "{project_ref}"]]]);
      ("Task {task} for {project_ref}",
         VDict ["action" ::= "create"; "type" ::= "task"; "title" ::= "{task}";
         "links" ::= VList [VDict ["type" ::= "project";
         "query" ::= "{project_ref}"]]])
    ].

Definition all_templates : list template :=
    (times idea_for_project_templates 4 ++
     times task_for_project_templates 3 ++
     research_for_project_templates ++
     times ending_with_for_templates 2)%list.

End ProjectSpecific.

(** One pass of the loop of [generate_project_specific_examples] *)
Definition project_specific_example : Rand example :=
  '(template, output_template) <- choice no_template ProjectSpecific.all_templates ;;
  '(project_ref, ref_type) <- choice ("", "") PROJECT_REFERENCES ;;
  topic <- choice "" TOPICS ;;
  task <- choice "" TASKS ;;
  let input_text :=
    format template [("project_ref", project_ref); ("topic", topic);
                     ("task", task)] in
  let output :=
    substitute output_template [("project_ref", project_ref);
                                ("topic", topic); ("task", task)] in
  ret (Example input_text output).

Definition generate_project_specific_examples (n : nat) : Rand (list example) :=
  repeatM n project_specific_example.

Module TimedCreation.

Definition timed_task_templates : list template :=
    [
      ("Task {task} at {time}",
         VDict ["action" ::= "create"; "type" ::= "task"; "title" ::= "{task}";
         "metadata" ::= VDict ["startTime" ::= "{time}"]]);
      ("{task} at {time}",
         VDict ["action" ::= "create"; "type" ::= "task"; "title" ::= "{task}";
         "metadata" ::= VDict ["startTime" ::= "{time}"]]);
      ("Remind me to {task} at {time}",
         VDict ["action" ::= "create"; "type" ::= "task"; "title" ::= "{task}";
         "metadata" ::= VDict ["startTime" ::= "{time}"]]);
      ("Schedule {task} for {time}",
         VDict ["action" ::= "create"; "type" ::= "task"; "title" ::= "{task}";
         "metadata" ::= VDict ["startTime" ::= "{time}"]]);
      ("{task} scheduled for {time}",
         VDict ["action" ::= "create"; "type" ::= "task"; "title" ::= "{task}";
         "metadata" ::= VDict ["startTime" ::= "{time}"]]);
      ("Put {task} at {time}",
         VDict ["action" ::= "create"; "type" ::= "task"; "title" ::= "{task}";
         "metadata" ::= VDict ["startTime" ::= "{time}"]])
    ].

Definition relative_task_templates : list template :=
    [
      ("{task} {relative_time}",
         VDict ["action" ::= "create"; "type" ::= "task"; "title" ::= "{task}";
         "metadata" ::= VDict ["startTime" ::= "{relative_time}"]]);
      ("Remind me {relative_time} to {task}",
         VDict ["action" ::= "create"; "type" ::= "task"; "title" ::= "{task}";
         "metadata" ::= VDict ["startTime" ::= "{relative_time}"]]);
      ("Schedule {task} for {relative_time}",
         VDict ["action" ::= "create"; "type" ::= "task"; "title" ::= "{task}";
         "metadata" ::= VDict ["startTime" ::= "{relative_time}"]]);
      ("{relative_time} {task}",
         VDict ["action" ::= "create"; "type" ::= "task"; "title" ::= "{task}";
         "metadata" ::= VDict ["startTime" ::= "{relative_time}"]])
    ].

Definition block_range_templates : list template :=
    [
      ("Block {start_time} to {end_time} for {block_name}",
         VDict ["action" ::= "create"; "type" ::= "schedule_block";
         "title" ::= "{block_name}";
         "metadata" ::= VDict ["startTime" ::= "{start_time}";
         "endTime" ::= "{end_time}"; "blockType" ::= "focus"]]);
      ("Deep work from {start_time} to {end_time}",
         VDict ["action" ::= "create"; "type" ::= "schedule_block";
         "title" ::= "Deep work";
         "metadata" ::= VDict ["startTime" ::= "{start_time}";
         "endTime" ::= "{end_time}"; "blockType" ::= "focus"]]);
      ("Focus time {start_time} to {end_time}",
         VDict ["action" ::= "create"; "type" ::= "schedule_block";
         "title" ::= "Focus time";
         "metadata" ::= VDict ["startTime" ::= "{start_time}";
         "endTime" ::= "{end_time}"; "blockType" ::= "focus"]]);
      ("Meeting from {start_time} to {end_time} {block_name}",
         VDict ["action" ::= "create"; "type" ::= "schedule_block";
         "title" ::= "{block_name}";
         "metadata" ::= VDict ["startTime" ::= "{start_time}";
         "endTime" ::= "{end_time}"; "blockType" ::= "event"]]);
      ("{block_name} from {start_time} to {end_time}",
         VDict ["action" ::= "create"; "type" ::= "schedule_block";
         "title" ::= "{block_name}";
         "metadata" ::= VDict ["startTime" ::= "{start_time}";
         "endTime" ::= "{end_time}"; "blockType" ::= "task"]])
    ].

Definition block_duration_templates : list template :=
    [
      ("Block {duration} for {block_name} at {time}",
         VDict ["action" ::= "create"; "type" ::= "schedule_block";
         "title" ::= "{block_name}";
         "metadata" ::= VDict ["startTime" ::= "{time}";
         "duration" ::= "{duration}"; "blockType" ::= "task"]]);
      ("{duration} of {block_name} at {time}",
         VDict ["action" ::= "create"; "type" ::= "schedule_block";
         "title" ::= "{block_name}";
         "metadata" ::= VDict ["startTime" ::= "{time}";
         "duration" ::= "{duration}"; "blockType" ::= "task"]]);
      ("Schedule {duration} for {block_name}",
         VDict ["action" ::= "create"; "type" ::= "schedule_block";
         "title" ::= "{block_name}";
         "metadata" ::= VDict ["duration" ::= "{duration}";
         "blockType" ::= "task"]])
    ].

Definition meeting_templates : list template :=
    [
      ("Meeting with {person} at {time}",
         VDict ["action" ::= "create"; "type" ::= "schedule_block";
         "title" ::= "Meeting with {person}";
         "metadata" ::= VDict ["startTime" ::= "{time}";
         "blockType" ::= "event"]]);
      ("Call with {person} at {time}",
         VDict ["action" ::= "create"; "type" ::= "schedule_block";
         "title" ::= "Call with {person}";
         "metadata" ::= VDict ["startTime" ::= "{time}";
         "blockType" ::= "event"]]);
      ("1:1 with {person} at {time}",
         VDict ["action" ::= "create"; "type" ::= "schedule_block";
         "title" ::= "1:1 with {person}";
         "metadata" ::= VDict ["startTime" ::= "{time}";
         "blockType" ::= "event"]]);
      ("Sync with {person} {relative_time}",
         VDict ["action" ::= "create"; "type" ::= "schedule_block";
         "title" ::= "Sync with {person}";
         "metadata" ::= VDict ["startTime" ::= "{relative_time}";
         "blockType" ::= "event"]])
    ].

Definition timed_task_project_templates : list template :=
    [
      ("Task for {project_ref} {task} at {time}",
         VDict ["action" ::= "create"; "type" ::= "task"; "title" ::= "{task}";
         "metadata" ::= VDict ["startTime" ::= "{time}"];
         "links" ::= VList [VDict ["type" ::= "project";
         "query" ::= "{project_ref}"]]]);
      ("{task} for {project_ref} at {time}",
         VDict ["action" ::= "create"; "type" ::= "task"; "title" ::= "{task}";
         "metadata" ::= VDict ["startTime" ::= "{time}"];
         "links" ::= VList [VDict ["type" ::= "project";
         "query" ::= "{project_ref}"]]]);
      ("Remind me for {project_ref} to {task} at {time}",
         VDict ["action" ::= "create"; "type" ::= "task"; "title" ::= "{task}";
         "metadata" ::= VDict ["startTime" ::= "{time}"];
         "links" ::= VList [VDict ["type" ::= "project";
         "query" ::= "{project_ref}"]]])
    ].

Definition people : list string :=
    [
     "John"; "Sarah"; "Alex"; "Mike"; "Lisa"; "David"; "Emily"; "Chris";
     "Rachel"; "Tom"; "the team"; "marketing"; "design"; "engineering";
     "product"
    ].

Definition block_names : list string :=
    [
     "deep work"; "focused coding"; "writing time"; "review session";
     "planning"; "research"; "reading"; "admin tasks"; "emails";
     "brainstorming"
    ].

  (** [list(range(8, 18))] *)
Definition hours : list Z := [8; 9; 10; 11; 12; 13; 14; 15; 16; 17]%Z.

Definition template_types : list string :=
    ["timed_task"; "relative_task"; "block_range"; "block_duration";
     "meeting"; "timed_project"].

  (** [f"{hour}{'pm' if hour >= 12 else 'am'}"] *)
Definition clock (hour : Z) : string :=
    Str.of_Z hour ++ (if (12 <=? hour)%Z then "pm" else "am").

End TimedCreation.

(** One pass of the loop of [generate_timed_creation_examples] *)
Definition timed_creation_example : Rand example :=
  template_type <- choice "" TimedCreation.template_types ;;
  if String.eqb template_type "timed_task" then
    '(template, output_template) <- choice no_template TimedCreation.timed_task_templates ;;
    task <- choice "" TASKS ;;
    time <- choice "" TIMES ;;
    ret (Example (format template [("task", task); ("time", time)])
                 (substitute output_template [("task", task); ("time", time)]))
  else if String.eqb template_type "relative_task" then
    '(template, output_template) <- choice no_template TimedCreation.relative_task_templates ;;
    task <- choice "" TASKS ;;
    relative_time <- choice "" RELATIVE_TIMES ;;
    ret (Example
           (format template [("task", task); ("relative_time", relative_time)])
           (substitute output_template
              [("task", task); ("relative_time", relative_time)]))
  else if String.eqb template_type "block_range" then
    '(template, output_template) <- choice no_template TimedCreation.block_range_templates ;;
    start_hour <- choice 0%Z (firstn (length TimedCreation.hours - 2) TimedCreation.hours) ;;
    delta <- choice 0%Z [1; 2; 3]%Z ;;
    let end_hour := (start_hour + delta)%Z in
    let start_time := TimedCreation.clock start_hour in
    let end_time := TimedCreation.clock end_hour in
    block_name <- choice "" TimedCreation.block_names ;;
    ret (Example
           (format template [("start_time", start_time); ("end_time", end_time);
                             ("block_name", block_name)])
           (substitute output_template
              [("start_time", start_time); ("end_time", end_time);
               ("block_name", block_name)]))
  else if String.eqb template_type "block_duration" then
    '(template, output_template) <- choice no_template TimedCreation.block_duration_templates ;;
    '(duration, _) <- choice ("", 0%Z) DURATIONS ;;
    block_name <- choice "" TimedCreation.block_names ;;
    time <- choice "" TIMES ;;
    ret (Example
           (format template [("duration", duration); ("block_name", block_name);
                             ("time", time)])
           (substitute output_template
              [("duration", duration); ("block_name", block_name);
               ("time", time)]))
  else if String.eqb template_type "timed_project" then
    '(template, output_template) <- choice no_template TimedCreation.timed_task_project_templates ;;
    task <- choice "" TASKS ;;
    time <- choice "" TIMES ;;
    '(project_ref, _) <- choice ("", "") PROJECT_REFERENCES ;;
    ret (Example
           (format template [("task", task); ("time", time);
                             ("project_ref", project_ref)])
           (substitute output_template
              [("task", task); ("time", time); ("project_ref", project_ref)]))
  else
    '(template, output_template) <- choice no_template TimedCreation.meeting_templates ;;
    person <- choice "" TimedCreation.people ;;
    time <- choice "" TIMES ;;
    relative_time <- choice "" RELATIVE_TIMES ;;
    ret (Example
           (format template [("person", person); ("time", time);
                             ("relative_time", relative_time)])
           (substitute output_template
              [("person", person); ("time", time);
               ("relative_time", relative_time)])).

Definition generate_timed_creation_examples (n : nat) : Rand (list example) :=
  repeatM n timed_creation_example.

Module Modification.

Definition status_templates : list template :=
    [
      ("Mark as complete",
         VDict ["action" ::= "update"; "target" ::= "context";
         "metadata" ::= VDict ["status" ::= "completed"]]);
      ("Done",
         VDict ["action" ::= "update"; "target" ::= "context";
         "metadata" ::= VDict ["status" ::= "completed"]]);
      ("Complete",
         VDict ["action" ::= "update"; "target" ::= "context";
         "metadata" ::= VDict ["status" ::= "completed"]]);
      ("Finish this",
         VDict ["action" ::= "update"; "target" ::= "context";
         "metadata" ::= VDict ["status" ::= "completed"]]);
      ("Check this off",
         VDict ["action" ::= "update"; "target" ::= "context";
         "metadata" ::= VDict ["status" ::= "completed"]]);
      ("I finished this",
         VDict ["action" ::= "update"; "target" ::= "context";
         "metadata" ::= VDict ["status" ::= "completed"]]);
      ("That's done",
         VDict ["action" ::= "update"; "target" ::= "context";
         "metadata" ::= VDict ["status" ::= "completed"]]);
      ("Mark in progress",
         VDict ["action" ::= "update"; "target" ::= "context";
         "metadata" ::= VDict ["status" ::= "in_progress"]]);
      ("Start working on this",
         VDict ["action" ::= "update"; "target" ::= "context";
         "metadata" ::= VDict ["status" ::= "in_progress"]]);
      ("Working on it",
         VDict ["action" ::= "update"; "target" ::= "context";
         "metadata" ::= VDict ["status" ::= "in_progress"]]);
      ("Reopen this",
         VDict ["action" ::= "update"; "target" ::= "context";
         "metadata" ::= VDict ["status" ::= "todo"]]);
      ("Not done yet",
         VDict ["action" ::= "update"; "target" ::= "context";
         "metadata" ::= VDict ["status" ::= "todo"]]);
      ("Undo complete",
         VDict ["action" ::= "update"; "target" ::= "context";
         "metadata" ::= VDict ["status" ::= "todo"]])
    ].

Definition time_templates : list template :=
    [
      ("Move to {time}",
         VDict ["action" ::= "update"; "target" ::= "context";
         "metadata" ::= VDict ["startTime" ::= "{time}"]]);
      ("Reschedule to {time}",
         VDict ["action" ::= "update"; "target" ::= "context";
         "metadata" ::= VDict ["startTime" ::= "{time}"]]);
      ("Push to {time}",
         VDict ["action" ::= "update"; "target" ::= "context";
         "metadata" ::= VDict ["startTime" ::= "{time}"]]);
      ("Change time to {time}",
         VDict ["action" ::= "update"; "target" ::= "context";
         "metadata" ::= VDict ["startTime" ::= "{time}"]]);
      ("Move this to {relative_time}",
         VDict ["action" ::= "update"; "target" ::= "context";
         "metadata" ::= VDict ["startTime" ::= "{relative_time}"]]);
      ("Delay to {relative_time}",
         VDict ["action" ::= "update"; "target" ::= "context";
         "metadata" ::= VDict ["startTime" ::= "{relative_time}"]]);
      ("Extend to {time}",
         VDict ["action" ::= "update"; "target" ::= "context";
         "metadata" ::= VDict ["endTime" ::= "{time}"]]);
      ("End at {time}",
         VDict ["action" ::= "update"; "target" ::= "context";
         "metadata" ::= VDict ["endTime" ::= "{time}"]]);
      ("Make it end at {time}",
         VDict ["action" ::= "update"; "target" ::= "context";
         "metadata" ::= VDict ["endTime" ::= "{time}"]])
    ].

Definition priority_templates : list template :=
    [
      ("Make this high priority",
         VDict ["action" ::= "update"; "target" ::= "context";
         "metadata" ::= VDict ["priority" ::= "high"]]);
      ("High priority",
         VDict ["action" ::= "update"; "target" ::= "context";
         "metadata" ::= VDict ["priority" ::= "high"]]);
      ("This is urgent",
         VDict ["action" ::= "update"; "target" ::= "context";
         "metadata" ::= VDict ["priority" ::= "high"]]);
      ("Important",
         VDict ["action" ::= "update"; "target" ::= "context";
         "metadata" ::= VDict ["priority" ::= "high"]]);
      ("Lower the priority",
         VDict ["action" ::= "update"; "target" ::= "context";
         "metadata" ::= VDict ["priority" ::= "low"]]);
      ("Low priority",
         VDict ["action" ::= "update"; "target" ::= "context";
         "metadata" ::= VDict ["priority" ::= "low"]]);
      ("Not that important",
         VDict ["action" ::= "update"; "target" ::= "context";
         "metadata" ::= VDict ["priority" ::= "low"]]);
      ("Normal priority",
         VDict ["action" ::= "update"; "target" ::= "context";
         "metadata" ::= VDict ["priority" ::= "medium"]]);
      ("Medium priority",
         VDict ["action" ::= "update"; "target" ::= "context";
         "metadata" ::= VDict ["priority" ::= "medium"]])
    ].

Definition project_templates : list template :=
    [
      ("Add to {project} project",
         VDict ["action" ::= "update"; "target" ::= "context";
         "links" ::= VList [VDict ["type" ::= "project";
         "query" ::= "{project}"]]]);
      ("Move to {project}",
         VDict ["action" ::= "update"; "target" ::= "context";
         "links" ::= VList [VDict ["type" ::= "project";
         "query" ::= "{project}"]]]);
      ("Put this in {project}",
         VDict ["action" ::= "update"; "target" ::= "context";
         "links" ::= VList [VDict ["type" ::= "project";
         "query" ::= "{project}"]]]);
      ("Assign to {project}",
         VDict ["action" ::= "update"; "target" ::= "context";
         "links" ::= VList [VDict ["type" ::= "project";
         "query" ::= "{project}"]]]);
      ("This belongs in {project}",
         VDict ["action" ::= "update"; "target" ::= "context";
         "links" ::= VList [VDict ["type" ::= "project";
         "query" ::= "{project}"]]]);
      ("Add to {person_name}",
         VDict ["action" ::= "update"; "target" ::= "context";
         "links" ::= VList [VDict ["type" ::= "project";
         "query" ::= "{person_name}"]]]);
      ("Move to {person_name}",
         VDict ["action" ::= "update"; "target" ::= "context";
         "links" ::= VList [VDict ["type" ::= "project";
         "query" ::= "{person_name}"]]]);
      ("Put in {person_name} inbox",
         VDict ["action" ::= "update"; "target" ::= "context";
         "links" ::= VList [VDict ["type" ::= "project";
         "query" ::= "{person_name}"]]]);
      ("Send to {person_name}",
         VDict ["action" ::= "update"; "target" ::= "context";
         "links" ::= VList [VDict ["type" ::= "project";
         "query" ::= "{person_name}"]]])
    ].

Definition content_templates : list template :=
    [
      ("Rename to {task}",
         VDict ["action" ::= "update"; "target" ::= "context";
         "title" ::= "{task}"]);
      ("Change title to {task}",
         VDict ["action" ::= "update"; "target" ::= "context";
         "title" ::= "{task}"]);
      ("Call it {task} instead",
         VDict ["action" ::= "update"; "target" ::= "context";
         "title" ::= "{task}"]);
      ("Actually make it {task}",
         VDict ["action" ::= "update"; "target" ::= "context";
         "title" ::= "{task}"])
    ].

Definition delete_templates : list template :=
    [
      ("Delete this", VDict ["action" ::= "delete"; "target" ::= "context"]);
      ("Remove this", VDict ["action" ::= "delete"; "target" ::= "context"]);
      ("Delete that", VDict ["action" ::= "delete"; "target" ::= "context"]);
      ("Get rid of this",
         VDict ["action" ::= "delete"; "target" ::= "context"]);
      ("Remove it", VDict ["action" ::= "delete"; "target" ::= "context"]);
      ("Cancel this", VDict ["action" ::= "delete"; "target" ::= "context"]);
      ("Never mind", VDict ["action" ::= "delete"; "target" ::= "context"])
    ].

Definition all_templates : list template :=
    (times status_templates 3 ++
     times time_templates 2 ++
     times priority_templates 2 ++
     times project_templates 3 ++
     content_templates ++
     times delete_templates 2)%list.

End Modification.

(** One pass of the loop of [generate_modification_examples] *)
Definition modification_example : Rand example :=
  '(template, output_template) <- choice no_template Modification.all_templates ;;
  time <- choice "" TIMES ;;
  relative_time <- choice "" RELATIVE_TIMES ;;
  project <- choice "" PROJECTS ;;
  person_name <- choice "" PERSON_NAMES ;;
  task <- choice "" TASKS ;;
  let input_text :=
    format template [("time", time); ("relative_time", relative_time);
                     ("project", project); ("task", task);
                     ("person_name", person_name)] in
  let output :=
    substitute output_template
      [("time", time); ("relative_time", relative_time);
       ("project", project); ("person_name", person_name); ("task", task)] in
  ret (Example input_text output).

Definition generate_modification_examples (n : nat) : Rand (list example) :=
  repeatM n modification_example.

Module Search.

Definition type_search_templates : list template :=
    [
      ("Find ideas about {query}",
         VDict ["action" ::= "search"; "type" ::= "idea";
         "query" ::= "{query}"]);
      ("Show ideas about {query}",
         VDict ["action" ::= "search"; "type" ::= "idea";
         "query" ::= "{query}"]);
      ("Search ideas for {query}",
         VDict ["action" ::= "search"; "type" ::= "idea";
         "query" ::= "{query}"]);
      ("What ideas do I have about {query}",
         VDict ["action" ::= "search"; "type" ::= "idea";
         "query" ::= "{query}"]);
      ("Find tasks about {query}",
         VDict ["action" ::= "search"; "type" ::= "task";
         "query" ::= "{query}"]);
      ("Show tasks for {query}",
         VDict ["action" ::= "search"; "type" ::= "task";
         "query" ::= "{query}"]);
      ("What tasks are related to {query}",
         VDict ["action" ::= "search"; "type" ::= "task";
         "query" ::= "{query}"]);
      ("Find research on {query}",
         VDict ["action" ::= "search"; "type" ::= "research";
         "query" ::= "{query}"]);
      ("Show me research about {query}",
         VDict ["action" ::= "search"; "type" ::= "research";
         "query" ::= "{query}"]);
      ("What research do I have on {query}",
         VDict ["action" ::= "search"; "type" ::= "research";
         "query" ::= "{query}"]);
      ("Find notes about {query}",
         VDict ["action" ::= "search"; "type" ::= "note";
         "query" ::= "{query}"]);
      ("Show notes about {query}",
         VDict ["action" ::= "search"; "type" ::= "note";
         "query" ::= "{query}"]);
      ("Search notes for {query}",
         VDict ["action" ::= "search"; "type" ::= "note";
         "query" ::= "{query}"]);
      ("What notes do I have about {query}",
         VDict ["action" ::= "search"; "type" ::= "note";
         "query" ::= "{query}"]);
      ("Find thinkspaces about {query}",
         VDict ["action" ::= "search"; "type" ::= "thinkspace";
         "query" ::= "{query}"]);
      ("Show thinkspaces for {query}",
         VDict ["action" ::= "search"; "type" ::= "thinkspace";
         "query" ::= "{query}"]);
      ("What canvases do I have about {query}",
         VDict ["action" ::= "search"; "type" ::= "thinkspace";
         "query" ::= "{query}"]);
      ("Find connections about {query}",
         VDict ["action" ::= "search"; "type" ::= "connection";
         "query" ::= "{query}"]);
      ("Show connections for {query}",
         VDict ["action" ::= "search"; "type" ::= "connection";
         "query" ::= "{query}"]);
      ("What mental models do I have about {query}",
         VDict ["action" ::= "search"; "type" ::= "connection";
         "query" ::= "{query}"])
    ].

Definition general_search_templates : list template :=
    [
      ("Search for {query}",
         VDict ["action" ::= "search"; "query" ::= "{query}"]);
      ("Find {query}", VDict ["action" ::= "search"; "query" ::= "{query}"]);
      ("Look for {query}",
         VDict ["action" ::= "search"; "query" ::= "{query}"]);
      ("What do I have about {query}",
         VDict ["action" ::= "search"; "query" ::= "{query}"]);
      ("Search {query}", VDict ["action" ::= "search"; "query" ::= "{query}"]);
      ("Find anything about {query}",
         VDict ["action" ::= "search"; "query" ::= "{query}"])
    ].

Definition time_search_templates : list template :=
    [
      ("What tasks are due today",
         VDict ["action" ::= "search"; "type" ::= "task";
         "filter" ::= VDict ["dueDate" ::= "today"]]);
      ("Show me today's tasks",
         VDict ["action" ::= "search"; "type" ::= "task";
         "filter" ::= VDict ["dueDate" ::= "today"]]);
      ("What's due this week",
         VDict ["action" ::= "search"; "type" ::= "task";
         "filter" ::= VDict ["dueDate" ::= "this week"]]);
      ("Tasks for tomorrow",
         VDict ["action" ::= "search"; "type" ::= "task";
         "filter" ::= VDict ["dueDate" ::= "tomorrow"]]);
      ("What do I have scheduled today",
         VDict ["action" ::= "search"; "type" ::= "schedule_block";
         "filter" ::= VDict ["date" ::= "today"]]);
      ("Show my schedule for tomorrow",
         VDict ["action" ::= "search"; "type" ::= "schedule_block";
         "filter" ::= VDict ["date" ::= "tomorrow"]])
    ].

Definition status_search_templates : list template :=
    [
      ("Show completed tasks",
         VDict ["action" ::= "search"; "type" ::= "task";
         "filter" ::= VDict ["status" ::= "completed"]]);
      ("What have I finished",
         VDict ["action" ::= "search"; "type" ::= "task";
         "filter" ::= VDict ["status" ::= "completed"]]);
      ("Show open tasks",
         VDict ["action" ::= "search"; "type" ::= "task";
         "filter" ::= VDict ["status" ::= "todo"]]);
      ("What's left to do",
         VDict ["action" ::= "search"; "type" ::= "task";
         "filter" ::= VDict ["status" ::= "todo"]]);
      ("Tasks in progress",
         VDict ["action" ::= "search"; "type" ::= "task";
         "filter" ::= VDict ["status" ::= "in_progress"]]);
      ("What am I working on",
         VDict ["action" ::= "search"; "type" ::= "task";
         "filter" ::= VDict ["status" ::= "in_progress"]])
    ].

Definition project_search_templates : list template :=
    [
      ("Show tasks in {project}",
         VDict ["action" ::= "search"; "type" ::= "task";
         "filter" ::= VDict ["project" ::= "{project}"]]);
      ("What's in {project} project",
         VDict ["action" ::= "search";
         "filter" ::= VDict ["project" ::= "{project}"]]);
      ("Ideas for {project}",
         VDict ["action" ::= "search"; "type" ::= "idea";
         "filter" ::= VDict ["project" ::= "{project}"]]);
      ("Everything in {project}",
         VDict ["action" ::= "search";
         "filter" ::= VDict ["project" ::= "{project}"]]);
      ("Show ideas for {person_name}",
         VDict ["action" ::= "search"; "type" ::= "idea";
         "filter" ::= VDict ["project" ::= "{person_name}"]]);
      ("What's in {person_name}",
         VDict ["action" ::= "search";
         "filter" ::= VDict ["project" ::= "{person_name}"]]);
      ("Tasks for {person_name}",
         VDict ["action" ::= "search"; "type" ::= "task";
         "filter" ::= VDict ["project" ::= "{person_name}"]]);
      ("{person_name} inbox",
         VDict ["action" ::= "search";
         "filter" ::= VDict ["project" ::= "{person_name}"]]);
      ("Show {person_name} project",
         VDict ["action" ::= "search";
         "filter" ::= VDict ["project" ::= "{person_name}"]])
    ].

Definition semantic_templates : list template :=
    [
      ("What's relevant to this",
         VDict ["action" ::= "search"; "target" ::= "context";
         "mode" ::= "semantic"]);
      ("Find related items",
         VDict ["action" ::= "search"; "target" ::= "context";
         "mode" ::= "semantic"]);
      ("Show similar things",
         VDict ["action" ::= "search"; "target" ::= "context";
         "mode" ::= "semantic"]);
      ("What connects to this",
         VDict ["action" ::= "search"; "target" ::= "context";
         "mode" ::= "semantic"])
    ].

Definition navigation_templates : list template :=
    [
      ("Open projects",
         VDict ["action" ::= "navigate"; "destination" ::= "projects"]);
      ("Go to ideas",
         VDict ["action" ::= "navigate"; "destination" ::= "ideas"]);
      ("Show me tasks",
         VDict ["action" ::= "navigate"; "destination" ::= "tasks"]);
      ("Open today",
         VDict ["action" ::= "navigate"; "destination" ::= "today"]);
      ("Go to schedule",
         VDict ["action" ::= "navigate"; "destination" ::= "schedule"]);
      ("Show research",
         VDict ["action" ::= "navigate"; "destination" ::= "research"]);
      ("Open settings",
         VDict ["action" ::= "navigate"; "destination" ::= "settings"]);
      ("Go home", VDict ["action" ::= "navigate"; "destination" ::= "home"]);
      ("Open plannerum",
         VDict ["action" ::= "navigate"; "destination" ::= "plannerum"]);
      ("Go to planner",
         VDict ["action" ::= "navigate"; "destination" ::= "plannerum"]);
      ("Show planner",
         VDict ["action" ::= "navigate"; "destination" ::= "plannerum"]);
      ("Open thinkspace",
         VDict ["action" ::= "navigate"; "destination" ::= "thinkspace"]);
      ("Go to canvas",
         VDict ["action" ::= "navigate"; "destination" ::= "thinkspace"]);
      ("Show canvas",
         VDict ["action" ::= "navigate"; "destination" ::= "thinkspace"]);
      ("Open inbox",
         VDict ["action" ::= "navigate"; "destination" ::= "inbox"]);
      ("Go to inbox",
         VDict ["action" ::= "navigate"; "destination" ::= "inbox"]);
      ("Open notes",
         VDict ["action" ::= "navigate"; "destination" ::= "notes"]);
      ("Go to notes",
         VDict ["action" ::= "navigate"; "destination" ::= "notes"])
    ].

Definition all_templates : list template :=
    (times type_search_templates 3 ++
     times general_search_templates 3 ++
     times time_search_templates 2 ++
     times status_search_templates 2 ++
     times project_search_templates 3 ++
     semantic_templates ++
     times navigation_templates 2)%list.

  (** [list(set(words))]: the distinct words.  The script leaves their order
      to the hash of the strings; the order of first occurrence is taken
      here, which the oracle's draws make immaterial. *)
Fixpoint distinct (words : list string) : list string :=
    match words with
    | [] => []
    | w :: rest => w :: filter (fun x => negb (String.eqb x w)) (distinct rest)
    end.

  (** Topics, and the last word of each task *)
Definition search_queries : list string :=
    (TOPICS ++ distinct (List.map Str.last_word TASKS))%list.

End Search.

(** One pass of the loop of [generate_search_examples] *)
Definition search_example : Rand example :=
  '(template, output_template) <- choice no_template Search.all_templates ;;
  query <- choice "" Search.search_queries ;;
  project <- choice "" PROJECTS ;;
  person_name <- choice "" PERSON_NAMES ;;
  let input_text :=
    format template [("query", query); ("project", project);
                     ("person_name", person_name)] in
  let output :=
    substitute output_template
      [("query", query); ("project", project); ("person_name", person_name)] in
  ret (Example input_text output).

Definition generate_search_examples (n : nat) : Rand (list example) :=
  repeatM n search_example.

Module Batch.

Definition two_item_templates : list template :=
    [
      ("I need to {task1} and {task2}",
         VDict ["action" ::= "batch";
         "items" ::= VList [VDict ["type" ::= "task"; "title" ::= "{task1}"];
         VDict ["type" ::= "task"; "title" ::= "{task2}"]]]);
      ("{task1} and {task2}",
         VDict ["action" ::= "batch";
         "items" ::= VList [VDict ["type" ::= "task"; "title" ::= "{task1}"];
         VDict ["type" ::= "task"; "title" ::= "{task2}"]]]);
      ("Create tasks {task1} and {task2}",
         VDict ["action" ::= "batch";
         "items" ::= VList [VDict ["type" ::= "task"; "title" ::= "{task1}"];
         VDict ["type" ::= "task"; "title" ::= "{task2}"]]]);
      ("Add {task1} and also {task2}",
         VDict ["action" ::= "batch";
         "items" ::= VList [VDict ["type" ::= "task"; "title" ::= "{task1}"];
         VDict ["type" ::= "task"; "title" ::= "{task2}"]]])
    ].

Definition three_item_templates : list template :=
    [
      ("I need to {task1}, {task2}, and {task3}",
         VDict ["action" ::= "batch";
         "items" ::= VList [VDict ["type" ::= "task"; "title" ::= "{task1}"];
         VDict ["type" ::= "task"; "title" ::= "{task2}"];
         VDict ["type" ::= "task"; "title" ::= "{task3}"]]]);
      ("{task1}, {task2}, and {task3}",
         VDict ["action" ::= "batch";
         "items" ::= VList [VDict ["type" ::= "task"; "title" ::= "{task1}"];
         VDict ["type" ::= "task"; "title" ::= "{task2}"];
         VDict ["type" ::= "task"; "title" ::= "{task3}"]]]);
      ("Create tasks for {task1}, {task2}, and {task3}",
         VDict ["action" ::= "batch";
         "items" ::= VList [VDict ["type" ::= "task"; "title" ::= "{task1}"];
         VDict ["type" ::= "task"; "title" ::= "{task2}"];
         VDict ["type" ::= "task"; "title" ::= "{task3}"]]]);
      ("Add to my list {task1}, {task2}, {task3}",
         VDict ["action" ::= "batch";
         "items" ::= VList [VDict ["type" ::= "task"; "title" ::= "{task1}"];
         VDict ["type" ::= "task"; "title" ::= "{task2}"];
         VDict ["type" ::= "task"; "title" ::= "{task3}"]]])
    ].

Definition mixed_templates : list template :=
    [
      ("Idea about {topic} and task to {task1}",
         VDict ["action" ::= "batch";
         "items" ::= VList [VDict ["type" ::= "idea"; "title" ::= "{topic}"];
         VDict ["type" ::= "task"; "title" ::= "{task1}"]]]);
      ("Note about {topic} and remind me to {task1}",
         VDict ["action" ::= "batch";
         "items" ::= VList [VDict ["type" ::= "idea"; "title" ::= "{topic}"];
         VDict ["type" ::= "task"; "title" ::= "{task1}"]]])
    ].

Definition batch_project_templates : list template :=
    [
      ("For {project_ref} {task1} and {task2}",
         VDict ["action" ::= "batch";
         "items" ::= VList [VDict ["type" ::= "task"; "title" ::= "{task1}";
         "links" ::= VList [VDict ["type" ::= "project";
         "query" ::= "{project_ref}"]]]; VDict ["type" ::= "task";
         "title" ::= "{task2}"; "links" ::= VList [VDict ["type" ::= "project";
         "query" ::= "{project_ref}"]]]]]);
      ("Add to {project_ref} {task1} and {task2}",
         VDict ["action" ::= "batch";
         "items" ::= VList [VDict ["type" ::= "task"; "title" ::= "{task1}";
         "links" ::= VList [VDict ["type" ::= "project";
         "query" ::= "{project_ref}"]]]; VDict ["type" ::= "task";
         "title" ::= "{task2}"; "links" ::= VList [VDict ["type" ::= "project";
         "query" ::= "{project_ref}"]]]]])
    ].

Definition all_templates : list template :=
    (times two_item_templates 3 ++ times three_item_templates 2 ++
     mixed_templates ++ times batch_project_templates 2)%list.

End Batch.

(** One pass of the loop of [generate_batch_examples] *)
Definition batch_example : Rand example :=
  '(template, output_template) <- choice no_template Batch.all_templates ;;
  tasks <- sample 3 TASKS ;;
  topic <- choice "" TOPICS ;;
  '(project_ref, _) <- choice ("", "") PROJECT_REFERENCES ;;
  let input_text :=
    format template
      [("task1", nth 0 tasks "");
       ("task2", nth 1 tasks "");
       ("task3", if Str.contains "{task3}" template then nth 2 tasks "" else "");
       ("topic", topic);
       ("project_ref", project_ref)] in
  let output :=
    substitute output_template
      [("task1", nth 0 tasks ""); ("task2", nth 1 tasks "");
       ("task3", nth 2 tasks ""); ("topic", topic);
       ("project_ref", project_ref)] in
  ret (Example input_text output).

Definition generate_batch_examples (n : nat) : Rand (list example) :=
  repeatM n batch_example.

Definition LEVEL_QUERY_TYPES : list (string * list string) :=
  [
    ("levelStatus", ["What's my level"; "What level am I"; "Show my level";
    "Level status"; "My current level"]);
    ("xpToday", ["How much XP today"; "XP earned today"; "Today's XP";
    "Show XP today"; "What XP did I get"]);
    ("xpBreakdown", ["XP breakdown"; "Show XP by dimension";
    "Break down my XP"; "XP details"]);
    ("dimensionStatus", ["How's my cognitive dimension";
    "Show creative status"; "What's my physiological progress";
    "Knowledge dimension status"]);
    ("streakStatus", ["What's my streak"; "How long is my streak";
    "Current streak"; "Show my streak"; "Am I on a streak"]);
    ("allStreaks", ["Show all streaks"; "What streaks do I have";
    "All my streaks"; "Streak summary"]);
    ("badgesEarned", ["What badges have I earned"; "Show my badges";
    "My achievements"; "Badges unlocked"; "Show achievements"]);
    ("badgeProgress", ["Badge progress"; "How close am I to badges";
    "Which badges am I close to"; "Upcoming badges"]);
    ("activeQuests", ["What quests are active"; "Show my quests";
    "Active quests"; "Current quests"]);
    ("questProgress", ["Quest progress"; "How are my quests going";
    "Quest status"]);
    ("readinessScore", ["What's my readiness"; "Am I ready to work";
    "Readiness score"; "How ready am I"]);
    ("hrvStatus", ["What's my HRV"; "Heart rate variability"; "HRV status";
    "How's my HRV"]);
    ("sleepScore", ["How did I sleep"; "Sleep score"; "Sleep quality";
    "How was my sleep"; "Last night's sleep"]);
    ("todayHealth", ["Today's health"; "Health metrics";
    "How healthy am I today"; "Vitals today"]);
    ("dailySummary", ["Daily summary"; "How was my day"; "Today's summary";
    "Summarize today"]);
    ("weeklySummary", ["Weekly summary"; "How was my week";
    "This week's summary"; "Week review"]);
    ("contentPerformance", ["How's my content doing"; "Content performance";
    "Content stats"; "Post performance"]);
    ("totalReach", ["What's my total reach"; "How many people have I reached";
    "Reach metrics"; "Content reach"]);
    ("viralCount", ["How many viral posts"; "Viral content";
    "Which posts went viral"; "Viral count"]);
    ("pipelineStatus", ["Content pipeline status"; "What's in the pipeline";
    "Pipeline review"]);
    ("creativeDimension", ["Creative dimension status";
    "How's my creative side"; "Creative progress"])
  ].
Definition DIMENSIONS : list string :=
  [
   "cognitive"; "creative"; "physiological"; "behavioral"; "knowledge";
   "reflection"
  ].
(** One pass of the loop of [generate_level_system_examples] *)
Definition level_system_example : Rand example :=
  '(query_type, templates) <- choice ("", []) LEVEL_QUERY_TYPES ;;
  template <- choice "" templates ;;
  let params := [("query_type", VStr query_type)] in
  if String.eqb query_type "dimensionStatus" then
    dimension <- choice "" DIMENSIONS ;;
    let params := dict_set "dimension" (VStr dimension) params in
    let dimension_templates :=
      ["How's my " ++ dimension ++ " dimension";
       "Show " ++ dimension ++ " status";
       "What's my " ++ dimension ++ " progress";
       Str.capitalize dimension ++ " dimension status"] in
    template <- choice "" dimension_templates ;;
    ret (Example template (VStr (make_function_call "query_level_system" params)))
  else
    ret (Example template (VStr (make_function_call "query_level_system" params))).

Definition generate_level_system_examples (n : nat) : Rand (list example) :=
  repeatM n level_system_example.

Definition DEEP_WORK_DURATIONS : list (Z * list string) :=
  [
    (30%Z, ["30 minutes"; "half hour"; "half an hour"]);
    (45%Z, ["45 minutes"]);
    (60%Z, ["1 hour"; "an hour"; "one hour"; "60 minutes"]);
    (90%Z, ["90 minutes"; "hour and a half"; "1.5 hours"]);
    (120%Z, ["2 hours"; "two hours"; "couple hours"]);
    (180%Z, ["3 hours"; "three hours"])
  ].
Module DeepWork.

Definition start_templates : list string :=
    [
     "Start deep work"; "Begin focus mode"; "Let's do deep work";
     "Enter focus mode"; "Start focused time"; "Begin concentration mode";
     "Go into deep work"; "I want to focus"; "Time to focus"; "Focus time";
     "Deep work mode"; "Heads down time"; "No distractions mode"
    ].

Definition start_with_duration_templates : list string :=
    [
     "Start deep work for {duration}"; "Focus for {duration}";
     "Deep work {duration}"; "Let's focus for {duration}";
     "Begin focus mode for {duration}"; "{duration} of deep work";
     "I want to focus for {duration}"
    ].

Definition start_pomodoro_templates : list string :=
    [
     "Start pomodoro"; "Pomodoro mode"; "Begin pomodoro session";
     "Let's do pomodoro"; "Start pomodoro deep work"
    ].

Definition stop_templates : list string :=
    [
     "Stop deep work"; "End focus mode"; "Done focusing"; "Stop focus mode";
     "End deep work"; "Finish focus session"; "Exit focus mode";
     "I'm done focusing"; "End concentration mode"; "Stop the timer"
    ].

Definition extend_templates : list string :=
    [
     "Extend deep work by {duration}"; "Add {duration} to focus time";
     "Extend focus {duration}"; "Keep going for {duration} more";
     "Add {duration} more"; "Continue for {duration}";
     "{duration} more of deep work"
    ].

End DeepWork.

(** The passes of the five loops of [generate_deep_work_examples] *)
Definition deep_work_start_example : Rand example :=
  template <- choice "" DeepWork.start_templates ;;
  ret (Example template (VStr (make_function_call "start_deep_work" []))).

Definition deep_work_duration_example : Rand example :=
  '(duration_mins, duration_texts) <- choice (0%Z, []) DEEP_WORK_DURATIONS ;;
  duration_text <- choice "" duration_texts ;;
  pattern <- choice "" DeepWork.start_with_duration_templates ;;
  let template := format pattern [("duration", duration_text)] in
  ret (Example template
         (VStr (make_function_call "start_deep_work"
                  [("duration_minutes", VInt duration_mins)]))).

Definition deep_work_pomodoro_example : Rand example :=
  template <- choice "" DeepWork.start_pomodoro_templates ;;
  ret (Example template
         (VStr (make_function_call "start_deep_work"
                  [("duration_minutes", VInt 25); ("pomodoro_mode", VBool true)]))).

Definition deep_work_stop_example : Rand example :=
  template <- choice "" DeepWork.stop_templates ;;
  ret (Example template (VStr (make_function_call "stop_deep_work" []))).

Definition deep_work_extend_example : Rand example :=
  '(duration_mins, duration_texts) <- choice (0%Z, []) DEEP_WORK_DURATIONS ;;
  duration_text <- choice "" duration_texts ;;
  pattern <- choice "" DeepWork.extend_templates ;;
  let template := format pattern [("duration", duration_text)] in
  ret (Example template
         (VStr (make_function_call "extend_deep_work"
                  [("additional_minutes", VInt duration_mins)]))).

Definition generate_deep_work_examples (n : nat) : Rand (list example) :=
  start <- repeatM (n / 4) deep_work_start_example ;;
  with_duration <- repeatM (n / 3) deep_work_duration_example ;;
  pomodoro <- repeatM (n / 10) deep_work_pomodoro_example ;;
  stop <- repeatM (n / 5) deep_work_stop_example ;;
  extend <- repeatM (n / 6) deep_work_extend_example ;;
  ret (start ++ with_duration ++ pomodoro ++ stop ++ extend)%list.

Definition JOURNAL_ENTRY_TYPES : list (string * list string) :=
  [
    ("gratitude", ["I'm grateful for {content}"; "Grateful for {content}";
    "Thankful for {content}"; "I appreciate {content}";
    "Gratitude: {content}"]);
    ("mood", ["I'm feeling {feeling}"; "Feeling {feeling}";
    "My mood is {feeling}"; "I feel {feeling} today"]);
    ("learning", ["I learned that {content}"; "Today I learned {content}";
    "Learned: {content}"; "TIL {content}"; "I discovered that {content}"]);
    ("reflection", ["Reflecting on {content}";
    "I've been thinking about {content}"; "Thought: {content}";
    "Reflection: {content}"]);
    ("goal", ["My goal is to {content}"; "I want to {content}";
    "Goal: {content}"; "I'm aiming to {content}"]);
    ("challenge", ["I'm struggling with {content}"; "Challenge: {content}";
    "My challenge is {content}"; "I'm working through {content}"]);
    ("celebration", ["I achieved {content}"; "Celebrating {content}";
    "Win: {content}"; "I'm proud of {content}"; "Victory: {content}"]);
    ("intention", ["My intention today is {content}"; "I intend to {content}";
    "Today I will {content}"; "Setting intention: {content}"]);
    ("freeform", ["Journal: {content}"; "Note to self: {content}";
    "Dear diary: {content}"; "{content}"])
  ].
Definition GRATITUDE_CONTENT : list string :=
  [
   "my team"; "my health"; "my family"; "good sleep"; "productive day";
   "the sunshine"; "my morning coffee"; "finishing the project";
   "supportive friends"; "learning something new"; "a good workout";
   "peaceful morning"; "nice weather"
  ].
Definition FEELINGS : list string :=
  [
   "great"; "amazing"; "tired"; "energized"; "focused"; "stressed"; "calm";
   "happy"; "productive"; "creative"; "motivated"; "relaxed"; "anxious";
   "excited"; "peaceful"; "content"; "overwhelmed"; "optimistic"
  ].
Definition LEARNING_CONTENT : list string :=
  [
   "how to optimize database queries"; "a new design pattern";
   "the importance of rest"; "better communication skills";
   "time management techniques"; "a new Swift feature";
   "how to handle errors gracefully"; "the value of deep work";
   "how to prioritize"
  ].
Definition GENERAL_CONTENT : list string :=
  [
   "my work-life balance"; "improving my productivity";
   "building better habits"; "being more present"; "focusing on what matters";
   "taking care of my health"; "learning new skills";
   "connecting with others"; "simplifying my life"
  ].
(** One pass of the loop of [generate_journal_examples] *)
Definition journal_example : Rand example :=
  '(entry_type, templates) <- choice ("", []) JOURNAL_ENTRY_TYPES ;;
  template <- choice "" templates ;;
  '(content, template) <-
     (if String.eqb entry_type "gratitude" then
        content <- choice "" GRATITUDE_CONTENT ;; ret (content, template)
      else if String.eqb entry_type "mood" then
        content <- choice "" FEELINGS ;;
        ret (content, Str.replace "{content}" "{feeling}" template)
      else if String.eqb entry_type "learning" then
        content <- choice "" LEARNING_CONTENT ;; ret (content, template)
      else
        content <- choice "" GENERAL_CONTENT ;; ret (content, template)) ;;
  let input_text := format template [("content", content); ("feeling", content)] in
  let title :=
    if String.eqb entry_type "mood" then "Feeling " ++ content
    else if (String.length content <? 50)%nat then Str.capitalize content
    else Str.take 47 content ++ "..." in
  let params :=
    [("atom_type", VStr "journalEntry");
     ("title", VStr title);
     ("metadata", VDict [("entryType", VStr entry_type)])] in
  ret (Example input_text (VStr (make_function_call "create_atom" params))).

Definition generate_journal_examples (n : nat) : Rand (list example) :=
  repeatM n journal_example.

Definition WORKOUT_TYPES : list (string * list string) :=
  [
    ("run", ["run"; "running"; "went for a run"; "jogged"; "jogging"]);
    ("walk", ["walk"; "walked"; "went for a walk"; "walking"]);
    ("swim", ["swim"; "swimming"; "swam"; "went swimming"]);
    ("cycle", ["bike"; "cycling"; "biked"; "went cycling"; "rode my bike"]);
    ("strength", ["lifted weights"; "strength training"; "weight training";
    "gym workout"; "lifted"]);
    ("yoga", ["yoga"; "did yoga"; "yoga session"]);
    ("hiit", ["HIIT"; "hiit workout"; "interval training"; "tabata"])
  ].
Definition EXERCISES : list string :=
  [
   "push ups"; "pull ups"; "squats"; "deadlifts"; "bench press"; "lunges";
   "planks"; "burpees"; "jumping jacks"; "sit ups"
  ].
Module Workout.

Definition workout_templates : list string :=
    [
     "Log {workout_type}"; "I did a {workout_type}";
     "Just finished {workout_type}"; "Completed {workout_type} workout";
     "{workout_type} done"
    ].

Definition workout_with_duration_templates : list string :=
    [
     "Log {duration} minute {workout_type}";
     "{workout_type} for {duration} minutes";
     "Did {duration} minutes of {workout_type}";
     "Just finished {duration} minute {workout_type}"
    ].

Definition run_with_distance_templates : list string :=
    [
     "Ran {distance} km"; "Ran {distance} kilometers"; "{distance} km run";
     "Went for a {distance} km run"
    ].

Definition strength_templates : list string :=
    [
     "Did {sets} sets of {reps} {exercise}"; "{exercise} {sets} by {reps}";
     "Completed {sets} sets of {exercise}"; "{reps} {exercise}"
    ].

End Workout.

(** The passes of the four loops of [generate_workout_examples] *)
Definition workout_basic_example : Rand example :=
  '(workout_type, workout_texts) <- choice ("", []) WORKOUT_TYPES ;;
  workout_text <- choice "" workout_texts ;;
  pattern <- choice "" Workout.workout_templates ;;
  let template := format pattern [("workout_type", workout_text)] in
  ret (Example template
         (VStr (make_function_call "log_workout"
                  [("workout_type", VStr workout_type)]))).

Definition workout_duration_example : Rand example :=
  '(workout_type, workout_texts) <- choice ("", []) WORKOUT_TYPES ;;
  workout_text <- choice "" workout_texts ;;
  duration <- choice 0%Z [15; 20; 30; 45; 60; 90]%Z ;;
  pattern <- choice "" Workout.workout_with_duration_templates ;;
  let template :=
    format pattern [("workout_type", workout_text);
                    ("duration", Str.of_Z duration)] in
  ret (Example template
         (VStr (make_function_call "log_workout"
                  [("workout_type", VStr workout_type);
                   ("duration_minutes", VInt duration)]))).

Definition workout_distance_example : Rand example :=
  distance <- choice 0%Z [3; 5; 7; 10; 15; 21]%Z ;;
  pattern <- choice "" Workout.run_with_distance_templates ;;
  let template := format pattern [("distance", Str.of_Z distance)] in
  ret (Example template
         (VStr (make_function_call "log_workout"
                  [("workout_type", VStr "run");
                   ("distance_km", VInt distance)]))).

Definition workout_strength_example : Rand example :=
  exercise <- choice "" EXERCISES ;;
  sets <- choice 0%Z [3; 4; 5]%Z ;;
  reps <- choice 0%Z [8; 10; 12; 15; 20]%Z ;;
  pattern <- choice "" Workout.strength_templates ;;
  let template :=
    format pattern [("exercise", exercise); ("sets", Str.of_Z sets);
                    ("reps", Str.of_Z reps)] in
  ret (Example template
         (VStr (make_function_call "log_workout"
                  [("workout_type", VStr "strength");
                   ("exercise", VStr exercise);
                   ("sets", VInt sets);
                   ("reps", VInt reps)]))).

Definition generate_workout_examples (n : nat) : Rand (list example) :=
  basic <- repeatM (n / 3) workout_basic_example ;;
  with_duration <- repeatM (n / 3) workout_duration_example ;;
  distance <- repeatM (n / 6) workout_distance_example ;;
  strength <- repeatM (n / 6) workout_strength_example ;;
  ret (basic ++ with_duration ++ distance ++ strength)%list.

Definition NAVIGATION_DESTINATIONS : list (string * list string) :=
  [
    ("home", ["go home"; "open home"; "show home"; "home screen"]);
    ("today", ["go to today"; "open today"; "show today"; "today view"]);
    ("projects", ["go to projects"; "open projects"; "show projects";
    "my projects"]);
    ("ideas", ["go to ideas"; "open ideas"; "show ideas"; "idea list"]);
    ("tasks", ["go to tasks"; "open tasks"; "show tasks"; "task list";
    "my tasks"]);
    ("schedule", ["go to schedule"; "open schedule"; "show schedule";
    "my calendar"; "calendar"]);
    ("research", ["go to research"; "open research"; "show research"]);
    ("focus", ["go to focus"; "open focus mode"; "focus screen"]);
    ("settings", ["go to settings"; "open settings"; "settings"]);
    ("sanctuary", ["go to sanctuary"; "open sanctuary"; "sanctuary view";
    "show sanctuary"]);
    ("dashboard", ["go to dashboard"; "open dashboard"; "show dashboard";
    "main dashboard"]);
    ("plannerum", ["go to plannerum"; "open plannerum"; "show plannerum";
    "planner"; "plan"; "planning"; "open planner"; "go to planner"]);
    ("thinkspace", ["go to thinkspace"; "open thinkspace"; "show thinkspace";
    "canvas"; "think"; "open canvas"; "go to canvas"; "thinking space"]);
    ("inbox", ["go to inbox"; "open inbox"; "show inbox"; "my inbox";
    "inbox view"]);
    ("notes", ["go to notes"; "open notes"; "show notes"; "my notes";
    "notes view"])
  ].
(** One pass of the loop of [generate_navigation_examples] *)
Definition navigation_example : Rand example :=
  '(destination, templates) <- choice ("", []) NAVIGATION_DESTINATIONS ;;
  template <- choice "" templates ;;
  ret (Example template
         (VStr (make_function_call "navigate"
                  [("destination", VStr destination)]))).

Definition generate_navigation_examples (n : nat) : Rand (list example) :=
  repeatM n navigation_example.

(** ** The assembler *)

(** [int(total * 0.9)].  The script multiplies in double precision and
    truncates; for every length a list can have (below [2^49]) the truncated
    product is the integer part of nine tenths of [total], which is what is
    computed here. *)
Definition split_index (total : nat) : nat := (9 * total) / 10.

(** The lines of a [.jsonl] file: [json.dumps(ex) + "\n"] for each record *)
Definition jsonl (records : list value) : list string :=
  List.map (fun ex => Json.dumps_default ex ++ String Str.newline "") records.

(** The output of the ten generator calls of [main], in the order of the
    calls. *)
Record categories : Type := Categories {
  simple_examples : list example;
  project_examples : list example;
  timed_examples : list example;
  modification_examples : list example;
  level_system_examples : list example;
  deep_work_examples : list example;
  journal_examples : list example;
  workout_examples : list example;
  navigation_examples : list example;
  batch_examples : list example
}.

Definition generate_categories : Rand categories :=
  simple <- generate_simple_creation_examples 4000 ;;
  project <- generate_project_specific_examples 2500 ;;
  timed <- generate_timed_creation_examples 2000 ;;
  modification <- generate_modification_examples 1500 ;;
  level_system <- generate_level_system_examples 2000 ;;
  deep_work <- generate_deep_work_examples 1000 ;;
  journal <- generate_journal_examples 1000 ;;
  workout <- generate_workout_examples 500 ;;
  navigation <- generate_navigation_examples 600 ;;
  batch <- generate_batch_examples 500 ;;
  ret (Categories simple project timed modification level_system deep_work
                  journal workout navigation batch).

(** [all_examples], before the shuffle *)
Definition combine_all (c : categories) : list example :=
  (simple_examples c ++
   project_examples c ++
   timed_examples c ++
   modification_examples c ++
   level_system_examples c ++
   deep_work_examples c ++
   journal_examples c ++
   workout_examples c ++
   navigation_examples c ++
   batch_examples c)%list.

(** What a run of [main] leaves behind: the findings it printed, the two
    sets, and the lines of [train.jsonl] and [valid.jsonl]. *)
Record outcome : Type := Outcome {
  total : nat;
  issues : list string;
  train_examples : list example;
  valid_examples : list example;
  train_file : list string;
  valid_file : list string;
  sample_examples : list example
}.

(** [main] from the validation on, for the lists [simple] and [project] of
    the first two categories and the combined list [all_examples]: the
    findings are only printed, then the list is shuffled, split and
    written.  [None] when the script raises. *)
Definition assemble (simple project all_examples : list example)
  : Rand (option outcome) :=
  match validate_examples all_examples with
  | None => ret None
  | Some found =>
      shuffled <- shuffle all_examples ;;
      let split_idx := split_index (length shuffled) in
      let train := firstn split_idx shuffled in
      let valid := skipn split_idx shuffled in
      match format_for_mlx_lm train, format_for_mlx_lm valid with
      | Some train_formatted, Some valid_formatted =>
          sampled <- shuffle (firstn 50 simple ++ firstn 50 project)%list ;;
          ret (Some (Outcome (length all_examples) found train valid
                             (jsonl train_formatted) (jsonl valid_formatted)
                             sampled))
      | _, _ => ret None
      end
  end.

Definition main : Rand (option outcome) :=
  c <- generate_categories ;;
  assemble (simple_examples c) (project_examples c) (combine_all c).

(** Two oracles used to run the generators on concrete draws *)
Definition zero_rng : rng := fun _ => 0.
Definition count_rng : rng := fun i => 7 * i + 3.

(** ** Properties of strings, descriptors and runs *)

(** [x] is a possible result of [m]: some state of the oracle yields it. *)
Definition reach {A} (m : Rand A) (x : A) : Prop := exists g, fst (m g) = x.

Fixpoint all_word (w : string) : bool :=
  match w with
  | EmptyString => true
  | String c r => Re.is_word c && all_word r
  end.

(** The anchored pattern of the wire grammar,
    [^<start_function_call>call:\w+\{.*\}<end_function_call>$]: a non-empty
    name of word characters, a body without line feed between the braces,
    and nothing after the closing marker but the line feed that [$]
    tolerates. *)
Definition matches_grammar (s : string) : Prop :=
  exists name body tail,
    s = "<start_function_call>call:" ++ name ++ "{" ++ body
          ++ "}<end_function_call>" ++ tail
    /\ name <> "" /\ all_word name = true /\ Str.nl_free body = true
    /\ (tail = "" \/ tail = String Str.newline "").

(** The encoded output of [ex] exists, matches the grammar, and calls one of
    [names]. *)
Definition calls_one_of (names : list string) (ex : example) : Prop :=
  exists s name,
    encoded_output ex = Some s /\ matches_grammar s
    /\ Re.search_call s = Some name /\ In name names.

(** No line feed in any string of [v], keys included. *)
Fixpoint value_nl_free (v : value) : bool :=
  match v with
  | VStr s => Str.nl_free s
  | VList l => forallb value_nl_free l
  | VDict d => forallb (fun kv => Str.nl_free (fst kv) && value_nl_free (snd kv)) d
  | _ => true
  end.

(** No opening brace in any key of [v]. *)
Fixpoint keys_brace_free (v : value) : bool :=
  match v with
  | VList l => forallb keys_brace_free l
  | VDict d => forallb (fun kv => Str.brace_free (fst kv) && keys_brace_free (snd kv)) d
  | _ => true
  end.

Definition is_dict (v : value) : bool :=
  match v with VDict _ => true | _ => false end.

(** The action of a descriptor is one of [actions]. *)
Definition action_in (actions : list string) (d : dict) : bool :=
  match dict_get "action" d with
  | Some (VStr a) => Str.brace_free a && mem a actions
  | _ => false
  end.

(** The parts a legacy descriptor is walked through have the type the walk
    expects: a filter is a mapping, the items are a list of mappings. *)
Definition shape_ok (d : dict) : bool :=
  match dict_get "filter" d with
  | Some (VDict _) | None => true
  | Some _ => false
  end
  && match dict_get "items" d with
     | Some (VList l) => forallb is_dict l
     | Some _ => false
     | None => true
     end.

(** A well-formed legacy descriptor whose action is one of [actions] *)
Definition descriptor_ok (actions : list string) (v : value) : bool :=
  match v with
  | VDict d =>
      value_nl_free v && keys_brace_free v && shape_ok d && action_in actions d
  | _ => false
  end.

Definition templates_ok (actions : list string) (pool : list template) : bool :=
  forallb (fun t => descriptor_ok actions (snd t)) pool.

Definition params_nl_free (params : dict) : bool :=
  forallb (fun kv => Str.nl_free (fst kv) && Str.nl_free (escape (snd kv))) params.

(** The function a legacy action is encoded to *)
Definition function_of_action (a : string) : string :=
  if String.eqb a "create" then "create_atom"
  else if String.eqb a "update" then "update_atom"
  else if String.eqb a "delete" then "delete_atom"
  else if String.eqb a "search" then "search_atoms"
  else if String.eqb a "batch" then "batch_create"
  else if String.eqb a "navigate" then "navigate"
  else "create_atom".

(** A character that JSON writes as it is and that is no brace *)
Definition plain_char (c : ascii) : bool :=
  let n := nat_of_ascii c in
  ((32 <=? n) && (n <=? 126) && negb (n =? 34) && negb (n =? 92)
   && negb (n =? 123) && negb (n =? 125))%nat.

Fixpoint plain (s : string) : bool :=
  match s with
  | EmptyString => true
  | String c r => plain_char c && plain r
  end.

(** The functions each category can call *)
Definition creation_functions : list string := ["create_atom"].
Definition modification_functions : list string := ["update_atom"; "delete_atom"].
Definition search_functions : list string := ["search_atoms"; "navigate"].
Definition batch_functions : list string := ["batch_create"].
Definition level_system_functions : list string := ["query_level_system"].
Definition deep_work_functions : list string :=
  ["start_deep_work"; "stop_deep_work"; "extend_deep_work"].
Definition workout_functions : list string := ["log_workout"].
Definition navigation_functions : list string := ["navigate"].

(** The eleven category generators *)
Definition generators : list (nat -> Rand (list example)) :=
  [generate_simple_creation_examples;
   generate_project_specific_examples;
   generate_timed_creation_examples;
   generate_modification_examples;
   generate_search_examples;
   generate_batch_examples;
   generate_level_system_examples;
   generate_deep_work_examples;
   generate_journal_examples;
   generate_workout_examples;
   generate_navigation_examples].

(** The functions called by the categories that [main] combines *)
Definition corpus_functions : list string :=
  ["create_atom"; "update_atom"; "delete_atom"; "batch_create"; "navigate";
   "query_level_system"; "start_deep_work"; "stop_deep_work";
   "extend_deep_work"; "log_workout"].

(** The output of [ex] is a string, or a descriptor whose action is a
    string: what the validator and the encoder walk without raising. *)
Definition walkable (ex : example) : Prop :=
  (exists s, output ex = VStr s)
  \/ (exists d a, output ex = VDict d /\ dict_get "action" d = Some (VStr a)).

(** What holds of every example of a category: it is encoded to a call of
    one of [names], and the validator can walk it. *)
Definition sound (names : list string) (ex : example) : Prop :=
  calls_one_of names ex /\ walkable ex.

(** [record] is the chat envelope of [ex]. *)
Definition enveloped (ex : example) (record : value) : Prop :=
  exists out, encoded_output ex = Some out /\ record = envelope (input ex) out.


Definition eleven_examples : list example :=
  List.map (fun i => Example (Str.of_nat i) (VStr (make_function_call "stop_deep_work" [])))
           (seq 0 11).

(** The titles of the items of a batch descriptor, in order *)
Definition item_title (item : value) : value :=
  match item with
  | VDict it => get_default "title" VNone it
  | _ => VNone
  end.

Definition batch_titles (ex : example) : option (list value) :=
  match output ex with
  | VDict d =>
      match dict_get "items" d with
      | Some (VList items) => Some (List.map item_title items)
      | _ => None
      end
  | _ => None
  end.

(** ** The mapping table of the encoder, as the specification words it *)

Module Table.

  (** One item of a batch: entity type, title, optional links *)
Record item : Type := Item {
    item_type : value;
    item_name : value;
    item_links : option value
  }.

  (** A raw action descriptor: one of the six verbs with its fields.  An
      optional field is [None] when the descriptor does not have it. *)
Inductive descriptor : Type :=
  | Create (type title : value) (body metadata links : option value)
  | Update (target : value) (title body metadata links : option value)
  | Delete (target : value)
  | Search (query type : option value) (filter : option dict)
           (mode target : option value)
  | Batch (items : list item)
  | Navigate (destination : value).

  (** A parameter that is emitted only when its field is present *)
Definition opt (k : string) (v : option value) : dict :=
    match v with
    | Some x => [(k, x)]
    | None => []
    end.

Definition item_parameters (it : item) : value :=
    VDict ([("atom_type", item_type it); ("title", item_name it)]
             ++ opt "links" (item_links it))%list.

  (** The row of the table for each verb: the function, and the parameters
      in the fixed order of the row. *)
Definition row (r : descriptor) : string * dict :=
    match r with
    | Create type title body metadata links =>
        ("create_atom",
         [("atom_type", type); ("title", title)]
           ++ opt "body" body ++ opt "metadata" metadata ++ opt "links" links)%list
    | Update target title body metadata links =>
        ("update_atom",
         [("target", target)]
           ++ opt "title" title ++ opt "body" body
           ++ opt "metadata" metadata ++ opt "links" links)%list
    | Delete target => ("delete_atom", [("target", target)])
    | Search query type filter mode target =>
        ("search_atoms",
         opt "query" query
           ++ opt "types" (option_map (fun t => VList [t]) type)
           ++ match filter with Some fields => fields | None => [] end
           ++ opt "mode" mode ++ opt "target" target)%list
    | Batch items => ("batch_create", [("items", VList (List.map item_parameters items))])
    | Navigate destination => ("navigate", [("destination", destination)])
    end.

Definition encode (r : descriptor) : string :=
    make_function_call (fst (row r)) (snd (row r)).

  (** The fields of the dictionary a descriptor is given as, in one order *)
Definition item_fields (it : item) : dict :=
    ([("type", item_type it); ("title", item_name it)]
       ++ opt "links" (item_links it))%list.

Definition fields (r : descriptor) : dict :=
    match r with
    | Create type title body metadata links =>
        ([("action", VStr "create"); ("type", type); ("title", title)]
           ++ opt "body" body ++ opt "metadata" metadata ++ opt "links" links)%list
    | Update target title body metadata links =>
        ([("action", VStr "update"); ("target", target)]
           ++ opt "title" title ++ opt "body" body
           ++ opt "metadata" metadata ++ opt "links" links)%list
    | Delete target => [("action", VStr "delete"); ("target", target)]
    | Search query type filter mode target =>
        ([("action", VStr "search")]
           ++ opt "query" query ++ opt "type" type
           ++ opt "filter" (option_map VDict filter)
           ++ opt "mode" mode ++ opt "target" target)%list
    | Batch items =>
        [("action", VStr "batch");
         ("items", VList (List.map (fun it => VDict (item_fields it)) items))]
    | Navigate destination =>
        [("action", VStr "navigate"); ("destination", destination)]
    end.

  (** [d] is the descriptor [r] written as a dictionary, its keys in any
      order; the items of a batch are dictionaries too, each with its keys in
      any order. *)
Definition written_as (it : item) (v : value) : Prop :=
    exists d, v = VDict d /\ Permutation d (item_fields it).

Definition represents (d : dict) (r : descriptor) : Prop :=
    match r with
    | Batch items =>
        exists written,
          Forall2 written_as items written
          /\ Permutation d [("action", VStr "batch"); ("items", VList written)]
    | _ => Permutation d (fields r)
    end.

  (** The keys of the parameters the table itself names for a search *)
Definition search_keys : list string := ["query"; "types"; "mode"; "target"].

  (** The filter of a search is a dictionary (its keys differ), and none of
      its keys is a parameter the table names. *)
Definition filter_apart (r : descriptor) : Prop :=
    match r with
    | Search _ _ (Some filter) _ _ =>
        NoDup (keys filter)
        /\ forall k, In k (keys filter) -> ~ In k search_keys
    | _ => True
    end.

  (** A search whose filter has the key [target] *)
Definition clash : descriptor :=
    Search None None (Some [("target", VStr "inbox")])
           (Some (VStr "semantic")) (Some (VStr "context")).

  (** A creation, and its dictionary with the keys in another order *)
Definition linked_idea : descriptor :=
    Create (VStr "idea") (VStr "pricing tiers") None
           (Some (VDict [("priority", VStr "high")]))
           (Some (VList [VDict [("type", VStr "project"); ("query", VStr "Acme")]])).

End Table.



(** The integer a decimal numeral stands for *)
Definition Z_of_string (s : string) : option Z :=
  option_map Z.of_int (NilZero.int_of_string s).

(** ** Further properties: what they are stated with *)

(** The string the legacy path falls back to *)
Definition fallback_call : string :=
  make_function_call "create_atom"
    [("atom_type", VStr "idea"); ("title", VStr "Unknown")].

(** A value the batch branch can walk: a list of dictionaries, or an empty
    dictionary or string (over which the loop does not run). *)
Definition iterable_of_dicts (items : value) : bool :=
  match items with
  | VList l => forallb is_dict l
  | VDict [] => true
  | VStr EmptyString => true
  | _ => false
  end.

(** The descriptors on which the legacy path raises: a search whose filter
    is no dictionary, a batch whose items cannot be walked. *)
Definition raises (d : dict) : bool :=
  (action_is (dict_get "action" d) "search"
   && match dict_get "filter" d with
      | Some v => negb (is_dict v)
      | None => false
      end)
  || (action_is (dict_get "action" d) "batch"
      && negb (iterable_of_dicts (get_default "items" (VList []) d))).

(** The validator has nothing to say about [ex], at any index. *)
Definition passes (ex : example) : Prop :=
  forall i, validate_one i ex = Some [].

(** A line of a [.jsonl] file: text without line feed, then one line feed *)
Definition one_line (line : string) : Prop :=
  exists body, line = body ++ String Str.newline "" /\ Str.nl_free body = true.

(** A descriptor with an unknown action next to fields of a creation *)
Definition archived : dict :=
  [("action", VStr "archive"); ("type", VStr "task"); ("title", VStr "call mom")].

(** The four phrasings of a question about one dimension *)
Definition dimension_phrasings (dimension : string) : list string :=
  ["How's my " ++ dimension ++ " dimension";
   "Show " ++ dimension ++ " status";
   "What's my " ++ dimension ++ " progress";
   Str.capitalize dimension ++ " dimension status"].

(** The level-system example of a query type, and of a dimension *)
Definition level_query (template query_type : string) : example :=
Example template
    (VStr (make_function_call "query_level_system"
             [("query_type", VStr query_type)])).

Definition dimension_query (template dimension : string) : example :=
Example template
    (VStr (make_function_call "query_level_system"
             [("query_type", VStr "dimensionStatus");
              ("dimension", VStr dimension)])).

(** An oracle that gives the draws of a list, then zeros *)
Definition draws (l : list nat) : rng := fun i => nth i l 0.

(** No phrase is listed under two keys of a bank. *)
Definition phrases_apart (bank : list (string * list string)) : bool :=
  forallb (fun e =>
    forallb (fun e' =>
      String.eqb (fst e) (fst e')
      || forallb (fun p => negb (mem p (snd e'))) (snd e)) bank) bank.

(** *** Patterns, piece by piece *)

(** A pattern is a sequence of plain characters and of fields [{name}];
    filling a field puts a value in its place. *)
Inductive piece : Type :=
| Char (c : ascii)
| Field (name : string)
| Filled (v : string).

Fixpoint render (ps : list piece) : string :=
  match ps with
  | [] => ""
  | Char c :: r => String c (render r)
  | Field name :: r => "{" ++ name ++ "}" ++ render r
  | Filled v :: r => v ++ render r
  end.

(** The pieces of [s]; [field] is the name of the field being read, if any.
    A brace that opens no field or closes none has no reading. *)
Fixpoint scan (s : string) (field : option string) : option (list piece) :=
  match s with
  | EmptyString =>
      match field with
      | None => Some []
      | Some _ => None
      end
  | String c r =>
      match field with
      | None =>
          if Ascii.eqb c "{" then scan r (Some "")
          else if Ascii.eqb c "}" then None
          else option_map (cons (Char c)) (scan r None)
      | Some name =>
          if Ascii.eqb c "}" then option_map (cons (Field name)) (scan r None)
          else if Ascii.eqb c "{" then None
          else scan r (Some (name ++ String c ""))
      end
  end.

Definition piece_ok (p : piece) : bool :=
  match p with
  | Char c => plain_char c
  | Field name => plain name
  | Filled v => plain v
  end.

Definition field_among (names : list string) (p : piece) : bool :=
  match p with
  | Field name => mem name names
  | _ => true
  end.

(** [s] reads as plain text with fields, and each field is one of
    [names]. *)
Definition resolved_by (names : list string) (s : string) : bool :=
  match scan s None with
  | Some ps =>
      String.eqb (render ps) s && forallb piece_ok ps
      && forallb (field_among names) ps
  | None => false
  end.

(** The same of every string of a skeleton, keys included *)
Fixpoint value_resolved (names : list string) (v : value) : bool :=
  match v with
  | VStr s => resolved_by names s
  | VList l => forallb (value_resolved names) l
  | VDict d =>
      forallb (fun kv => resolved_by names (fst kv)
                         && value_resolved names (snd kv)) d
  | _ => true
  end.

(** Every string of [v], keys included, is plain text. *)
Fixpoint value_plain (v : value) : bool :=
  match v with
  | VStr s => plain s
  | VList l => forallb value_plain l
  | VDict d => forallb (fun kv => plain (fst kv) && value_plain (snd kv)) d
  | _ => true
  end.

(** Filling the fields named [name] with [v] *)
Definition fill_one (name v : string) (p : piece) : piece :=
  match p with
  | Field m => if String.eqb m name then Filled v else p
  | _ => p
  end.

(** Filling with the arguments of a call, one after the other *)
Definition fill_piece (args : list (string * string)) (p : piece) : piece :=
  fold_left (fun q a => fill_one (fst a) (snd a) q) args p.

Definition is_field (p : piece) : bool :=
  match p with Field _ => true | _ => false end.

Definition pattern_resolved (names_in names_out : list string) (t : template)
  : bool :=
  resolved_by names_in (fst t) && value_resolved names_out (snd t).

(** An example in which no field is left: its text is plain, and so is
    every string of its descriptor when the output is one. *)
Definition filled (ex : example) : Prop :=
  plain (input ex) = true
  /\ forall d, output ex = VDict d -> value_plain (VDict d) = true.

(** The pieces of a pattern *)
Definition pieces (s : string) : list piece :=
  match scan s None with
  | Some ps => ps
  | None => []
  end.

(** An oracle whose first draw is [i] and whose later draws are those of
    [g] *)
Definition push (i : nat) (g : rng) : rng :=
  fun j => match j with 0 => i | S k => g k end.

(** Every example the five loops of the deep-work generator can make *)
Definition deep_work_table : list example :=
  (List.map (fun template =>
Example template (VStr (make_function_call "start_deep_work" [])))
            DeepWork.start_templates
   ++ flat_map (fun e =>
        flat_map (fun duration_text =>
          List.map (fun pattern =>
Example (format pattern [("duration", duration_text)])
                        (VStr (make_function_call "start_deep_work"
                                 [("duration_minutes", VInt (fst e))])))
                   DeepWork.start_with_duration_templates)
          (snd e)) DEEP_WORK_DURATIONS
   ++ List.map (fun template =>
Example template
                    (VStr (make_function_call "start_deep_work"
                             [("duration_minutes", VInt 25);
                              ("pomodoro_mode", VBool true)])))
               DeepWork.start_pomodoro_templates
   ++ List.map (fun template =>
Example template (VStr (make_function_call "stop_deep_work" [])))
               DeepWork.stop_templates
   ++ flat_map (fun e =>
        flat_map (fun duration_text =>
          List.map (fun pattern =>
Example (format pattern [("duration", duration_text)])
                        (VStr (make_function_call "extend_deep_work"
                                 [("additional_minutes", VInt (fst e))])))
                   DeepWork.extend_templates)
          (snd e)) DEEP_WORK_DURATIONS)%list.

Definition same_call (a b : value) : bool :=
  match a, b with
  | VStr x, VStr y => String.eqb x y
  | _, _ => false
  end.

(** Two examples of [table] with the same text have the same call. *)
Definition text_determines_call (table : list example) : bool :=
  forallb (fun p =>
    forallb (fun q =>
      negb (String.eqb (input p) (input q))
      || same_call (output p) (output q)) table) table.

(** The call of a strength workout *)
Definition strength_call (exercise : string) (sets reps : Z) : string :=
  make_function_call "log_workout"
    [("workout_type", VStr "strength"); ("exercise", VStr exercise);
     ("sets", VInt sets); ("reps", VInt reps)].

(** The descriptor of a block of focus time between two times *)
Definition focus_block (title start_time end_time : string) : value :=
  VDict [("action", VStr "create"); ("type", VStr "schedule_block");
         ("title", VStr title);
         ("metadata", VDict [("startTime", VStr start_time);
                             ("endTime", VStr end_time);
                             ("blockType", VStr "focus")])].

(** The contents a journal entry of a type is filled with *)
Definition journal_contents (entry_type : string) : list string :=
  if String.eqb entry_type "gratitude" then GRATITUDE_CONTENT
  else if String.eqb entry_type "mood" then FEELINGS
  else if String.eqb entry_type "learning" then LEARNING_CONTENT
  else GENERAL_CONTENT.

(** A journal example whose title is not cut: the feeling after [Feeling],
    or the content with its first letter in upper case and the others in
    lower case *)
Definition journal_entry (entry_type template content : string) : example :=
Example
    (format (if String.eqb entry_type "mood"
             then Str.replace "{content}" "{feeling}" template
             else template)
            [("content", content); ("feeling", content)])
    (VStr (make_function_call "create_atom"
             [("atom_type", VStr "journalEntry");
              ("title", VStr (if String.eqb entry_type "mood"
                              then "Feeling " ++ content
                              else Str.capitalize content));
              ("metadata", VDict [("entryType", VStr entry_type)])])).

(** Every such example, for the types, patterns and contents of the
    script *)
Definition journal_table : list example :=
  flat_map (fun e =>
    flat_map (fun template =>
      List.map (journal_entry (fst e) template) (journal_contents (fst e)))
      (snd e)) JOURNAL_ENTRY_TYPES.

(** * Properties *)

(** ** The random source *)

Section RandLemmas.
Context {A B : Type}.

Lemma reach_ret (x y : A) : reach (ret x) y -> y = x.
  Proof. intros [g H]. simpl in H. congruence. Qed.

Lemma reach_bind (m : Rand A) (f : A -> Rand B) (y : B) :
    reach (bind m f) y -> exists x, reach m x /\ reach (f x) y.
  Proof.
    intros [g H]. unfold bind in H.
    destruct (m g) as [x g'] eqn:E.
    exists x. split.
    - exists g. now rewrite E.
    - now exists g'.
  Qed.

Lemma reach_choice (d : A) (seq : list A) (x : A) :
    seq <> [] -> reach (choice d seq) x -> In x seq.
  Proof.
    intros Hne [g H]. unfold choice, bind, randbelow, ret in H. simpl in H.
    subst x. apply nth_In. apply Nat.mod_upper_bound.
    destruct seq; [congruence | discriminate].
  Qed.

Lemma repeatM_length (n : nat) (step : Rand A) (g : rng) :
    length (fst (repeatM n step g)) = n.
  Proof.
    revert g. induction n as [|n IH]; intro g; simpl; [reflexivity|].
    unfold bind. destruct (step g) as [x g1].
    specialize (IH g1). destruct (repeatM n step g1) as [xs g2].
    simpl in *. now rewrite IH.
  Qed.

Lemma repeatM_Forall (P : A -> Prop) (n : nat) (step : Rand A) :
    (forall x, reach step x -> P x) ->
    forall g, Forall P (fst (repeatM n step g)).
  Proof.
    intros Hstep. induction n as [|n IH]; intro g; simpl; [constructor|].
    unfold bind. destruct (step g) as [x g1] eqn:E.
    specialize (IH g1). destruct (repeatM n step g1) as [xs g2].
    simpl in *. constructor; [|exact IH].
    apply Hstep. exists g. now rewrite E.
  Qed.

Lemma reach_repeatM (P : A -> Prop) (n : nat) (step : Rand A) (l : list A) :
    (forall x, reach step x -> P x) ->
    reach (repeatM n step) l -> Forall P l /\ length l = n.
  Proof.
    intros Hstep [g H]. subst l. split.
    - now apply repeatM_Forall.
    - apply repeatM_length.
  Qed.

End RandLemmas.

Lemma fst_bind {A B} (m : Rand A) (f : A -> Rand B) (g : rng) :
  fst (bind m f g) = fst (f (fst (m g)) (snd (m g))).
Proof. unfold bind. now destruct (m g). Qed.

Lemma snd_bind {A B} (m : Rand A) (f : A -> Rand B) (g : rng) :
  snd (bind m f g) = snd (f (fst (m g)) (snd (m g))).
Proof. unfold bind. now destruct (m g). Qed.

Lemma times_length {A} (l : list A) (k : nat) :
  length (times l k) = k * length l.
Proof. induction k; simpl; [reflexivity|]. rewrite length_app. lia. Qed.

Lemma forallb_times {A} (f : A -> bool) (l : list A) (k : nat) :
  forallb f l = true -> forallb f (times l k) = true.
Proof.
  intro H. induction k; simpl; [reflexivity|].
  rewrite forallb_app, H. exact IHk.
Qed.

Lemma forallb_map_comp {A B} (f : B -> bool) (h : A -> B) (l : list A) :
  forallb f (List.map h l) = forallb (fun x => f (h x)) l.
Proof. induction l as [|x l IH]; simpl; [reflexivity|]. now rewrite IH. Qed.

Lemma nth_error_decompose {A} (l : list A) (j : nat) (x : A) :
  nth_error l j = Some x -> l = (firstn j l ++ x :: skipn (S j) l)%list.
Proof.
  revert j. induction l as [|a l IH]; intros [|j] H; try discriminate.
  - injection H as ->. reflexivity.
  - simpl in H. cbn [firstn skipn app]. f_equal. now apply IH.
Qed.

(** [random.sample]: the values drawn come from the population, at distinct
    positions, and there are as many as asked for. *)
Lemma sample_spec {A} (k : nat) (population l : list A) :
  reach (sample k population) l ->
  incl l population
  /\ (NoDup population -> NoDup l)
  /\ (k <= length population -> length l = k).
Proof.
  intros [g H]. revert population l g H.
  induction k as [|k IH]; intros population l g H.
  - simpl in H. subst l. repeat split; auto using incl_nil_l, NoDup_nil.
  - cbn [sample] in H. unfold bind, randbelow in H. cbn [fst snd] in H.
    set (j := g 0 mod length population) in H.
    destruct (nth_error population j) as [x|] eqn:Ej.
    + pose proof (nth_error_decompose _ _ _ Ej) as Hdec.
      set (rest_pop := (firstn j population ++ skipn (S j) population)%list) in *.
      destruct (sample k rest_pop (fun i => g (S i))) as [rest g'] eqn:Er.
      cbn [ret fst] in H. subst l.
      destruct (IH rest_pop rest (fun i => g (S i))) as (Hincl & Hnd & Hlen).
      { now rewrite Er. }
      assert (Hsub : incl rest_pop population).
      { assert (Hin : forall y, In y rest_pop ->
                  In y (firstn j population ++ x :: skipn (S j) population)%list).
        { unfold rest_pop. intros y Hy.
          apply in_app_or in Hy as [Hy|Hy]; apply in_or_app; auto.
          right. now right. }
        rewrite <- Hdec in Hin. exact Hin. }
      repeat split.
      * intros y [<-|Hy]; [now apply nth_error_In in Ej|auto].
      * intro Hpop. rewrite Hdec in Hpop. apply NoDup_remove in Hpop as [H1 H2].
        constructor; [|now apply Hnd].
        intro Hx. apply H2. now apply Hincl.
      * intro Hk. cbn [length]. f_equal. apply Hlen.
        apply (f_equal (@length A)) in Hdec.
        rewrite length_app in Hdec. cbn [length] in Hdec.
        unfold rest_pop. rewrite length_app. lia.
    + cbn [ret fst] in H. subst l.
      repeat split; auto using incl_nil_l, NoDup_nil.
      intro Hk. exfalso.
      apply nth_error_None in Ej. subst j.
      assert (length population <> 0) by lia.
      pose proof (Nat.mod_upper_bound (g 0) (length population)). lia.
Qed.

Lemma Forall_take {A} (P : A -> Prop) (n : nat) (l : list A) :
  Forall P l -> Forall P (firstn n l).
Proof.
  intro H. revert n. induction H as [|x l Hx Hl IH]; intros [|n]; simpl;
    constructor; auto.
Qed.

Lemma Forall_drop {A} (P : A -> Prop) (n : nat) (l : list A) :
  Forall P l -> Forall P (skipn n l).
Proof.
  intro H. revert n. induction H as [|x l Hx Hl IH]; intros [|n]; simpl;
    auto.
Qed.

(** ** Strings *)

Lemma nl_free_app (a b : string) :
  Str.nl_free (a ++ b) = Str.nl_free a && Str.nl_free b.
Proof.
  induction a as [|c a IH]; simpl; [reflexivity|].
  rewrite IH. now rewrite andb_assoc.
Qed.

Lemma all_word_app (a b : string) :
  all_word (a ++ b) = all_word a && all_word b.
Proof.
  induction a as [|c a IH]; simpl; [reflexivity|].
  rewrite IH. now rewrite andb_assoc.
Qed.

Lemma append_assoc (a b c : string) : (a ++ b) ++ c = a ++ (b ++ c).
Proof. induction a as [|x a IH]; simpl; [reflexivity|]. now rewrite IH. Qed.

Lemma append_nil_r (a : string) : a ++ "" = a.
Proof. induction a as [|x a IH]; simpl; [reflexivity|]. now rewrite IH. Qed.

Lemma nl_free_replace_from (old new s : string) (skip : nat) :
  Str.nl_free new = true -> Str.nl_free s = true ->
  Str.nl_free (Str.replace_from old new s skip) = true.
Proof.
  intros Hnew. revert skip.
  induction s as [|c s IH]; intros skip Hs; [reflexivity|].
  cbn [Str.replace_from].
  simpl in Hs. apply andb_true_iff in Hs as [Hc Hs].
  destruct skip as [|k].
  - destruct (prefix old (String c s)).
    + rewrite nl_free_app, Hnew. simpl. now apply IH.
    + cbn [Str.nl_free]. rewrite Hc. simpl. now apply IH.
  - now apply IH.
Qed.

Lemma nl_free_replace (old new s : string) :
  Str.nl_free new = true -> Str.nl_free s = true ->
  Str.nl_free (Str.replace old new s) = true.
Proof. apply nl_free_replace_from. Qed.

(** A string without brace contains no placeholder. *)
Lemma replace_from_brace_free (x new s : string) :
  Str.brace_free s = true ->
  Str.replace_from (String "{" x) new s 0 = s.
Proof.
  induction s as [|c s IH]; intro H; [reflexivity|].
  cbn [Str.replace_from].
  simpl in H. apply andb_true_iff in H as [Hc Hs].
  destruct (Ascii.eqb_spec c "{"%char) as [->|Hne]; [discriminate|].
  replace (prefix (String "{" x) (String c s)) with false.
  - now rewrite IH.
  - cbn [prefix]. destruct (ascii_dec "{" c) as [E|_]; [now subst c|reflexivity].
Qed.

Lemma replace_brace_free (x new s : string) :
  Str.brace_free s = true -> Str.replace ("{" ++ x) new s = s.
Proof. apply replace_from_brace_free. Qed.

Lemma prefix_refl (s : string) : prefix s s = true.
Proof.
  induction s as [|c s IH]; cbn [prefix]; [reflexivity|].
  destruct (ascii_dec c c); [exact IH|congruence].
Qed.

Lemma replace_from_skip_all (old new s : string) (k : nat) :
  String.length s <= k -> Str.replace_from old new s k = "".
Proof.
  revert k. induction s as [|c s IH]; intros k H; simpl; [reflexivity|].
  simpl in H. destruct k as [|k]; [lia|]. apply IH. lia.
Qed.

(** Replacing a placeholder in the placeholder itself gives the value. *)
Lemma replace_self (old new : string) :
  old <> "" -> Str.replace old new old = new.
Proof.
  intro H. destruct old as [|c r]; [congruence|].
  unfold Str.replace. cbn [Str.replace_from].
  rewrite prefix_refl.
  rewrite replace_from_skip_all; [apply append_nil_r|].
  simpl. lia.
Qed.

Lemma plain_nl_free (s : string) : plain s = true -> Str.nl_free s = true.
Proof.
  induction s as [|c s IH]; simpl; [reflexivity|].
  intro H. apply andb_true_iff in H as [Hc Hs]. rewrite (IH Hs), andb_true_r.
  destruct (Ascii.eqb_spec c Str.newline) as [->|]; [discriminate|reflexivity].
Qed.

Lemma plain_brace_free (s : string) : plain s = true -> Str.brace_free s = true.
Proof.
  induction s as [|c s IH]; simpl; [reflexivity|].
  intro H. apply andb_true_iff in H as [Hc Hs]. rewrite (IH Hs), andb_true_r.
  destruct (Ascii.eqb_spec c "{"%char) as [->|]; [discriminate|reflexivity].
Qed.

(** *** Decimal numerals *)

Lemma nl_free_string_of_uint (u : Decimal.uint) :
  Str.nl_free (NilEmpty.string_of_uint u) = true.
Proof. induction u; simpl; auto. Qed.

Lemma nl_free_of_Z (n : Z) : Str.nl_free (Str.of_Z n) = true.
Proof.
  unfold Str.of_Z, NilZero.string_of_int.
  destruct (Z.to_int n) as [u|u]; unfold NilZero.string_of_uint.
  - destruct u; simpl; auto using nl_free_string_of_uint.
  - simpl. destruct u; simpl; auto using nl_free_string_of_uint.
Qed.

(** *** [join] *)

Lemma nl_free_join (sep : string) (parts : list string) :
  Str.nl_free sep = true ->
  forallb Str.nl_free parts = true ->
  Str.nl_free (Str.join sep parts) = true.
Proof.
  intros Hsep. unfold Str.join.
  induction parts as [|p parts IH]; intro H; simpl; [reflexivity|].
  simpl in H. apply andb_true_iff in H as [Hp Hps].
  destruct parts as [|q parts]; [exact Hp|].
  rewrite !nl_free_app, Hp, Hsep. simpl. now apply IH.
Qed.

(** *** [json.dumps] never writes a line feed *)

Lemma nl_free_escape_char (c : ascii) : Str.nl_free (Json.escape_char c) = true.
Proof. destruct c as [[] [] [] [] [] [] [] []]; reflexivity. Qed.

Lemma nl_free_escape_chars (s : string) :
  Str.nl_free (Json.escape_chars s) = true.
Proof.
  induction s as [|c s IH]; simpl; [reflexivity|].
  now rewrite nl_free_app, nl_free_escape_char, IH.
Qed.

Lemma nl_free_encode_string (s : string) :
  Str.nl_free (Json.encode_string s) = true.
Proof.
  unfold Json.encode_string.
  now rewrite !nl_free_app, nl_free_escape_chars.
Qed.

Lemma nl_free_dumps (isep ksep : string) (v : value) :
  Str.nl_free isep = true -> Str.nl_free ksep = true ->
  Str.nl_free (Json.dumps isep ksep v) = true.
Proof.
  intros Hi Hk. induction v as [| b | n | s | l IH | d IH] using value_ind'.
  - reflexivity.
  - now destruct b.
  - apply nl_free_of_Z.
  - apply nl_free_encode_string.
  - cbn [Json.dumps]. rewrite !nl_free_app. simpl.
    rewrite andb_true_r. apply nl_free_join; [exact Hi|].
    rewrite forallb_map_comp. apply forallb_forall. intros x Hx.
    rewrite Forall_forall in IH. now apply IH.
  - cbn [Json.dumps]. rewrite !nl_free_app. simpl.
    rewrite andb_true_r. apply nl_free_join; [exact Hi|].
    rewrite forallb_map_comp. apply forallb_forall. intros [k x] Hx.
    rewrite Forall_forall in IH. specialize (IH _ Hx).
    change (Str.nl_free (Json.dumps isep ksep x) = true) in IH.
    change (Str.nl_free (Json.encode_string k ++ ksep ++ Json.dumps isep ksep x)
            = true).
    now rewrite !nl_free_app, nl_free_encode_string, Hk, IH.
Qed.

(** *** Case changes and slices *)

Lemma upper_not_newline (c : ascii) :
  Ascii.eqb c Str.newline = false -> Ascii.eqb (Str.upper c) Str.newline = false.
Proof. destruct c as [[] [] [] [] [] [] [] []]; vm_compute; congruence. Qed.

Lemma lower_not_newline (c : ascii) :
  Ascii.eqb c Str.newline = false -> Ascii.eqb (Str.lower c) Str.newline = false.
Proof. destruct c as [[] [] [] [] [] [] [] []]; vm_compute; congruence. Qed.

Lemma nl_free_map_lower (s : string) :
  Str.nl_free s = true -> Str.nl_free (Str.map Str.lower s) = true.
Proof.
  induction s as [|c s IH]; simpl; [reflexivity|].
  intro H. apply andb_true_iff in H as [Hc Hs].
  apply negb_true_iff in Hc. now rewrite (lower_not_newline _ Hc), IH.
Qed.

Lemma nl_free_capitalize (s : string) :
  Str.nl_free s = true -> Str.nl_free (Str.capitalize s) = true.
Proof.
  destruct s as [|c s]; simpl; [reflexivity|].
  intro H. apply andb_true_iff in H as [Hc Hs].
  apply negb_true_iff in Hc.
  now rewrite (upper_not_newline _ Hc), nl_free_map_lower.
Qed.

Lemma nl_free_substring (n m : nat) (s : string) :
  Str.nl_free s = true -> Str.nl_free (substring n m s) = true.
Proof.
  revert n m. induction s as [|c s IH]; intros n m H.
  - now destruct n, m.
  - simpl in H. apply andb_true_iff in H as [Hc Hs].
    destruct n as [|n]; [destruct m as [|m]|]; simpl; auto.
    rewrite Hc. now apply (IH 0).
Qed.

(** ** The encoder *)

Lemma span_word_brace (w r : string) :
  all_word w = true ->
  Re.span_word (w ++ String "{" r) = (w, String "{" r).
Proof.
  induction w as [|c w IH]; intro H.
  - reflexivity.
  - simpl in H. apply andb_true_iff in H as [Hc Hw].
    cbn [append Re.span_word]. rewrite Hc, (IH Hw). reflexivity.
Qed.

Lemma make_function_call_eq (func_name : string) (params : dict) :
  make_function_call func_name params =
  "<start_function_call>" ++ "call:" ++ func_name
    ++ String "{" (Str.join "," (List.map param_part params)
                   ++ "}<end_function_call>").
Proof. reflexivity. Qed.

(** The validator's regular expression finds the name the encoder wrote. *)
Lemma search_call_make_function_call (func_name : string) (params : dict) :
  func_name <> "" -> all_word func_name = true ->
  Re.search_call (make_function_call func_name params) = Some func_name.
Proof.
  intros Hne Hw. rewrite make_function_call_eq.
  set (rest := Str.join "," (List.map param_part params) ++ "}<end_function_call>").
  cbn [append]. cbn -[Re.span_word append].
  unfold Re.match_call_here. cbn -[Re.span_word append].
  rewrite (span_word_brace _ _ Hw).
  destruct func_name; [congruence|reflexivity].
Qed.

Lemma nl_free_escape (v : value) :
  value_nl_free v = true -> Str.nl_free (escape v) = true.
Proof.
  destruct v as [| b | n | s | l | d]; intro H; cbn [escape].
  - reflexivity.
  - now destruct b.
  - apply nl_free_of_Z.
  - exact H.
  - now apply nl_free_dumps.
  - now apply nl_free_dumps.
Qed.

Lemma nl_free_param_part (kv : string * value) :
  Str.nl_free (fst kv) && Str.nl_free (escape (snd kv)) = true ->
  Str.nl_free (param_part kv) = true.
Proof.
  intro H. apply andb_true_iff in H as [Hk Hv]. unfold param_part.
  now rewrite !nl_free_app, Hk, Hv.
Qed.

Lemma make_function_call_matches (func_name : string) (params : dict) :
  func_name <> "" -> all_word func_name = true ->
  params_nl_free params = true ->
  matches_grammar (make_function_call func_name params).
Proof.
  intros Hne Hw Hp.
  exists func_name, (Str.join "," (List.map param_part params)), "".
  repeat split; auto.
  apply nl_free_join; [reflexivity|].
  rewrite forallb_map_comp. unfold params_nl_free in Hp.
  rewrite forallb_forall in *. intros kv Hkv.
  apply nl_free_param_part. now apply Hp.
Qed.

(** *** Dictionaries *)

Lemma params_nl_free_set (k : string) (v : value) (params : dict) :
  Str.nl_free k = true -> Str.nl_free (escape v) = true ->
  params_nl_free params = true ->
  params_nl_free (dict_set k v params) = true.
Proof.
  intros Hk Hv. unfold params_nl_free.
  induction params as [|[k' v'] params IH]; intro H; simpl.
  - now rewrite Hk, Hv.
  - simpl in H. apply andb_true_iff in H as [H1 H2].
    apply andb_true_iff in H1 as [Hk' Hv'].
    destruct (String.eqb k k'); simpl.
    + now rewrite Hk', Hv, H2.
    + now rewrite Hk', Hv', (IH H2).
Qed.

Lemma dict_get_In {A} (k : string) (d : list (string * A)) (v : A) :
  dict_get k d = Some v -> In (k, v) d.
Proof.
  induction d as [|[k' v'] d IH]; simpl; [discriminate|].
  destruct (String.eqb_spec k k') as [->|_].
  - intros [= ->]. now left.
  - intro H. right. now apply IH.
Qed.

Lemma value_nl_free_get (k : string) (d : dict) (v : value) :
  value_nl_free (VDict d) = true -> dict_get k d = Some v ->
  Str.nl_free k = true /\ value_nl_free v = true.
Proof.
  intros H Hget. apply dict_get_In in Hget.
  cbn [value_nl_free] in H. rewrite forallb_forall in H.
  specialize (H _ Hget). now apply andb_true_iff in H.
Qed.

Lemma params_nl_free_copy (k : string) (src params : dict) :
  value_nl_free (VDict src) = true ->
  params_nl_free params = true ->
  params_nl_free (copy_if_present k src params) = true.
Proof.
  intros Hsrc Hp. unfold copy_if_present.
  destruct (dict_get k src) as [v|] eqn:E; [|exact Hp].
  destruct (value_nl_free_get _ _ _ Hsrc E) as [Hk Hv].
  apply params_nl_free_set; auto using nl_free_escape.
Qed.

Lemma nl_free_get_default (k default : string) (d : dict) :
  value_nl_free (VDict d) = true -> Str.nl_free default = true ->
  Str.nl_free (escape (get_default k (VStr default) d)) = true.
Proof.
  intros Hd Hdef. unfold get_default.
  destruct (dict_get k d) as [v|] eqn:E; [|exact Hdef].
  apply nl_free_escape. now destruct (value_nl_free_get _ _ _ Hd E).
Qed.

Lemma params_nl_free_flatten (filter params : dict) :
  value_nl_free (VDict filter) = true ->
  params_nl_free params = true ->
  params_nl_free
    (fold_left (fun p kv => dict_set (fst kv) (snd kv) p) filter params) = true.
Proof.
  revert params. induction filter as [|[k v] filter IH]; intros params Hf Hp.
  - exact Hp.
  - cbn [fold_left fst snd]. cbn [value_nl_free forallb fst snd] in Hf.
    apply andb_true_iff in Hf as [Hkv Hf].
    apply andb_true_iff in Hkv as [Hk Hv].
    apply IH; [exact Hf|].
    apply params_nl_free_set; auto using nl_free_escape.
Qed.

Lemma batch_items_dicts (l : list value) :
  forallb is_dict l = true -> exists items, batch_items l = Some items.
Proof.
  induction l as [|x l IH]; simpl; intro H; [now eexists|].
  apply andb_true_iff in H as [Hx Hl].
  destruct (IH Hl) as [items ->].
  destruct x; try discriminate. simpl. now eexists.
Qed.

(** ** Legacy descriptors *)

Lemma mem_In (s : string) (l : list string) : mem s l = true <-> In s l.
Proof.
  unfold mem. rewrite existsb_exists. split.
  - intros (x & Hx & E). apply String.eqb_eq in E. now subst.
  - intro H. exists s. split; [exact H|apply String.eqb_refl].
Qed.

Ltac params_ok :=
  repeat (apply params_nl_free_copy; [assumption|]);
  cbn [params_nl_free forallb fst snd escape Str.nl_free];
  rewrite ?nl_free_get_default by (assumption || reflexivity);
  reflexivity.

Ltac encoded_as name :=
  eexists; split; [reflexivity|]; split;
  [apply (make_function_call_matches name); [discriminate|reflexivity|]
  |apply (search_call_make_function_call name); [discriminate|reflexivity]].

(** A well-formed descriptor is encoded, to a string of the grammar that
    calls the function of its action. *)
Lemma from_dict_ok (actions : list string) (d : dict) :
  descriptor_ok actions (VDict d) = true ->
  exists a,
    dict_get "action" d = Some (VStr a) /\ In a actions
    /\ exists s,
        make_function_call_from_dict d = Some s
        /\ matches_grammar s
        /\ Re.search_call s = Some (function_of_action a).
Proof.
  unfold descriptor_ok. intro H.
  apply andb_true_iff in H as [H Hact].
  apply andb_true_iff in H as [H Hshape].
  apply andb_true_iff in H as [Hnl _].
  unfold action_in in Hact.
  destruct (dict_get "action" d) as [[| | | a | |]|] eqn:Ea; try discriminate.
  apply andb_true_iff in Hact as [_ Hmem]. apply mem_In in Hmem.
  exists a. split; [reflexivity|]. split; [exact Hmem|].
  unfold make_function_call_from_dict, function_of_action.
  rewrite Ea. cbn [action_is].
  destruct (String.eqb a "create"); [encoded_as "create_atom"; auto; params_ok|].
  destruct (String.eqb a "update"); [encoded_as "update_atom"; auto; params_ok|].
  destruct (String.eqb a "delete"); [encoded_as "delete_atom"; auto; params_ok|].
  destruct (String.eqb a "search").
  { unfold shape_ok in Hshape. apply andb_true_iff in Hshape as [Hf _].
    assert (Hbase : params_nl_free
              match dict_get "type" d with
              | Some t => dict_set "types" (VList [t]) (copy_if_present "query" d [])
              | None => copy_if_present "query" d []
              end = true).
    { destruct (dict_get "type" d) as [t|].
      - apply params_nl_free_set; [reflexivity|now apply nl_free_dumps|].
        now apply params_nl_free_copy.
      - now apply params_nl_free_copy. }
    destruct (dict_get "filter" d) as [[| | | | |filter]|] eqn:Ef; try discriminate.
    - encoded_as "search_atoms"; auto.
      do 2 (apply params_nl_free_copy; [assumption|]).
      apply params_nl_free_flatten; [|exact Hbase].
      now destruct (value_nl_free_get _ _ _ Hnl Ef).
    - encoded_as "search_atoms"; auto.
      now do 2 (apply params_nl_free_copy; [assumption|]). }
  destruct (String.eqb a "batch").
  { unfold shape_ok in Hshape. apply andb_true_iff in Hshape as [_ Hi].
    unfold get_default.
    destruct (dict_get "items" d) as [[| | | |l|]|] eqn:Ei; try discriminate.
    - cbn [iter_items]. destruct (batch_items_dicts _ Hi) as [items ->].
      encoded_as "batch_create"; auto.
      cbn [params_nl_free forallb fst snd escape Str.nl_free].
      unfold Json.dumps_compact. now rewrite nl_free_dumps.
    - cbn [iter_items batch_items].
      encoded_as "batch_create"; auto. }
  destruct (String.eqb a "navigate"); [encoded_as "navigate"; auto; params_ok|].
  encoded_as "create_atom"; auto.
Qed.

(** *** Substitution of placeholders *)

Lemma subst_value_nl_free (old new : string) (v : value) :
  Str.nl_free new = true ->
  value_nl_free v = true -> value_nl_free (subst_value old new v) = true.
Proof.
  intro Hnew.
  induction v as [| b | n | s | l IH | d IH] using value_ind';
    cbn [subst_value value_nl_free]; auto.
  - now apply nl_free_replace.
  - rewrite forallb_map_comp, !forallb_forall. intros H x Hx.
    rewrite Forall_forall in IH. auto.
  - rewrite forallb_map_comp, !forallb_forall. intros H [k x] Hx.
    rewrite Forall_forall in IH. specialize (IH _ Hx). specialize (H _ Hx).
    cbn [fst snd] in *. apply andb_true_iff in H as [Hk Hv].
    now rewrite nl_free_replace, IH.
Qed.

Lemma subst_value_keys (x new : string) (v : value) :
  keys_brace_free v = true ->
  keys_brace_free (subst_value ("{" ++ x) new v) = true.
Proof.
  induction v as [| b | n | s | l IH | d IH] using value_ind';
    cbn [subst_value keys_brace_free]; auto.
  - rewrite forallb_map_comp, !forallb_forall. intros H y Hy.
    rewrite Forall_forall in IH. auto.
  - rewrite forallb_map_comp, !forallb_forall. intros H [k y] Hy.
    rewrite Forall_forall in IH. specialize (IH _ Hy). specialize (H _ Hy).
    cbn [fst snd] in *. apply andb_true_iff in H as [Hk Hv].
    now rewrite replace_brace_free, Hk, IH.
Qed.

(** The keys of a skeleton hold no placeholder, so a lookup commutes with
    the substitution. *)
Lemma dict_get_subst (x new k : string) (d : dict) :
  keys_brace_free (VDict d) = true ->
  dict_get k (List.map (fun kv => (Str.replace ("{" ++ x) new (fst kv),
                                   subst_value ("{" ++ x) new (snd kv))) d)
  = option_map (subst_value ("{" ++ x) new) (dict_get k d).
Proof.
  cbn [keys_brace_free].
  induction d as [|[k' v] d IH]; intro H; [reflexivity|].
  cbn [forallb fst snd] in H. apply andb_true_iff in H as [Hkv Hd].
  apply andb_true_iff in Hkv as [Hk _].
  cbn [List.map dict_get fst snd]. rewrite replace_brace_free by exact Hk.
  destruct (String.eqb k k'); [reflexivity|now apply IH].
Qed.

Lemma subst_value_descriptor (actions : list string) (x new : string) (v : value) :
  Str.nl_free new = true ->
  descriptor_ok actions v = true ->
  descriptor_ok actions (subst_value ("{" ++ x) new v) = true.
Proof.
  intros Hnew. destruct v as [| | | | |d]; try discriminate.
  unfold descriptor_ok. intro H.
  apply andb_true_iff in H as [H Hact].
  apply andb_true_iff in H as [H Hshape].
  apply andb_true_iff in H as [Hnl Hkeys].
  rewrite (subst_value_nl_free _ _ _ Hnew Hnl).
  rewrite (subst_value_keys _ _ _ Hkeys).
  cbn [subst_value andb].
  apply andb_true_iff. split.
  - unfold shape_ok in *. rewrite !dict_get_subst by exact Hkeys.
    apply andb_true_iff in Hshape as [Hf Hi].
    apply andb_true_iff. split.
    + destruct (dict_get "filter" d) as [[]|]; try discriminate; reflexivity.
    + destruct (dict_get "items" d) as [[| | | |l|]|]; try discriminate;
        [|reflexivity].
      cbn [option_map subst_value]. rewrite forallb_map_comp.
      rewrite forallb_forall in *. intros y Hy. specialize (Hi _ Hy).
      now destruct y.
  - unfold action_in in *. rewrite dict_get_subst by exact Hkeys.
    destruct (dict_get "action" d) as [[| | |a| |]|]; try discriminate.
    cbn [option_map subst_value].
    apply andb_true_iff in Hact as [Hb Hm].
    now rewrite replace_brace_free, Hb, Hm.
Qed.

Lemma substitute_descriptor (actions : list string) (args : list (string * string))
      (v : value) :
  forallb (fun a => Str.nl_free (snd a)) args = true ->
  descriptor_ok actions v = true ->
  descriptor_ok actions (substitute v args) = true.
Proof.
  unfold substitute. revert v.
  induction args as [|[name new] args IH]; intros v Hargs Hv; [exact Hv|].
  cbn [forallb snd] in Hargs. apply andb_true_iff in Hargs as [Hnew Hargs].
  cbn [fold_left fst snd]. apply IH; [exact Hargs|].
  now apply subst_value_descriptor.
Qed.

(** An example whose output is a well-formed descriptor is encoded to a
    call of the function of one of its possible actions. *)
Lemma descriptor_calls (actions : list string) (ex : example) :
  descriptor_ok actions (output ex) = true ->
  calls_one_of (List.map function_of_action actions) ex.
Proof.
  intro H. unfold calls_one_of, encoded_output.
  destruct (output ex) as [| | | | |d]; try discriminate.
  destruct (from_dict_ok _ _ H) as (a & _ & Ha & s & Hs & Hm & Hc).
  exists s, (function_of_action a). repeat split; auto.
  now apply in_map.
Qed.

Lemma templates_ok_In (actions : list string) (pool : list template)
      (t : string) (o : value) :
  templates_ok actions pool = true -> In (t, o) pool ->
  descriptor_ok actions o = true.
Proof.
  unfold templates_ok. rewrite forallb_forall. intros H Hin.
  exact (H _ Hin).
Qed.

Lemma plain_In (bank : list string) (x : string) :
  forallb plain bank = true -> In x bank -> Str.nl_free x = true.
Proof.
  rewrite forallb_forall. intros H Hin. apply plain_nl_free. auto.
Qed.

Lemma calls_one_of_incl (names names' : list string) (ex : example) :
  incl names names' -> calls_one_of names ex -> calls_one_of names' ex.
Proof.
  intros Hincl (s & name & H1 & H2 & H3 & H4).
  exists s, name. repeat split; auto.
Qed.

Lemma calls_walkable (names : list string) (ex : example) :
  descriptor_ok names (output ex) = true \/
  (exists s, output ex = VStr s) -> walkable ex.
Proof.
  intros [H|H]; [|now left]. right.
  destruct (output ex) as [| | | | |d]; try discriminate.
  destruct (from_dict_ok _ _ H) as (a & Ha & _).
  now exists d, a.
Qed.

Lemma sound_descriptor (actions : list string) (ex : example) :
  descriptor_ok actions (output ex) = true ->
  sound (List.map function_of_action actions) ex.
Proof.
  intro H. split; [now apply descriptor_calls|].
  apply (calls_walkable actions). now left.
Qed.

Lemma sound_incl (names names' : list string) (ex : example) :
  incl names names' -> sound names ex -> sound names' ex.
Proof. intros Hi [Hc Hw]. split; [now apply (calls_one_of_incl names)|exact Hw]. Qed.

(** ** The vocabularies and the skeletons *)

(** The vocabularies hold printable ASCII text without quote, backslash or
    brace. *)
Lemma banks_plain :
  forallb plain TOPICS = true /\ forallb plain TASKS = true
  /\ forallb plain PROJECTS = true /\ forallb plain PERSON_NAMES = true
  /\ forallb plain COMPANY_NAMES = true /\ forallb plain TIMES = true
  /\ forallb plain RELATIVE_TIMES = true /\ forallb plain PRIORITIES = true
  /\ forallb (fun d => plain (fst d)) DURATIONS = true.
Proof. repeat split; vm_compute; reflexivity. Qed.

Lemma project_references_plain :
  forallb (fun r => plain (fst r)) PROJECT_REFERENCES = true.
Proof. vm_compute. reflexivity. Qed.

Lemma search_queries_plain : forallb plain Search.search_queries = true.
Proof. vm_compute. reflexivity. Qed.

Lemma pools_ok :
  templates_ok ["create"] SimpleCreation.all_templates = true
  /\ templates_ok ["create"] ProjectSpecific.all_templates = true
  /\ templates_ok ["create"] TimedCreation.timed_task_templates = true
  /\ templates_ok ["create"] TimedCreation.relative_task_templates = true
  /\ templates_ok ["create"] TimedCreation.block_range_templates = true
  /\ templates_ok ["create"] TimedCreation.block_duration_templates = true
  /\ templates_ok ["create"] TimedCreation.meeting_templates = true
  /\ templates_ok ["create"] TimedCreation.timed_task_project_templates = true
  /\ templates_ok ["update"; "delete"] Modification.all_templates = true
  /\ templates_ok ["search"; "navigate"] Search.all_templates = true
  /\ templates_ok ["batch"] Batch.all_templates = true.
Proof. repeat split; vm_compute; reflexivity. Qed.

Lemma In_fst_plain {B} (bank : list (string * B)) (x : string) (y : B) :
  forallb (fun r => plain (fst r)) bank = true -> In (x, y) bank ->
  Str.nl_free x = true.
Proof.
  rewrite forallb_forall. intros H Hin. apply plain_nl_free. exact (H _ Hin).
Qed.

(** ** The generators, one step at a time *)

(** Take a run apart: each draw becomes a membership in its pool. *)
Ltac reach_inv H :=
  repeat
    (let x := fresh "x" in
     let Hx := fresh "Hx" in
     apply reach_bind in H as (x & Hx & H);
     try (apply reach_choice in Hx; [|let E := fresh in intro E; discriminate E]);
     try (destruct x as [? ?]));
  try (apply reach_ret in H).

Ltac bank_facts :=
  destruct banks_plain as (? & ? & ? & ? & ? & ? & ? & ? & ?);
  pose proof project_references_plain;
  pose proof search_queries_plain.

Ltac nl_free_args :=
  cbn [forallb snd andb];
  repeat
    match goal with
    | |- context [Str.nl_free ?x] =>
        match goal with
        | H : In x ?bank |- _ =>
            rewrite (plain_In bank x) by assumption
        | H : In (x, ?y) ?bank |- _ =>
            rewrite (In_fst_plain bank x y) by assumption
        end
    end;
  try reflexivity.

Ltac pool_ok := eapply templates_ok_In; [|eassumption]; apply pools_ok.

Lemma nl_free_clock (hour : Z) : Str.nl_free (TimedCreation.clock hour) = true.
Proof.
  unfold TimedCreation.clock. rewrite nl_free_app, nl_free_of_Z.
  now destruct (12 <=? hour)%Z.
Qed.

Lemma timed_banks_plain :
  forallb plain TimedCreation.people = true
  /\ forallb plain TimedCreation.block_names = true.
Proof. split; vm_compute; reflexivity. Qed.

Ltac legacy_step H :=
  reach_inv H; subst; cbn [output]; bank_facts;
  destruct timed_banks_plain;
  apply substitute_descriptor;
  [rewrite ?nl_free_clock; nl_free_args; rewrite ?nl_free_clock; reflexivity
  |pool_ok].

Lemma simple_creation_step (ex : example) :
  reach simple_creation_example ex ->
  descriptor_ok ["create"] (output ex) = true.
Proof. intro H. unfold simple_creation_example in H. legacy_step H. Qed.

Lemma project_specific_step (ex : example) :
  reach project_specific_example ex ->
  descriptor_ok ["create"] (output ex) = true.
Proof. intro H. unfold project_specific_example in H. legacy_step H. Qed.

Lemma timed_creation_step (ex : example) :
  reach timed_creation_example ex ->
  descriptor_ok ["create"] (output ex) = true.
Proof.
  intro H. unfold timed_creation_example in H.
  apply reach_bind in H as (template_type & Ht & H).
  apply reach_choice in Ht; [|discriminate].
  destruct Ht as [<-|[<-|[<-|[<-|[<-|[<-|[]]]]]]];
    cbn [String.eqb Ascii.eqb Bool.eqb] in H; legacy_step H.
Qed.

Lemma modification_step (ex : example) :
  reach modification_example ex ->
  descriptor_ok ["update"; "delete"] (output ex) = true.
Proof. intro H. unfold modification_example in H. legacy_step H. Qed.

Lemma search_step (ex : example) :
  reach search_example ex ->
  descriptor_ok ["search"; "navigate"] (output ex) = true.
Proof. intro H. unfold search_example in H. legacy_step H. Qed.

Lemma nth_nl_free (l : list string) (i : nat) :
  (forall y, In y l -> Str.nl_free y = true) -> Str.nl_free (nth i l "") = true.
Proof.
  intro H. destruct (nth_in_or_default i l "") as [Hin| ->]; auto.
Qed.

Lemma TASKS_NoDup : NoDup TASKS.
Proof.
  apply (NoDup_count_occ' string_dec). intros x Hx.
  repeat (destruct Hx as [<-|Hx]; [vm_compute; reflexivity|]).
  destruct Hx.
Qed.

Lemma batch_step (ex : example) :
  reach batch_example ex ->
  descriptor_ok ["batch"] (output ex) = true.
Proof.
  intro H. unfold batch_example in H. reach_inv H. subst. cbn [output].
  bank_facts.
  apply sample_spec in Hx0 as (Hincl & _ & _).
  assert (Ht : forall y, In y x -> Str.nl_free y = true).
  { intros y Hy. apply (plain_In TASKS); auto. }
  apply substitute_descriptor; [|pool_ok].
  cbn [forallb snd andb]. rewrite !nth_nl_free by exact Ht.
  nl_free_args.
Qed.

(** ** Generators that call the encoder themselves *)

Lemma string_output_calls (names : list string) (name text : string)
      (params : dict) :
  In name names -> name <> "" -> all_word name = true ->
  params_nl_free params = true ->
  sound names (Example text (VStr (make_function_call name params))).
Proof.
  intros Hin Hne Hw Hp. split; [|left; now eexists].
  exists (make_function_call name params), name.
  repeat split; auto.
  - now apply make_function_call_matches.
  - now apply search_call_make_function_call.
Qed.

Lemma new_banks_plain :
  forallb (fun q => plain (fst q)) LEVEL_QUERY_TYPES = true
  /\ forallb plain DIMENSIONS = true
  /\ forallb (fun e => plain (fst e)) JOURNAL_ENTRY_TYPES = true
  /\ forallb plain GRATITUDE_CONTENT = true
  /\ forallb plain FEELINGS = true
  /\ forallb plain LEARNING_CONTENT = true
  /\ forallb plain GENERAL_CONTENT = true
  /\ forallb (fun w => plain (fst w)) WORKOUT_TYPES = true
  /\ forallb plain EXERCISES = true
  /\ forallb (fun d => plain (fst d)) NAVIGATION_DESTINATIONS = true.
Proof. repeat split; vm_compute; reflexivity. Qed.

Ltac new_bank_facts :=
  destruct new_banks_plain as (? & ? & ? & ? & ? & ? & ? & ? & ? & ?).

Ltac string_step name :=
  apply (string_output_calls _ name);
  [cbn; tauto | discriminate | reflexivity
  |cbn [params_nl_free forallb fst snd escape dict_set String.eqb Ascii.eqb Bool.eqb];
   rewrite ?nl_free_of_Z; nl_free_args].

Lemma level_system_step (ex : example) :
  reach level_system_example ex -> sound level_system_functions ex.
Proof.
  intro H. unfold level_system_example in H. new_bank_facts.
  reach_inv H.
  destruct (String.eqb _ "dimensionStatus"); reach_inv H; subst;
    string_step "query_level_system".
Qed.

Lemma deep_work_steps (ex : example) :
  reach deep_work_start_example ex \/ reach deep_work_duration_example ex
  \/ reach deep_work_pomodoro_example ex \/ reach deep_work_stop_example ex
  \/ reach deep_work_extend_example ex ->
  sound deep_work_functions ex.
Proof.
  intros [H|[H|[H|[H|H]]]].
  - unfold deep_work_start_example in H. reach_inv H. subst.
    string_step "start_deep_work".
  - unfold deep_work_duration_example in H. reach_inv H. subst.
    string_step "start_deep_work".
  - unfold deep_work_pomodoro_example in H. reach_inv H. subst.
    string_step "start_deep_work".
  - unfold deep_work_stop_example in H. reach_inv H. subst.
    string_step "stop_deep_work".
  - unfold deep_work_extend_example in H. reach_inv H. subst.
    string_step "extend_deep_work".
Qed.

Lemma journal_step (ex : example) :
  reach journal_example ex -> sound creation_functions ex.
Proof.
  intro H. unfold journal_example in H. new_bank_facts.
  apply reach_bind in H as ([entry_type templates] & He & H).
  apply reach_choice in He; [|discriminate].
  apply reach_bind in H as (template & _ & H).
  apply reach_bind in H as ([content template'] & Hc & H).
  apply reach_ret in H. subst ex.
  assert (Hcontent : Str.nl_free content = true).
  { destruct (String.eqb entry_type "gratitude");
      [|destruct (String.eqb entry_type "mood");
        [|destruct (String.eqb entry_type "learning")]];
      reach_inv Hc; injection Hc as -> _;
      (eapply plain_In; [|eassumption]; assumption). }
  apply (string_output_calls _ "create_atom");
    [cbn; tauto | discriminate | reflexivity |].
  cbn [params_nl_free forallb fst snd escape].
  assert (Htitle : Str.nl_free
            (if String.eqb entry_type "mood" then "Feeling " ++ content
             else if (String.length content <? 50)%nat
                  then Str.capitalize content
                  else Str.take 47 content ++ "...") = true).
  { destruct (String.eqb entry_type "mood").
    - now rewrite nl_free_app, Hcontent.
    - destruct (String.length content <? 50)%nat.
      + now apply nl_free_capitalize.
      + unfold Str.take. now rewrite nl_free_app, nl_free_substring. }
  rewrite Htitle. unfold Json.dumps_compact.
  rewrite nl_free_dumps by reflexivity. reflexivity.
Qed.

Lemma workout_steps (ex : example) :
  reach workout_basic_example ex \/ reach workout_duration_example ex
  \/ reach workout_distance_example ex \/ reach workout_strength_example ex ->
  sound workout_functions ex.
Proof.
  intros [H|[H|[H|H]]]; new_bank_facts.
  - unfold workout_basic_example in H. reach_inv H. subst.
    string_step "log_workout".
  - unfold workout_duration_example in H. reach_inv H. subst.
    string_step "log_workout".
  - unfold workout_distance_example in H. reach_inv H. subst.
    string_step "log_workout".
  - unfold workout_strength_example in H. reach_inv H. subst.
    string_step "log_workout".
Qed.

Lemma navigation_step (ex : example) :
  reach navigation_example ex -> sound navigation_functions ex.
Proof.
  intro H. unfold navigation_example in H. new_bank_facts.
  reach_inv H. subst. string_step "navigate".
Qed.

(** ** The generated lists *)

Ltac by_step lemma :=
  intro g; apply repeatM_Forall; intros ex Hex;
  first [ exact (lemma ex Hex)
        | apply (sound_descriptor _ ex (lemma ex Hex)) ].

Lemma simple_creation_sound (n : nat) :
  forall g, Forall (sound creation_functions)
                   (fst (generate_simple_creation_examples n g)).
Proof. by_step simple_creation_step. Qed.

Lemma project_specific_sound (n : nat) :
  forall g, Forall (sound creation_functions)
                   (fst (generate_project_specific_examples n g)).
Proof. by_step project_specific_step. Qed.

Lemma timed_creation_sound (n : nat) :
  forall g, Forall (sound creation_functions)
                   (fst (generate_timed_creation_examples n g)).
Proof. by_step timed_creation_step. Qed.

Lemma modification_sound (n : nat) :
  forall g, Forall (sound modification_functions)
                   (fst (generate_modification_examples n g)).
Proof. by_step modification_step. Qed.

Lemma search_sound (n : nat) :
  forall g, Forall (sound search_functions) (fst (generate_search_examples n g)).
Proof. by_step search_step. Qed.

Lemma batch_sound (n : nat) :
  forall g, Forall (sound batch_functions) (fst (generate_batch_examples n g)).
Proof. by_step batch_step. Qed.

Lemma level_system_sound (n : nat) :
  forall g, Forall (sound level_system_functions)
                   (fst (generate_level_system_examples n g)).
Proof. by_step level_system_step. Qed.

Lemma journal_sound (n : nat) :
  forall g, Forall (sound creation_functions) (fst (generate_journal_examples n g)).
Proof. by_step journal_step. Qed.

Lemma navigation_sound (n : nat) :
  forall g, Forall (sound navigation_functions)
                   (fst (generate_navigation_examples n g)).
Proof. by_step navigation_step. Qed.

Ltac loops H :=
  repeat
    (let l := fresh "l" in
     let Hl := fresh "Hl" in
     apply reach_bind in H as (l & Hl & H));
  apply reach_ret in H.

(** The deep-work generator: what its five loops return together. *)
Lemma deep_work_reach (n : nat) (l : list example) :
  reach (generate_deep_work_examples n) l ->
  Forall (sound deep_work_functions) l
  /\ length l = n / 4 + n / 3 + n / 10 + n / 5 + n / 6.
Proof.
  intro H. unfold generate_deep_work_examples in H. loops H. subst l.
  apply (reach_repeatM (sound deep_work_functions)) in Hl as [F1 L1];
    [|intros; apply deep_work_steps; tauto].
  apply (reach_repeatM (sound deep_work_functions)) in Hl0 as [F2 L2];
    [|intros; apply deep_work_steps; tauto].
  apply (reach_repeatM (sound deep_work_functions)) in Hl1 as [F3 L3];
    [|intros; apply deep_work_steps; tauto].
  apply (reach_repeatM (sound deep_work_functions)) in Hl2 as [F4 L4];
    [|intros; apply deep_work_steps; tauto].
  apply (reach_repeatM (sound deep_work_functions)) in Hl3 as [F5 L5];
    [|intros; apply deep_work_steps; tauto].
  split.
  - repeat (apply Forall_app; split); assumption.
  - rewrite !length_app. lia.
Qed.

(** The workout generator: what its four loops return together. *)
Lemma workout_reach (n : nat) (l : list example) :
  reach (generate_workout_examples n) l ->
  Forall (sound workout_functions) l
  /\ length l = n / 3 + n / 3 + n / 6 + n / 6.
Proof.
  intro H. unfold generate_workout_examples in H. loops H. subst l.
  apply (reach_repeatM (sound workout_functions)) in Hl as [F1 L1];
    [|intros; apply workout_steps; tauto].
  apply (reach_repeatM (sound workout_functions)) in Hl0 as [F2 L2];
    [|intros; apply workout_steps; tauto].
  apply (reach_repeatM (sound workout_functions)) in Hl1 as [F3 L3];
    [|intros; apply workout_steps; tauto].
  apply (reach_repeatM (sound workout_functions)) in Hl2 as [F4 L4];
    [|intros; apply workout_steps; tauto].
  split.
  - repeat (apply Forall_app; split); assumption.
  - rewrite !length_app. lia.
Qed.

Lemma reach_fst {A} (m : Rand A) (g : rng) : reach m (fst (m g)).
Proof. now exists g. Qed.

Lemma deep_work_sound (n : nat) :
  forall g, Forall (sound deep_work_functions)
                   (fst (generate_deep_work_examples n g)).
Proof. intro g. apply (deep_work_reach n), reach_fst. Qed.

Lemma workout_sound (n : nat) :
  forall g, Forall (sound workout_functions) (fst (generate_workout_examples n g)).
Proof. intro g. apply (workout_reach n), reach_fst. Qed.

Lemma Forall_sound_incl (names names' : list string) (l : list example) :
  incl names names' -> Forall (sound names) l -> Forall (sound names') l.
Proof.
  intros Hi H. eapply Forall_impl; [|exact H].
  intros ex. now apply sound_incl.
Qed.

Ltac names_incl := intros x Hx; cbn in Hx |- *; tauto.

(** Every example of every category is encoded to a call of an allowed
    function. *)
Lemma generators_sound (gen : nat -> Rand (list example)) (n : nat) (g : rng) :
  In gen generators -> Forall (sound valid_functions) (fst (gen n g)).
Proof.
  intro H. unfold generators in H.
  repeat (destruct H as [<-|H]);
    [ apply (Forall_sound_incl creation_functions); [names_incl|apply simple_creation_sound]
    | apply (Forall_sound_incl creation_functions); [names_incl|apply project_specific_sound]
    | apply (Forall_sound_incl creation_functions); [names_incl|apply timed_creation_sound]
    | apply (Forall_sound_incl modification_functions); [names_incl|apply modification_sound]
    | apply (Forall_sound_incl search_functions); [names_incl|apply search_sound]
    | apply (Forall_sound_incl batch_functions); [names_incl|apply batch_sound]
    | apply (Forall_sound_incl level_system_functions); [names_incl|apply level_system_sound]
    | apply (Forall_sound_incl deep_work_functions); [names_incl|apply deep_work_sound]
    | apply (Forall_sound_incl creation_functions); [names_incl|apply journal_sound]
    | apply (Forall_sound_incl workout_functions); [names_incl|apply workout_sound]
    | apply (Forall_sound_incl navigation_functions); [names_incl|apply navigation_sound]
    | destruct H ].
Qed.

(** The ten lists [main] combines *)
Lemma categories_reach (c : categories) :
  reach generate_categories c ->
  Forall (sound corpus_functions) (combine_all c)
  /\ length (simple_examples c) = 4000
  /\ length (project_examples c) = 2500
  /\ length (timed_examples c) = 2000
  /\ length (modification_examples c) = 1500
  /\ length (level_system_examples c) = 2000
  /\ length (deep_work_examples c) = 1049
  /\ length (journal_examples c) = 1000
  /\ length (workout_examples c) = 498
  /\ length (navigation_examples c) = 600
  /\ length (batch_examples c) = 500.
Proof.
  intro H. unfold generate_categories in H. loops H. subst c.
  cbn [combine_all simple_examples project_examples timed_examples
       modification_examples level_system_examples deep_work_examples
       journal_examples workout_examples navigation_examples batch_examples].
  destruct Hl as [g0 <-], Hl0 as [g1 <-], Hl1 as [g2 <-], Hl2 as [g3 <-],
           Hl3 as [g4 <-], Hl5 as [g6 <-], Hl7 as [g8 <-], Hl8 as [g9 <-].
  apply deep_work_reach in Hl4 as [F5 L5].
  apply workout_reach in Hl6 as [F7 L7].
  split; [|unfold generate_simple_creation_examples,
             generate_project_specific_examples, generate_timed_creation_examples,
             generate_modification_examples, generate_level_system_examples,
             generate_journal_examples, generate_navigation_examples,
             generate_batch_examples;
           rewrite !repeatM_length; repeat split; assumption].
  repeat (apply Forall_app; split).
  - apply (Forall_sound_incl creation_functions); [names_incl|apply simple_creation_sound].
  - apply (Forall_sound_incl creation_functions); [names_incl|apply project_specific_sound].
  - apply (Forall_sound_incl creation_functions); [names_incl|apply timed_creation_sound].
  - apply (Forall_sound_incl modification_functions); [names_incl|apply modification_sound].
  - apply (Forall_sound_incl level_system_functions); [names_incl|apply level_system_sound].
  - apply (Forall_sound_incl deep_work_functions); [names_incl|exact F5].
  - apply (Forall_sound_incl creation_functions); [names_incl|apply journal_sound].
  - apply (Forall_sound_incl workout_functions); [names_incl|exact F7].
  - apply (Forall_sound_incl navigation_functions); [names_incl|apply navigation_sound].
  - apply (Forall_sound_incl batch_functions); [names_incl|apply batch_sound].
Qed.

(** ** The shuffle *)

Lemma list_set_length {A} (i : nat) (x : A) (l : list A) :
  length (list_set i x l) = length l.
Proof.
  revert i. induction l as [|a l IH]; intros [|i]; simpl; auto.
Qed.

Lemma nth_error_list_set_eq {A} (i : nat) (x : A) (l : list A) :
  i < length l -> nth_error (list_set i x l) i = Some x.
Proof.
  revert i. induction l as [|a l IH]; intros [|i] H; simpl in *; try lia; auto.
  apply IH. lia.
Qed.

Lemma nth_error_list_set_neq {A} (i j : nat) (x : A) (l : list A) :
  i <> j -> nth_error (list_set i x l) j = nth_error l j.
Proof.
  revert i j. induction l as [|a l IH]; intros [|i] [|j] H; simpl; auto;
    try congruence.
Qed.

Lemma list_set_swap_out {A} (j : nat) (a b : A) (l : list A) :
  nth_error l j = Some b -> Permutation (b :: list_set j a l) (a :: l).
Proof.
  revert j. induction l as [|c l IH]; intros [|j] H; simpl in H; try discriminate.
  - injection H as ->. simpl. apply perm_swap.
  - simpl. rewrite perm_swap. rewrite (perm_swap c a). now apply perm_skip, IH.
Qed.

Lemma swap_Permutation {A} (i j : nat) (x : list A) : Permutation (swap i j x) x.
Proof.
  unfold swap.
  destruct (nth_error x i) as [xi|] eqn:Ei; [|reflexivity].
  destruct (nth_error x j) as [xj|] eqn:Ej; [|reflexivity].
  apply (Permutation_cons_inv (a := xj)).
  assert (Hj : nth_error (list_set i xj x) j = Some xj).
  { destruct (Nat.eq_dec i j) as [<-|Hne].
    - apply nth_error_list_set_eq. apply nth_error_Some. congruence.
    - now rewrite nth_error_list_set_neq. }
  rewrite (list_set_swap_out j xi xj _ Hj).
  now apply list_set_swap_out.
Qed.

Lemma shuffle_from_Permutation {A} (i : nat) (x : list A) (g : rng) :
  Permutation (fst (shuffle_from i x g)) x.
Proof.
  revert x g. induction i as [|i IH]; intros x g; [reflexivity|].
  cbn [shuffle_from]. rewrite fst_bind. rewrite IH. apply swap_Permutation.
Qed.

(** [random.shuffle] rearranges the list and loses nothing. *)
Lemma shuffle_Permutation {A} (x : list A) (g : rng) :
  Permutation (fst (shuffle x g)) x.
Proof. apply shuffle_from_Permutation. Qed.

(** ** The validator *)

Lemma validate_one_walkable (i : nat) (ex : example) :
  walkable ex -> exists found, validate_one i ex = Some found.
Proof.
  unfold validate_one. intros [[s ->]|(d & a & -> & ->)].
  - destruct (negb (Str.startswith s _)); [now eexists|].
    destruct (negb (Str.endswith s _)); [now eexists|].
    destruct (Re.search_call s) as [f|]; [|now eexists].
    destruct (negb (mem f valid_functions)); now eexists.
  - destruct (truthy (VStr a)); [|now eexists].
    destruct (negb (mem a valid_actions)); now eexists.
Qed.

Lemma validate_from_walkable (i : nat) (examples : list example) :
  Forall walkable examples -> exists found, validate_from i examples = Some found.
Proof.
  intro H. revert i. induction H as [|ex l Hex Hl IH]; intro i; simpl.
  - now eexists.
  - destruct (validate_one_walkable i ex Hex) as [a ->].
    destruct (IH (S i)) as [b ->]. now eexists.
Qed.



(** ** The chat envelope *)

Lemma format_for_mlx_lm_spec (examples : list example) (formatted : list value) :
  format_for_mlx_lm examples = Some formatted <->
  Forall2 enveloped examples formatted.
Proof.
  revert formatted. induction examples as [|ex l IH]; intro formatted; simpl.
  - split.
    + intros [= <-]. constructor.
    + intro H. now inversion H.
  - split.
    + destruct (encoded_output ex) as [out|] eqn:Eo; [|discriminate].
      destruct (format_for_mlx_lm l) as [f|]; [|discriminate].
      intros [= <-]. constructor; [now exists out|now apply IH].
    + intro H. inversion H as [|? r ? fr (out & Eo & ->) Hr]; subst.
      rewrite Eo. apply IH in Hr. now rewrite Hr.
Qed.

Lemma format_for_mlx_lm_total (examples : list example) :
  Forall (fun ex => exists out, encoded_output ex = Some out) examples ->
  exists formatted, format_for_mlx_lm examples = Some formatted.
Proof.
  induction 1 as [|ex l [out Ho] Hl [f IH]]; simpl; [now eexists|].
  rewrite Ho, IH. now eexists.
Qed.


(** * The claims *)

Lemma repeatM_head {A} (n : nat) (step : Rand A) (g : rng) :
  fst (repeatM (S n) step g)
  = fst (step g) :: fst (repeatM n step (snd (step g))).
Proof.
  cbn [repeatM]. unfold bind, ret.
  destruct (step g) as [x g1]. cbn [fst snd].
  destruct (repeatM n step g1). reflexivity.
Qed.

Lemma repeatM_first {A} (n : nat) (step : Rand A) (g : rng) :
  0 < n -> In (fst (step g)) (fst (repeatM n step g)).
Proof.
  destruct n as [|n]; [lia|]. intros _. rewrite repeatM_head. now left.
Qed.

Lemma search_generator_calls_search :
  exists ex, In ex (fst (generate_search_examples 1500 zero_rng))
             /\ calls_one_of ["search_atoms"] ex.
Proof.
  exists (fst (search_example zero_rng)). split.
  - unfold generate_search_examples. apply repeatM_first. lia.
  - apply (descriptor_calls ["search"]). vm_compute. reflexivity.
Qed.

(** C1.  [main] combines the lists of ten generators; the search generator
    is defined but never called.  Whatever the draws, the combined list has
    the 15647 examples of those ten lists and none of them is encoded to a
    call of [search_atoms], while the search generator, run for its default
    count, does produce such examples. *)
Theorem corpus_without_search (g : rng) :
  let c := fst (generate_categories g) in
  length (combine_all c) = 15647
  /\ Forall (calls_one_of corpus_functions) (combine_all c)
  /\ ~ In "search_atoms" corpus_functions
  /\ exists ex, In ex (fst (generate_search_examples 1500 zero_rng))
                /\ calls_one_of ["search_atoms"] ex.
Proof.
  intro c.
  destruct (categories_reach c (reach_fst _ g))
    as (Hs & L1 & L2 & L3 & L4 & L5 & L6 & L7 & L8 & L9 & L10).
  split; [|split; [|split]].
  - unfold combine_all. rewrite !length_app.
    rewrite L1, L2, L3, L4, L5, L6, L7, L8, L9, L10. reflexivity.
  - eapply Forall_impl; [|exact Hs]. now intros ex [Hc _].
  - cbn. intuition discriminate.
  - exact search_generator_calls_search.
Qed.

(** C2.  Nine generators return as many examples as asked for.  The
    deep-work and the workout generators return the sum of the integer
    quotients their loops run for, which is not the count asked for: 1049
    for 1000 and 498 for 500. *)
Theorem category_counts (n : nat) (g : rng) :
  length (fst (generate_simple_creation_examples n g)) = n
  /\ length (fst (generate_project_specific_examples n g)) = n
  /\ length (fst (generate_timed_creation_examples n g)) = n
  /\ length (fst (generate_modification_examples n g)) = n
  /\ length (fst (generate_search_examples n g)) = n
  /\ length (fst (generate_batch_examples n g)) = n
  /\ length (fst (generate_level_system_examples n g)) = n
  /\ length (fst (generate_journal_examples n g)) = n
  /\ length (fst (generate_navigation_examples n g)) = n
  /\ length (fst (generate_deep_work_examples n g))
     = n / 4 + n / 3 + n / 10 + n / 5 + n / 6
  /\ length (fst (generate_workout_examples n g)) = n / 3 + n / 3 + n / 6 + n / 6
  /\ length (fst (generate_deep_work_examples 1000 g)) = 1049
  /\ length (fst (generate_workout_examples 500 g)) = 498.
Proof.
  repeat split; try apply repeatM_length.
  - apply (deep_work_reach n), reach_fst.
  - apply (workout_reach n), reach_fst.
  - now rewrite (proj2 (deep_work_reach 1000 _ (reach_fst _ g))).
  - now rewrite (proj2 (workout_reach 500 _ (reach_fst _ g))).
Qed.

(** C5.  Every example of every category generator, for every count and
    every state of the random source, is encoded to a string that matches
    the anchored pattern of the grammar, and the name the validator's
    regular expression extracts from it is one of the twelve allowed
    functions. *)
Theorem encoded_outputs_well_formed
        (gen : nat -> Rand (list example)) (n : nat) (g : rng) (ex : example) :
  In gen generators -> In ex (fst (gen n g)) ->
  calls_one_of valid_functions ex.
Proof.
  intros Hgen Hex.
  pose proof (generators_sound gen n g Hgen) as H.
  rewrite Forall_forall in H. now apply H.
Qed.

Lemma encoded_outputs_well_formed_witness :
  calls_one_of valid_functions
    (Example "go home"
       (VStr "<start_function_call>call:navigate{destination:<escape>home<escape>}<end_function_call>")).
Proof.
  apply (encoded_outputs_well_formed generate_navigation_examples 1 zero_rng).
  - unfold generators. do 10 right. left. reflexivity.
  - vm_compute. left. reflexivity.
Defined.

(** ** The assembler *)

(** What a successful run of the assembler returns *)
Lemma assemble_inv (simple project all_examples : list example) (g : rng)
      (o : outcome) :
  fst (assemble simple project all_examples g) = Some o ->
  let shuffled := fst (shuffle all_examples g) in
  let split_idx := split_index (length shuffled) in
  validate_examples all_examples = Some (issues o)
  /\ total o = length all_examples
  /\ train_examples o = firstn split_idx shuffled
  /\ valid_examples o = skipn split_idx shuffled
  /\ exists train_formatted valid_formatted,
       format_for_mlx_lm (train_examples o) = Some train_formatted
       /\ format_for_mlx_lm (valid_examples o) = Some valid_formatted
       /\ train_file o = jsonl train_formatted
       /\ valid_file o = jsonl valid_formatted.
Proof.
  unfold assemble. intro H.
  destruct (validate_examples all_examples) as [found|]; [|discriminate].
  rewrite fst_bind in H. cbv zeta in H.
  set (shuffled := fst (shuffle all_examples g)) in *.
  destruct (format_for_mlx_lm (firstn _ shuffled)) as [tf|] eqn:Et;
    [|discriminate].
  destruct (format_for_mlx_lm (skipn _ shuffled)) as [vf|] eqn:Ev;
    [|discriminate].
  rewrite fst_bind in H. cbn [ret fst] in H. injection H as <-.
  cbn [issues total train_examples valid_examples train_file valid_file].
  repeat split. exists tf, vf. repeat split; assumption.
Qed.

(** The assembler returns whenever the validator and the encoder do. *)
Lemma assemble_total (simple project all_examples : list example) (g : rng)
      (found : list string) :
  validate_examples all_examples = Some found ->
  Forall (fun ex => exists out, encoded_output ex = Some out) all_examples ->
  exists o, fst (assemble simple project all_examples g) = Some o.
Proof.
  intros Hv Henc. unfold assemble. rewrite Hv, fst_bind. cbv zeta.
  set (shuffled := fst (shuffle all_examples g)).
  assert (Hs : Forall (fun ex => exists out, encoded_output ex = Some out) shuffled).
  { rewrite Forall_forall in *. intros ex Hex. apply Henc.
    eapply Permutation_in; [apply shuffle_Permutation|exact Hex]. }
  destruct (format_for_mlx_lm_total (firstn (split_index (length shuffled)) shuffled))
    as [tf ->]; [now apply Forall_take|].
  destruct (format_for_mlx_lm_total (skipn (split_index (length shuffled)) shuffled))
    as [vf ->]; [now apply Forall_drop|].
  rewrite fst_bind. cbn [ret fst]. now eexists.
Qed.

Lemma split_index_le (total : nat) : split_index total <= total.
Proof. unfold split_index. apply Nat.Div0.div_le_upper_bound. lia. Qed.

Lemma sound_encodable (names : list string) (l : list example) :
  Forall (sound names) l ->
  Forall (fun ex => exists out, encoded_output ex = Some out) l.
Proof.
  intro H. eapply Forall_impl; [|exact H].
  intros ex [(s & name & Hs & _) _]. now exists s.
Qed.

(** A run of [main] returns, whatever the draws. *)
Lemma main_total (g : rng) :
  exists o, fst (main g) = Some o /\ total o = 15647.
Proof.
  unfold main. rewrite fst_bind.
  set (c := fst (generate_categories g)).
  destruct (categories_reach c (reach_fst _ g))
    as (Hs & L1 & L2 & L3 & L4 & L5 & L6 & L7 & L8 & L9 & L10).
  destruct (validate_from_walkable 0 (combine_all c)) as [found Hv].
  { eapply Forall_impl; [|exact Hs]. now intros ex [_ Hw]. }
  destruct (assemble_total (simple_examples c) (project_examples c)
              (combine_all c) (snd (generate_categories g)) found Hv
              (sound_encodable _ _ Hs)) as [o Ho].
  exists o. split; [exact Ho|].
  apply assemble_inv in Ho as (_ & -> & _).
  unfold combine_all. rewrite !length_app.
  rewrite L1, L2, L3, L4, L5, L6, L7, L8, L9, L10. reflexivity.
Qed.

Lemma shuffle_length {A} (x : list A) (g : rng) :
  length (fst (shuffle x g)) = length x.
Proof. apply Permutation_length, shuffle_Permutation. Qed.

Lemma assemble_sizes (simple project all_examples : list example) (g : rng)
      (o : outcome) :
  fst (assemble simple project all_examples g) = Some o ->
  let T := length all_examples in
  total o = T
  /\ length (train_examples o) = (9 * T) / 10
  /\ length (valid_examples o) = T - (9 * T) / 10
  /\ length (valid_examples o) = (T + 9) / 10
  /\ (length (valid_examples o) = T / 10 <-> T mod 10 = 0).
Proof.
  intros H T. apply assemble_inv in H as (_ & Ht & Htrain & Hvalid & _).
  rewrite shuffle_length in Htrain, Hvalid. fold T in Htrain, Hvalid.
  assert (Hlen : length (fst (shuffle all_examples g)) = T)
    by apply shuffle_length.
  assert (Hle : split_index T <= T) by apply split_index_le.
  assert (L1 : length (train_examples o) = split_index T).
  { rewrite Htrain, length_firstn. lia. }
  assert (L2 : length (valid_examples o) = T - split_index T).
  { rewrite Hvalid, length_skipn. lia. }
  unfold split_index in *.
  pose proof (Nat.div_mod_eq (9 * T) 10) as D9.
  pose proof (Nat.mod_upper_bound (9 * T) 10) as M9.
  pose proof (Nat.div_mod_eq (T + 9) 10) as Dc.
  pose proof (Nat.mod_upper_bound (T + 9) 10) as Mc.
  pose proof (Nat.div_mod_eq T 10) as D1.
  pose proof (Nat.mod_upper_bound T 10) as M1.
  repeat split; try lia.
Qed.

(** C3, as the code has it.  For a corpus of [T] examples handed to the
    assembler, the train set has the integer part of [0.9 T] examples and
    the validation set has the remaining [T - floor(0.9 T)], that is
    [0.1 T] rounded up; this is the integer part of [0.1 T] exactly when
    [T] is a multiple of ten. *)
Theorem split_sizes (simple project all_examples : list example) (g : rng)
        (o : outcome) :
  fst (assemble simple project all_examples g) = Some o ->
  let T := length all_examples in
  total o = T
  /\ length (train_examples o) = (9 * T) / 10
  /\ length (valid_examples o) = T - (9 * T) / 10
  /\ length (valid_examples o) = (T + 9) / 10
  /\ (length (valid_examples o) = T / 10 <-> T mod 10 = 0).
Proof. apply assemble_sizes. Qed.

Lemma split_sizes_witness :
  exists o,
    fst (assemble [] [] eleven_examples zero_rng) = Some o
    /\ length (train_examples o) = 9 /\ length (valid_examples o) = 2.
Proof.
  destruct (fst (assemble [] [] eleven_examples zero_rng)) as [o|] eqn:E.
  - exists o. split; [reflexivity|].
    destruct (split_sizes [] [] eleven_examples zero_rng o E)
      as (_ & L1 & L2 & _).
    split; [exact L1|exact L2].
  - vm_compute in E. discriminate E.
Defined.

(** The sizes of the two sets of a run of [main] *)
Lemma main_split_sizes (g : rng) :
  exists o,
    fst (main g) = Some o
    /\ total o = 15647
    /\ length (valid_examples o) = 1565
    /\ total o / 10 = 1564.
Proof.
  destruct (main_total g) as (o & Ho & Ht).
  exists o. split; [exact Ho|]. split; [exact Ht|].
  unfold main in Ho. rewrite fst_bind in Ho.
  apply assemble_sizes in Ho as (Ht' & _ & L2 & _).
  rewrite <- Ht', Ht in L2.
  split; [rewrite L2|rewrite Ht]; vm_compute; reflexivity.
Qed.

(** C3, as stated, fails on the corpus of a run of [main]: of its 15647
    examples, 1565 go to the validation set, one more than the integer part
    of a tenth. *)
Lemma valid_size_counterexample :
  exists o,
    fst (main zero_rng) = Some o
    /\ total o = 15647
    /\ length (valid_examples o) = 1565
    /\ total o / 10 = 1564.
Proof. exact (main_split_sizes zero_rng). Qed.

Lemma assemble_partition (simple project all_examples : list example) (g : rng)
      (o : outcome) :
  fst (assemble simple project all_examples g) = Some o ->
  let shuffled := fst (shuffle all_examples g) in
  let train := train_examples o in
  let valid := valid_examples o in
  length train + length valid = length all_examples
  /\ (train ++ valid)%list = shuffled
  /\ Permutation (train ++ valid) all_examples
  /\ (forall i, i < length train -> nth_error train i = nth_error shuffled i)
  /\ (forall j, nth_error valid j = nth_error shuffled (length train + j)).
Proof.
  intros H shuffled train valid.
  apply assemble_inv in H as (_ & _ & Htrain & Hvalid & _).
  fold shuffled in Htrain, Hvalid. fold train in Htrain. fold valid in Hvalid.
  set (idx := split_index (length shuffled)) in *.
  assert (Hcat : (train ++ valid)%list = shuffled).
  { rewrite Htrain, Hvalid. apply firstn_skipn. }
  assert (Hle : idx <= length shuffled) by apply split_index_le.
  assert (Hlt : length train = idx).
  { rewrite Htrain, length_firstn. lia. }
  repeat split.
  - rewrite <- length_app, Hcat. apply shuffle_length.
  - exact Hcat.
  - rewrite Hcat. apply shuffle_Permutation.
  - intros i Hi. rewrite <- Hcat. symmetry. now apply nth_error_app1.
  - intro j. rewrite <- Hcat, nth_error_app2 by lia. f_equal. lia.
Qed.

(** C4.  The two sets partition the shuffled corpus: the train set is its
    first part and the validation set the rest, position by position, so
    their sizes add up to the size of the corpus, no position belongs to
    both, the order inside each set is the order after the shuffle, and
    together they hold the examples of the corpus, each as often as the
    corpus does. *)
Theorem split_partition (simple project all_examples : list example) (g : rng)
        (o : outcome) :
  fst (assemble simple project all_examples g) = Some o ->
  let shuffled := fst (shuffle all_examples g) in
  let train := train_examples o in
  let valid := valid_examples o in
  length train + length valid = length all_examples
  /\ (train ++ valid)%list = shuffled
  /\ Permutation (train ++ valid) all_examples
  /\ (forall i, i < length train -> nth_error train i = nth_error shuffled i)
  /\ (forall j, nth_error valid j = nth_error shuffled (length train + j)).
Proof. apply assemble_partition. Qed.

Lemma split_partition_witness :
  exists o,
    fst (assemble [] [] eleven_examples zero_rng) = Some o
    /\ length (train_examples o) + length (valid_examples o) = 11
    /\ Permutation (train_examples o ++ valid_examples o) eleven_examples.
Proof.
  destruct (fst (assemble [] [] eleven_examples zero_rng)) as [o|] eqn:E.
  - exists o. split; [reflexivity|].
    destruct (split_partition [] [] eleven_examples zero_rng o E)
      as (L & _ & P & _).
    split; [exact L|exact P].
  - vm_compute in E. discriminate E.
Defined.



(** ** Batch examples *)

Lemma in_times {A} (x : A) (l : list A) (k : nat) : In x (times l k) -> In x l.
Proof.
  induction k as [|k IH]; simpl; [tauto|].
  intro H. apply in_app_or in H as [H|H]; auto.
Qed.

Lemma topics_tasks_disjoint :
  forallb (fun t => negb (mem t TASKS)) TOPICS = true.
Proof. vm_compute. reflexivity. Qed.

Lemma topic_not_task (topic task : string) :
  In topic TOPICS -> In task TASKS -> topic <> task.
Proof.
  intros Ht Hk ->. pose proof topics_tasks_disjoint as H.
  rewrite forallb_forall in H. specialize (H _ Ht).
  apply negb_true_iff in H. apply mem_In in Hk. congruence.
Qed.

Lemma bank_brace_free (bank : list string) (x : string) :
  forallb plain bank = true -> In x bank -> Str.brace_free x = true.
Proof.
  rewrite forallb_forall. intros H Hin. apply plain_brace_free. auto.
Qed.

Ltac instantiate_skeleton :=
  cbn; rewrite ?append_nil_r;
  repeat
    match goal with
    | B : Str.brace_free ?t = true
      |- context [Str.replace_from (String "{" ?x) ?new ?t 0] =>
        rewrite (replace_from_brace_free x new t B)
    end.

Ltac distinct_titles :=
  eexists; split; [reflexivity|]; split; [simpl; lia|];
  repeat constructor; simpl; intuition congruence.

(* Each skeleton of the pool in turn *)
Ltac batch_cases Hx :=
  repeat (destruct Hx as [Hx|Hx];
          [injection Hx as <- <-; instantiate_skeleton; distinct_titles|]);
  destruct Hx.

(** One batch example: two or three items, with titles that differ. *)
Lemma batch_step_titles (ex : example) :
  reach batch_example ex ->
  exists titles,
    batch_titles ex = Some titles
    /\ 2 <= length titles <= 3 /\ NoDup titles.
Proof.
  intro H. unfold batch_example in H. reach_inv H. subst ex.
  rename x into tasks, x0 into topic, s0 into project_ref, s into template,
         v into output_template.
  apply sample_spec in Hx0 as (Hincl & Hnd & Hlen).
  specialize (Hnd TASKS_NoDup).
  assert (L : length tasks = 3) by (apply Hlen; vm_compute; lia).
  destruct tasks as [|t0 [|t1 [|t2 [|]]]]; try discriminate L.
  assert (I0 : In t0 TASKS) by (apply Hincl; simpl; auto).
  assert (I1 : In t1 TASKS) by (apply Hincl; simpl; auto).
  assert (I2 : In t2 TASKS) by (apply Hincl; simpl; auto).
  destruct banks_plain as (PT & PK & _).
  pose proof (bank_brace_free _ _ PK I0) as B0.
  pose proof (bank_brace_free _ _ PK I1) as B1.
  pose proof (bank_brace_free _ _ PK I2) as B2.
  pose proof (bank_brace_free _ _ PT Hx1) as Bt.
  assert (Bp : Str.brace_free project_ref = true).
  { pose proof project_references_plain as Hp. rewrite forallb_forall in Hp.
    apply plain_brace_free. exact (Hp _ Hx2). }
  inversion Hnd as [|? ? N0 Hnd1]; subst.
  inversion Hnd1 as [|? ? N1 _]; subst.
  assert (D01 : t0 <> t1) by (intros ->; apply N0; simpl; auto).
  assert (D02 : t0 <> t2) by (intros ->; apply N0; simpl; auto).
  assert (D12 : t1 <> t2) by (intros ->; apply N1; simpl; auto).
  assert (Dt : topic <> t0) by now apply topic_not_task.
  cbn [nth].
  unfold Batch.all_templates in Hx.
  apply in_app_or in Hx as [Hx|Hx];
    [apply in_times in Hx
    |apply in_app_or in Hx as [Hx|Hx];
     [apply in_times in Hx
     |apply in_app_or in Hx as [Hx|Hx]; [|apply in_times in Hx]]];
    batch_cases Hx.
Qed.

(** C6.  Every example of the batch generator has two or three items, and
    the titles of its items are pairwise distinct. *)
Theorem batch_items_distinct (n : nat) (g : rng) (ex : example) :
  In ex (fst (generate_batch_examples n g)) ->
  exists titles,
    batch_titles ex = Some titles
    /\ 2 <= length titles <= 3 /\ NoDup titles.
Proof.
  intro Hex.
  pose proof (repeatM_Forall _ n batch_example batch_step_titles g) as H.
  rewrite Forall_forall in H. now apply H.
Qed.

Lemma batch_items_distinct_witness :
  exists titles,
    batch_titles (fst (batch_example zero_rng)) = Some titles
    /\ 2 <= length titles <= 3 /\ NoDup titles.
Proof.
  apply (batch_items_distinct 1 zero_rng).
  vm_compute. left. reflexivity.
Defined.

(** ** The legacy path and the mapping table *)

Lemma dict_get_Some_iff {A} (k : string) (v : A) (d : list (string * A)) :
  NoDup (keys d) -> (dict_get k d = Some v <-> In (k, v) d).
Proof.
  induction d as [|[k' v'] d IH]; intro Hnd; simpl.
  - split; [discriminate|tauto].
  - inversion Hnd as [|? ? Hk Hd]; subst.
    destruct (String.eqb_spec k k') as [->|Hne].
    + split.
      * intros [= ->]. now left.
      * intros [[= ->]|Hin]; [reflexivity|].
        exfalso. apply Hk. unfold keys. change k' with (fst (k', v)).
        now apply in_map.
    + rewrite (IH Hd). split; [tauto|].
      intros [[= -> _]|Hin]; [congruence|exact Hin].
Qed.

(** A lookup does not depend on the order of the keys. *)
Lemma dict_get_perm {A} (k : string) (d d' : list (string * A)) :
  Permutation d d' -> NoDup (keys d') -> dict_get k d = dict_get k d'.
Proof.
  intros Hp Hnd'.
  assert (Hnd : NoDup (keys d)).
  { eapply Permutation_NoDup; [|exact Hnd'].
    unfold keys. apply Permutation_map. now symmetry. }
  destruct (dict_get k d') as [v'|] eqn:E'.
  - apply dict_get_Some_iff in E'; [|exact Hnd'].
    apply dict_get_Some_iff; [exact Hnd|].
    eapply Permutation_in; [symmetry; exact Hp|exact E'].
  - destruct (dict_get k d) as [v|] eqn:E; [|reflexivity].
    apply dict_get_Some_iff in E; [|exact Hnd].
    assert (Hin : In (k, v) d') by (eapply Permutation_in; eassumption).
    apply dict_get_Some_iff in Hin; [congruence|exact Hnd'].
Qed.

Lemma dict_set_new {A} (k : string) (v : A) (d : list (string * A)) :
  ~ In k (keys d) -> dict_set k v d = (d ++ [(k, v)])%list.
Proof.
  induction d as [|[k' v'] d IH]; intro H; simpl; [reflexivity|].
  destruct (String.eqb_spec k k') as [->|Hne].
  - exfalso. apply H. now left.
  - rewrite IH; [reflexivity|]. intro Hin. apply H. now right.
Qed.

Lemma not_in_keys_nil {A} (k : string) : ~ In k (keys (@nil (string * A))).
Proof. intros []. Qed.

Lemma not_in_keys_cons {A} (k k' : string) (v : A) (d : list (string * A)) :
  k' <> k -> ~ In k (keys d) -> ~ In k (keys ((k', v) :: d)).
Proof. intros Hne Hd [H|H]; [now apply Hne|now apply Hd]. Qed.

Lemma not_in_keys_app {A} (k : string) (a b : list (string * A)) :
  ~ In k (keys a) -> ~ In k (keys b) -> ~ In k (keys (a ++ b)).
Proof.
  intros Ha Hb H. unfold keys in H. rewrite map_app in H.
  apply in_app_or in H as [H|H]; [now apply Ha|now apply Hb].
Qed.

Ltac fresh_key :=
  cbn [app];
  repeat first [ assumption
               | apply not_in_keys_nil
               | apply not_in_keys_cons; [discriminate|]
               | apply not_in_keys_app ].

(** Flattening a filter whose keys are new appends its fields in order. *)
Lemma flatten_new (filter params : dict) :
  NoDup (keys filter) ->
  (forall k, In k (keys filter) -> ~ In k (keys params)) ->
  fold_left (fun p kv => dict_set (fst kv) (snd kv) p) filter params
  = (params ++ filter)%list.
Proof.
  revert params. induction filter as [|[k v] filter IH]; intros params Hnd Hnew.
  - cbn. now rewrite app_nil_r.
  - inversion Hnd as [|? ? Hk Hd]; subst.
    cbn [fold_left fst snd]. rewrite dict_set_new by (apply Hnew; now left).
    rewrite IH; [now rewrite <- app_assoc|exact Hd|].
    intros k' Hk' Hin. unfold keys in Hin. rewrite map_app in Hin.
    apply in_app_or in Hin as [Hin|[<-|[]]].
    + apply (Hnew k'); [now right|exact Hin].
    + now apply Hk.
Qed.

Lemma fields_NoDup (r : Table.descriptor) : NoDup (keys (Table.fields r)).
Proof.
  destruct r as [ty ti [b|] [m|] [l|] | t [ti|] [b|] [m|] [l|] | t
                 | [q|] [ty|] [f|] [m|] [t|] | items | dst];
    cbn; repeat constructor; cbn; intuition discriminate.
Qed.

Lemma item_fields_NoDup (it : Table.item) : NoDup (keys (Table.item_fields it)).
Proof.
  destruct it as [ty ti [l|]]; cbn; repeat constructor; cbn; intuition discriminate.
Qed.

Lemma batch_item_written (it : Table.item) (v : value) :
  Table.written_as it v -> batch_item v = Some (Table.item_parameters it).
Proof.
  intros (d & -> & Hp). unfold batch_item, get_default, copy_if_present.
  rewrite !(dict_get_perm _ _ _ Hp (item_fields_NoDup it)).
  now destruct it as [ty ti [l|]].
Qed.

Lemma batch_items_written (items : list Table.item) (written : list value) :
  Forall2 Table.written_as items written ->
  batch_items written = Some (List.map Table.item_parameters items).
Proof.
  induction 1 as [|it v items written Hit _ IH]; [reflexivity|].
  cbn [batch_items List.map]. now rewrite (batch_item_written _ _ Hit), IH.
Qed.

Ltac lookups Hp r :=
  unfold make_function_call_from_dict, get_default, copy_if_present;
  rewrite !(dict_get_perm _ _ _ Hp (fields_NoDup r)).

(** C7, as the code has it.  A legacy descriptor given as a dictionary, with
    its keys in any order, is encoded to the string of its row of the
    mapping table, provided that the keys of a search filter are none of
    [query], [types], [mode] and [target]. *)
Theorem legacy_agrees_with_table (d : dict) (r : Table.descriptor) :
  Table.represents d r -> Table.filter_apart r ->
  make_function_call_from_dict d = Some (Table.encode r).
Proof.
  intros Hrep Hapart. unfold Table.encode.
  destruct r as [ty ti b m l | t ti b m l | t | q ty f m t | items | dst];
    cbn [Table.represents] in Hrep.
  - lookups Hrep (Table.Create ty ti b m l).
    now destruct b, m, l.
  - lookups Hrep (Table.Update t ti b m l).
    now destruct ti, b, m, l.
  - lookups Hrep (Table.Delete t). reflexivity.
  - lookups Hrep (Table.Search q ty f m t).
    destruct f as [filter|].
    + destruct Hapart as [Hnd Hkeys].
      assert (Hflat : forall params,
                 incl (keys params) Table.search_keys ->
                 fold_left (fun p kv => dict_set (fst kv) (snd kv) p) filter params
                 = (params ++ filter)%list).
      { intros params Hincl. apply flatten_new; [exact Hnd|].
        intros k Hk Hin. exact (Hkeys k Hk (Hincl k Hin)). }
      assert (Hmode : ~ In "mode" (keys filter))
        by (intro H; apply (Hkeys _ H); cbn; tauto).
      assert (Htarget : ~ In "target" (keys filter))
        by (intro H; apply (Hkeys _ H); cbn; tauto).
      destruct q, ty, m, t; cbn -[make_function_call fold_left];
        rewrite Hflat by (intros k Hk; cbn in Hk |- *; tauto);
        rewrite ?(dict_set_new "mode") by fresh_key;
        rewrite ?(dict_set_new "target") by fresh_key;
        rewrite <- ?app_assoc; cbn [app]; rewrite ?app_nil_r; reflexivity.
    + now destruct q, ty, m, t.
  - destruct Hrep as (written & Hw & Hp).
    unfold make_function_call_from_dict, get_default.
    assert (Hnd : NoDup (keys [("action", VStr "batch"); ("items", VList written)]))
      by (cbn; repeat constructor; cbn; intuition discriminate).
    rewrite !(dict_get_perm _ _ _ Hp Hnd).
    cbn -[make_function_call batch_items].
    now rewrite (batch_items_written _ _ Hw).
  - lookups Hrep (Table.Navigate dst). reflexivity.
Qed.

Lemma legacy_agrees_with_table_witness :
  make_function_call_from_dict (rev (Table.fields Table.linked_idea))
  = Some (Table.encode Table.linked_idea).
Proof.
  apply legacy_agrees_with_table.
  - cbn [Table.represents Table.linked_idea]. symmetry. apply Permutation_rev.
  - exact I.
Defined.

(** C7, as stated, fails on a search whose filter has the key [target]: the
    filter's field takes the place of the target parameter, which then comes
    before the mode and carries the target's value, whereas the table emits
    the filter's field, the mode and the target in this order. *)
Lemma legacy_differs_from_table :
  Table.represents (Table.fields Table.clash) Table.clash
  /\ make_function_call_from_dict (Table.fields Table.clash)
     = Some "<start_function_call>call:search_atoms{target:<escape>context<escape>,mode:<escape>semantic<escape>}<end_function_call>"
  /\ Table.encode Table.clash
     = "<start_function_call>call:search_atoms{target:<escape>inbox<escape>,mode:<escape>semantic<escape>,target:<escape>context<escape>}<end_function_call>"
  /\ make_function_call_from_dict (Table.fields Table.clash)
     <> Some (Table.encode Table.clash).
Proof.
  split; [apply Permutation_refl|].
  split; [vm_compute; reflexivity|].
  split; [vm_compute; reflexivity|].
  vm_compute. discriminate.
Qed.

(** ** The encoder: serialization of values *)








Lemma Z_of_string_of_Z (n : Z) : Z_of_string (Str.of_Z n) = Some n.
Proof.
  unfold Z_of_string, Str.of_Z. rewrite NilZero.isi.
  - cbn [option_map]. now rewrite DecimalZ.of_to.
  - destruct n; cbn; try discriminate.
    intros [= H]. now apply Unsigned.to_uint_nonnil in H.
  - destruct n; cbn; try discriminate.
    intros [= H]. now apply Unsigned.to_uint_nonnil in H.
Qed.


(** C10.  [escape] returns a string as it is, and [None] as its name; the
    encoder writes the string between the two markers without quoting
    anything.  A value that contains the marker and the separator is
    therefore written as it is, and the result reads as two parameters. *)
Theorem escape_is_identity_on_strings :
  (forall s, escape (VStr s) = s)
  /\ escape VNone = "None"
  /\ (forall k s, param_part (k, VStr s) = k ++ ":<escape>" ++ s ++ "<escape>")
  /\ (forall f k s,
         make_function_call f [(k, VStr s)]
         = "<start_function_call>call:" ++ f ++ "{" ++ k ++ ":<escape>" ++ s
             ++ "<escape>" ++ "}<end_function_call>")
  /\ (forall f k a k' b,
         make_function_call f [(k, VStr (a ++ "<escape>," ++ k' ++ ":<escape>" ++ b))]
         = make_function_call f [(k, VStr a); (k', VStr b)]).
Proof.
  split; [reflexivity|]. split; [reflexivity|]. split; [reflexivity|].
  split.
  - intros f k s. unfold make_function_call, param_part.
    cbn [List.map Str.join String.concat fst snd escape].
    rewrite !append_assoc. reflexivity.
  - intros f k a k' b. unfold make_function_call, param_part.
    cbn [List.map Str.join String.concat fst snd escape].
    rewrite !append_assoc. reflexivity.
Qed.

(** * Further properties of the encoder and of the validator *)

Lemma string_length_app (a b : string) :
  String.length (a ++ b) = String.length a + String.length b.
Proof. induction a as [|c a IH]; simpl; [reflexivity|]. now rewrite IH. Qed.

Lemma drop_app (a b : string) : Str.drop (String.length a) (a ++ b) = b.
Proof. induction a as [|c a IH]; simpl; [now destruct b|exact IH]. Qed.

Lemma endswith_app (a p : string) : Str.endswith (a ++ p) p = true.
Proof.
  unfold Str.endswith. rewrite string_length_app.
  replace (String.length a + String.length p - String.length p)
    with (String.length a) by lia.
  rewrite drop_app, String.eqb_refl, andb_true_r.
  apply Nat.leb_le. lia.
Qed.

Lemma make_function_call_ends (func_name : string) (params : dict) :
  Str.endswith (make_function_call func_name params) "<end_function_call>" = true.
Proof.
  unfold make_function_call.
  change "}<end_function_call>" with ("}" ++ "<end_function_call>").
  rewrite <- !append_assoc. apply endswith_app.
Qed.

Lemma make_function_call_starts (func_name : string) (params : dict) :
  Str.startswith (make_function_call func_name params) "<start_function_call>"
  = true.
Proof. reflexivity. Qed.

Lemma validate_encoder_output (i : nat) (text func_name : string)
      (params : dict) :
  func_name <> "" -> all_word func_name = true ->
  validate_one i (Example text (VStr (make_function_call func_name params)))
  = Some (if mem func_name valid_functions then []
          else [issue i ("Unknown function '" ++ func_name ++ "'")]).
Proof.
  intros Hne Hw. unfold validate_one. cbn [output].
  rewrite make_function_call_starts, make_function_call_ends.
  cbn [negb]. rewrite search_call_make_function_call by assumption.
  now destruct (mem func_name valid_functions).
Qed.

(** X1.  A string written by the encoder, for a non-empty name of word
    characters, gets no finding from the validator when the name is one of
    the twelve allowed functions, and exactly the finding of an unknown
    function otherwise, whatever the parameters are. *)
Theorem validator_on_encoder_output (i : nat) (text func_name : string)
        (params : dict) :
  func_name <> "" -> all_word func_name = true ->
  validate_one i (Example text (VStr (make_function_call func_name params)))
  = Some (if mem func_name valid_functions then []
          else [issue i ("Unknown function '" ++ func_name ++ "'")]).
Proof. apply validate_encoder_output. Qed.

Lemma validator_on_encoder_output_witness :
  validate_one 7 (Example "open the vault"
                    (VStr (make_function_call "open_vault" [("name", VStr "main")])))
  = Some ["Example 7: Unknown function 'open_vault'"].
Proof.
  apply (validator_on_encoder_output 7 "open the vault" "open_vault").
  - discriminate.
  - reflexivity.
Defined.

(** X2.  The legacy path raises on exactly two kinds of descriptor: a
    search whose filter is not a dictionary and a batch whose items are not
    a list of dictionaries (nor an empty dictionary or string).  Every other
    descriptor, well formed or not, is encoded to a string. *)
Theorem legacy_path_raises_iff (d : dict) :
  make_function_call_from_dict d = None <-> raises d = true.
Proof.
  unfold make_function_call_from_dict, raises.
  destruct (action_is (dict_get "action" d) "create") eqn:Ec.
  { assert (action_is (dict_get "action" d) "search" = false
            /\ action_is (dict_get "action" d) "batch" = false) as [-> ->].
    { unfold action_is in *.
      destruct (dict_get "action" d) as [[| | |a| |]|]; try discriminate.
      apply String.eqb_eq in Ec. subst a. now split. }
    cbn. split; discriminate. }
  destruct (action_is (dict_get "action" d) "update") eqn:Eu.
  { assert (action_is (dict_get "action" d) "search" = false
            /\ action_is (dict_get "action" d) "batch" = false) as [-> ->].
    { unfold action_is in *.
      destruct (dict_get "action" d) as [[| | |a| |]|]; try discriminate.
      apply String.eqb_eq in Eu. subst a. now split. }
    cbn. split; discriminate. }
  destruct (action_is (dict_get "action" d) "delete") eqn:Ed.
  { assert (action_is (dict_get "action" d) "search" = false
            /\ action_is (dict_get "action" d) "batch" = false) as [-> ->].
    { unfold action_is in *.
      destruct (dict_get "action" d) as [[| | |a| |]|]; try discriminate.
      apply String.eqb_eq in Ed. subst a. now split. }
    cbn. split; discriminate. }
  destruct (action_is (dict_get "action" d) "search") eqn:Es.
  { assert (action_is (dict_get "action" d) "batch" = false) as ->.
    { unfold action_is in *.
      destruct (dict_get "action" d) as [[| | |a| |]|]; try discriminate.
      apply String.eqb_eq in Es. now subst a. }
    rewrite andb_false_l, orb_false_r, andb_true_l.
    destruct (dict_get "filter" d) as [[| | | | |f]|]; cbn;
      split; congruence. }
  destruct (action_is (dict_get "action" d) "batch") eqn:Eb.
  { rewrite andb_false_l, orb_false_l, andb_true_l.
    destruct (get_default "items" (VList []) d) as [| | |s|l|items];
      cbn [iter_items iterable_of_dicts negb]; try (split; congruence).
    - destruct s; cbn; split; congruence.
    - induction l as [|x l IH]; cbn; [split; congruence|].
      destruct x; cbn; try (split; congruence).
      destruct (batch_items l) as [r|]; cbn in *.
      + split; [discriminate|]. intro H. apply IH in H. discriminate.
      + split; [intros _; now apply IH|reflexivity].
    - destruct items; cbn; split; congruence. }
  cbn. destruct (action_is (dict_get "action" d) "navigate");
    split; discriminate.
Qed.

Lemma fallback_of_unknown_action (d : dict) :
  (forall a, dict_get "action" d = Some (VStr a) -> ~ In a valid_actions) ->
  make_function_call_from_dict d = Some fallback_call.
Proof.
  intro H. unfold make_function_call_from_dict.
  assert (Hno : forall verb, In verb valid_actions ->
                             action_is (dict_get "action" d) verb = false).
  { intros verb Hv. unfold action_is.
    destruct (dict_get "action" d) as [[| | |a| |]|]; try reflexivity.
    destruct (String.eqb_spec a verb) as [->|]; [|reflexivity].
    exfalso. now apply (H verb). }
  rewrite !Hno by (cbn; tauto). reflexivity.
Qed.

(** X3.  A descriptor whose action is none of the six verbs (a missing
    action and an action that is no string included) is not rejected: it is
    encoded as the creation of an idea titled Unknown, and its other fields
    are dropped. *)
Theorem unknown_action_falls_back (d : dict) :
  (forall a, dict_get "action" d = Some (VStr a) -> ~ In a valid_actions) ->
  make_function_call_from_dict d = Some fallback_call.
Proof. apply fallback_of_unknown_action. Qed.

Lemma unknown_action_falls_back_witness :
  make_function_call_from_dict archived
  = Some "<start_function_call>call:create_atom{atom_type:<escape>idea<escape>,title:<escape>Unknown<escape>}<end_function_call>".
Proof.
  apply (unknown_action_falls_back archived).
  intros a [= <-]. cbn. intuition discriminate.
Defined.

(** X4.  A descriptor without action, or with the empty string as action,
    goes unnoticed: the validator has no finding for it, and the encoder
    writes the fallback call for it. *)
Theorem missing_action_is_silent (i : nat) (text : string) (d : dict) :
  dict_get "action" d = None \/ dict_get "action" d = Some (VStr "") ->
  validate_one i (Example text (VDict d)) = Some []
  /\ encoded_output (Example text (VDict d)) = Some fallback_call.
Proof.
  intro H. split.
  - unfold validate_one. cbn [output]. now destruct H as [-> | ->].
  - cbn [encoded_output output]. apply fallback_of_unknown_action.
    intros a Ha. destruct H as [H|H]; rewrite H in Ha; [discriminate|].
    injection Ha as <-. cbn. intuition discriminate.
Qed.

Lemma missing_action_is_silent_witness :
  validate_one 0 (Example "call mom" (VDict [("title", VStr "call mom")])) = Some []
  /\ encoded_output (Example "call mom" (VDict [("title", VStr "call mom")]))
     = Some fallback_call.
Proof.
  apply (missing_action_is_silent 0 "call mom" [("title", VStr "call mom")]).
  left. reflexivity.
Defined.

(** * Further properties of the generated corpus *)

Lemma valid_function_word (name : string) :
  In name valid_functions -> name <> "" /\ all_word name = true.
Proof.
  intro H. unfold valid_functions in H.
  repeat (destruct H as [<-|H]; [split; [discriminate|reflexivity]|]).
  destruct H.
Qed.

Lemma string_passes (text name : string) (params : dict) :
  In name valid_functions ->
  passes (Example text (VStr (make_function_call name params))).
Proof.
  intros Hin i. destruct (valid_function_word _ Hin) as [Hne Hw].
  rewrite validate_encoder_output by assumption.
  apply mem_In in Hin. now rewrite Hin.
Qed.

Lemma descriptor_passes (actions : list string) (ex : example) :
  incl actions valid_actions ->
  descriptor_ok actions (output ex) = true -> passes ex.
Proof.
  intros Hincl H i. unfold validate_one.
  destruct (output ex) as [| | | | |d]; try discriminate.
  destruct (from_dict_ok _ _ H) as (a & -> & Ha & _).
  destruct (truthy (VStr a)); [|reflexivity].
  apply Hincl, mem_In in Ha. now rewrite Ha.
Qed.

Ltac actions_incl := intros x Hx; cbn in Hx |- *; tauto.

Ltac string_pass := apply string_passes; cbn; tauto.

Lemma simple_creation_passes (ex : example) :
  reach simple_creation_example ex -> passes ex.
Proof.
  intro H. eapply descriptor_passes; [|exact (simple_creation_step ex H)].
  actions_incl.
Qed.

Lemma project_specific_passes (ex : example) :
  reach project_specific_example ex -> passes ex.
Proof.
  intro H. eapply descriptor_passes; [|exact (project_specific_step ex H)].
  actions_incl.
Qed.

Lemma timed_creation_passes (ex : example) :
  reach timed_creation_example ex -> passes ex.
Proof.
  intro H. eapply descriptor_passes; [|exact (timed_creation_step ex H)].
  actions_incl.
Qed.

Lemma modification_passes (ex : example) :
  reach modification_example ex -> passes ex.
Proof.
  intro H. eapply descriptor_passes; [|exact (modification_step ex H)].
  actions_incl.
Qed.

Lemma search_passes (ex : example) : reach search_example ex -> passes ex.
Proof.
  intro H. eapply descriptor_passes; [|exact (search_step ex H)].
  actions_incl.
Qed.

Lemma batch_passes (ex : example) : reach batch_example ex -> passes ex.
Proof.
  intro H. eapply descriptor_passes; [|exact (batch_step ex H)].
  actions_incl.
Qed.

Lemma level_system_passes (ex : example) :
  reach level_system_example ex -> passes ex.
Proof.
  intro H. unfold level_system_example in H. reach_inv H.
  destruct (String.eqb _ "dimensionStatus"); reach_inv H; subst; string_pass.
Qed.

Lemma deep_work_passes (ex : example) :
  reach deep_work_start_example ex \/ reach deep_work_duration_example ex
  \/ reach deep_work_pomodoro_example ex \/ reach deep_work_stop_example ex
  \/ reach deep_work_extend_example ex ->
  passes ex.
Proof.
  intros [H|[H|[H|[H|H]]]].
  - unfold deep_work_start_example in H. reach_inv H. subst. string_pass.
  - unfold deep_work_duration_example in H. reach_inv H. subst. string_pass.
  - unfold deep_work_pomodoro_example in H. reach_inv H. subst. string_pass.
  - unfold deep_work_stop_example in H. reach_inv H. subst. string_pass.
  - unfold deep_work_extend_example in H. reach_inv H. subst. string_pass.
Qed.

Lemma journal_passes (ex : example) : reach journal_example ex -> passes ex.
Proof.
  intro H. unfold journal_example in H.
  apply reach_bind in H as ([entry_type templates] & _ & H).
  apply reach_bind in H as (template & _ & H).
  apply reach_bind in H as ([content template'] & _ & H).
  apply reach_ret in H. subst ex. string_pass.
Qed.

Lemma workout_passes (ex : example) :
  reach workout_basic_example ex \/ reach workout_duration_example ex
  \/ reach workout_distance_example ex \/ reach workout_strength_example ex ->
  passes ex.
Proof.
  intros [H|[H|[H|H]]].
  - unfold workout_basic_example in H. reach_inv H. subst. string_pass.
  - unfold workout_duration_example in H. reach_inv H. subst. string_pass.
  - unfold workout_distance_example in H. reach_inv H. subst. string_pass.
  - unfold workout_strength_example in H. reach_inv H. subst. string_pass.
Qed.

Lemma navigation_passes (ex : example) :
  reach navigation_example ex -> passes ex.
Proof.
  intro H. unfold navigation_example in H. reach_inv H. subst. string_pass.
Qed.

Lemma deep_work_all_pass (n : nat) (l : list example) :
  reach (generate_deep_work_examples n) l -> Forall passes l.
Proof.
  intro H. unfold generate_deep_work_examples in H. loops H. subst l.
  apply (reach_repeatM passes) in Hl as [F1 _];
    [|intros; apply deep_work_passes; tauto].
  apply (reach_repeatM passes) in Hl0 as [F2 _];
    [|intros; apply deep_work_passes; tauto].
  apply (reach_repeatM passes) in Hl1 as [F3 _];
    [|intros; apply deep_work_passes; tauto].
  apply (reach_repeatM passes) in Hl2 as [F4 _];
    [|intros; apply deep_work_passes; tauto].
  apply (reach_repeatM passes) in Hl3 as [F5 _];
    [|intros; apply deep_work_passes; tauto].
  repeat (apply Forall_app; split); assumption.
Qed.

Lemma workout_all_pass (n : nat) (l : list example) :
  reach (generate_workout_examples n) l -> Forall passes l.
Proof.
  intro H. unfold generate_workout_examples in H. loops H. subst l.
  apply (reach_repeatM passes) in Hl as [F1 _];
    [|intros; apply workout_passes; tauto].
  apply (reach_repeatM passes) in Hl0 as [F2 _];
    [|intros; apply workout_passes; tauto].
  apply (reach_repeatM passes) in Hl1 as [F3 _];
    [|intros; apply workout_passes; tauto].
  apply (reach_repeatM passes) in Hl2 as [F4 _];
    [|intros; apply workout_passes; tauto].
  repeat (apply Forall_app; split); assumption.
Qed.

Lemma generators_pass (gen : nat -> Rand (list example)) (n : nat) (g : rng) :
  In gen generators -> Forall passes (fst (gen n g)).
Proof.
  intro H. unfold generators in H.
  repeat (destruct H as [<-|H]);
    [ apply repeatM_Forall, simple_creation_passes
    | apply repeatM_Forall, project_specific_passes
    | apply repeatM_Forall, timed_creation_passes
    | apply repeatM_Forall, modification_passes
    | apply repeatM_Forall, search_passes
    | apply repeatM_Forall, batch_passes
    | apply repeatM_Forall, level_system_passes
    | apply (deep_work_all_pass n), reach_fst
    | apply repeatM_Forall, journal_passes
    | apply (workout_all_pass n), reach_fst
    | apply repeatM_Forall, navigation_passes
    | destruct H ].
Qed.

Lemma validate_from_passes (i : nat) (examples : list example) :
  Forall passes examples -> validate_from i examples = Some [].
Proof.
  intro H. revert i. induction H as [|ex l Hex _ IH]; intro i; [reflexivity|].
  cbn [validate_from]. now rewrite (Hex i), (IH (S i)).
Qed.

(** X5.  The examples of every category generator, for every count and
    every state of the random source, get no finding from the validator. *)
Theorem generated_examples_pass_validation
        (gen : nat -> Rand (list example)) (n : nat) (g : rng) :
  In gen generators -> validate_examples (fst (gen n g)) = Some [].
Proof.
  intro H. apply validate_from_passes. now apply generators_pass.
Qed.

Lemma generated_examples_pass_validation_witness :
  validate_examples (fst (generate_batch_examples 3 count_rng)) = Some [].
Proof.
  apply (generated_examples_pass_validation generate_batch_examples 3 count_rng).
  unfold generators. do 5 right. left. reflexivity.
Defined.

(** * Further properties of the files *)

Lemma jsonl_lines (records : list value) :
  length (jsonl records) = length records /\ Forall one_line (jsonl records).
Proof.
  unfold jsonl. split; [apply length_map|].
  apply Forall_forall. intros line Hin.
  apply in_map_iff in Hin as (record & <- & _).
  exists (Json.dumps_default record). split; [reflexivity|].
  now apply nl_free_dumps.
Qed.

(** X6.  Every record is written on one line: its text holds no line feed
    (those of the system prompt and of any value are escaped) and is
    followed by exactly one, so a file has as many lines as records. *)
Theorem one_record_per_line (records : list value) :
  length (jsonl records) = length records /\ Forall one_line (jsonl records).
Proof. apply jsonl_lines. Qed.

Lemma categories_pass (c : categories) :
  reach generate_categories c -> Forall passes (combine_all c).
Proof.
  intro H. unfold generate_categories in H. loops H. subst c.
  cbn [combine_all simple_examples project_examples timed_examples
       modification_examples level_system_examples deep_work_examples
       journal_examples workout_examples navigation_examples batch_examples].
  destruct Hl as [g0 <-], Hl0 as [g1 <-], Hl1 as [g2 <-], Hl2 as [g3 <-],
           Hl3 as [g4 <-], Hl5 as [g6 <-], Hl7 as [g8 <-], Hl8 as [g9 <-].
  apply deep_work_all_pass in Hl4. apply workout_all_pass in Hl6.
  repeat (apply Forall_app; split); try assumption.
  - apply repeatM_Forall, simple_creation_passes.
  - apply repeatM_Forall, project_specific_passes.
  - apply repeatM_Forall, timed_creation_passes.
  - apply repeatM_Forall, modification_passes.
  - apply repeatM_Forall, level_system_passes.
  - apply repeatM_Forall, journal_passes.
  - apply repeatM_Forall, navigation_passes.
  - apply repeatM_Forall, batch_passes.
Qed.

Lemma format_for_mlx_lm_length (examples : list example) (formatted : list value) :
  format_for_mlx_lm examples = Some formatted ->
  length formatted = length examples.
Proof.
  intro H. apply format_for_mlx_lm_spec in H. symmetry.
  exact (Forall2_length H).
Qed.

(** X7.  A run of [main] always comes to its end, whatever the draws: the
    validator reports nothing, [train.jsonl] gets 14082 lines and
    [valid.jsonl] 1565, one line per example of the two sets. *)
Theorem main_files (g : rng) :
  exists o,
    fst (main g) = Some o
    /\ issues o = []
    /\ length (train_file o) = 14082
    /\ length (valid_file o) = 1565
    /\ length (train_file o) = length (train_examples o)
    /\ length (valid_file o) = length (valid_examples o)
    /\ Forall one_line (train_file o ++ valid_file o).
Proof.
  destruct (main_total g) as (o & Ho & Ht).
  exists o. split; [exact Ho|].
  unfold main in Ho. rewrite fst_bind in Ho.
  pose proof (assemble_inv _ _ _ _ _ Ho)
    as (Hi & _ & _ & _ & tf & vf & Ft & Fv & -> & ->).
  pose proof (assemble_sizes _ _ _ _ _ Ho) as (Ht' & L1 & L2 & _).
  rewrite <- Ht', Ht in L1, L2.
  rewrite (validate_from_passes 0) in Hi
    by (apply categories_pass, reach_fst).
  apply format_for_mlx_lm_length in Ft, Fv.
  destruct (jsonl_lines tf) as [Lt Ot]. destruct (jsonl_lines vf) as [Lv Ov].
  split; [congruence|].
  rewrite Lt, Lv, Ft, Fv, L1, L2.
  repeat split; try (vm_compute; reflexivity).
  apply Forall_app. now split.
Qed.

Lemma assemble_sample (simple project all_examples : list example) (g : rng)
      (o : outcome) :
  fst (assemble simple project all_examples g) = Some o ->
  Permutation (sample_examples o) (firstn 50 simple ++ firstn 50 project).
Proof.
  unfold assemble. intro H.
  destruct (validate_examples all_examples) as [found|]; [|discriminate].
  rewrite fst_bind in H. cbv zeta in H.
  destruct (format_for_mlx_lm (firstn _ _)) as [tf|]; [|discriminate].
  destruct (format_for_mlx_lm (skipn _ _)) as [vf|]; [|discriminate].
  rewrite fst_bind in H. cbn [ret fst] in H. injection H as <-.
  cbn [sample_examples]. apply shuffle_Permutation.
Qed.

(** X8.  The examples [main] keeps for inspection are a rearrangement of
    the first fifty examples of the simple and of the project-specific
    category: always one hundred descriptors of a creation, not yet
    encoded. *)
Theorem inspection_sample (g : rng) :
  exists o,
    fst (main g) = Some o
    /\ length (sample_examples o) = 100
    /\ Permutation (sample_examples o)
         (firstn 50 (simple_examples (fst (generate_categories g)))
          ++ firstn 50 (project_examples (fst (generate_categories g))))
    /\ Forall (fun ex => descriptor_ok ["create"] (output ex) = true)
              (sample_examples o).
Proof.
  destruct (main_total g) as (o & Ho & _).
  exists o. split; [exact Ho|].
  unfold main in Ho. rewrite fst_bind in Ho.
  apply assemble_sample in Ho.
  set (c := fst (generate_categories g)) in *.
  destruct (categories_reach c (reach_fst _ g)) as (_ & L1 & L2 & _).
  assert (Hc : reach generate_categories c) by apply reach_fst.
  unfold generate_categories in Hc. loops Hc. rewrite Hc in *.
  cbn [simple_examples project_examples] in *.
  destruct Hl as [g0 <-], Hl0 as [g1 <-].
  split; [|split; [exact Ho|]].
  - rewrite (Permutation_length Ho), length_app, !length_firstn, L1, L2.
    reflexivity.
  - apply Forall_forall. intros ex Hex.
    apply (Permutation_in _ Ho) in Hex.
    apply in_app_or in Hex as [Hex|Hex].
    + assert (F : Forall (fun ex => descriptor_ok ["create"] (output ex) = true)
                         (fst (generate_simple_creation_examples 4000 g0)))
        by apply repeatM_Forall, simple_creation_step.
      apply (Forall_take _ 50) in F. rewrite Forall_forall in F. auto.
    + assert (F : Forall (fun ex => descriptor_ok ["create"] (output ex) = true)
                         (fst (generate_project_specific_examples 2500 g1)))
        by apply repeatM_Forall, project_specific_step.
      apply (Forall_take _ 50) in F. rewrite Forall_forall in F. auto.
Qed.

(** * Further properties of the generators: texts and labels *)

Lemma level_templates_present :
  forallb (fun q => match snd q with [] => false | _ => true end)
          LEVEL_QUERY_TYPES = true.
Proof. vm_compute. reflexivity. Qed.

Lemma navigation_templates_present :
  forallb (fun d => match snd d with [] => false | _ => true end)
          NAVIGATION_DESTINATIONS = true.
Proof. vm_compute. reflexivity. Qed.

Lemma present_In (bank : list (string * list string)) (k : string)
      (phrases : list string) :
  forallb (fun q => match snd q with [] => false | _ => true end) bank = true ->
  In (k, phrases) bank -> phrases <> [].
Proof.
  rewrite forallb_forall. intros H Hin. specialize (H _ Hin).
  cbn in H. now destruct phrases.
Qed.

Lemma level_system_shape (ex : example) :
  reach level_system_example ex ->
  (exists query_type templates,
      In (query_type, templates) LEVEL_QUERY_TYPES
      /\ query_type <> "dimensionStatus"
      /\ In (input ex) templates
      /\ ex = level_query (input ex) query_type)
  \/ (exists dimension,
         In dimension DIMENSIONS
         /\ In (input ex) (dimension_phrasings dimension)
         /\ ex = dimension_query (input ex) dimension).
Proof.
  intro H. unfold level_system_example in H.
  apply reach_bind in H as ([query_type templates] & Hq & H).
  apply reach_choice in Hq; [|discriminate].
  apply reach_bind in H as (template & Ht & H).
  apply reach_choice in Ht;
    [|exact (present_In _ _ _ level_templates_present Hq)].
  destruct (String.eqb_spec query_type "dimensionStatus") as [->|Hne].
  - right. reach_inv H. subst ex. rename x into dimension.
    exists dimension. repeat split; assumption.
  - left. apply reach_ret in H. subst ex.
    exists query_type, templates. repeat split; assumption.
Qed.

(** X9.  In every example of the level-system generator the text and the
    call agree: either the text is one of the phrases listed for the query
    type that is encoded, or the query type is [dimensionStatus] and the
    text is one of the four phrasings of the dimension that is encoded. *)
Theorem level_text_matches_call (n : nat) (g : rng) (ex : example) :
  In ex (fst (generate_level_system_examples n g)) ->
  (exists query_type templates,
      In (query_type, templates) LEVEL_QUERY_TYPES
      /\ query_type <> "dimensionStatus"
      /\ In (input ex) templates
      /\ ex = level_query (input ex) query_type)
  \/ (exists dimension,
         In dimension DIMENSIONS
         /\ In (input ex) (dimension_phrasings dimension)
         /\ ex = dimension_query (input ex) dimension).
Proof.
  intro Hex.
  pose proof (repeatM_Forall _ n level_system_example level_system_shape g) as H.
  rewrite Forall_forall in H. now apply H.
Qed.

Lemma level_text_matches_call_witness :
  (exists query_type templates,
      In (query_type, templates) LEVEL_QUERY_TYPES
      /\ query_type <> "dimensionStatus"
      /\ In "What's my level" templates
      /\ fst (level_system_example zero_rng)
         = level_query "What's my level" query_type)
  \/ (exists dimension,
         In dimension DIMENSIONS
         /\ In "What's my level" (dimension_phrasings dimension)
         /\ fst (level_system_example zero_rng)
            = dimension_query "What's my level" dimension).
Proof.
  apply (level_text_matches_call 1 zero_rng (fst (level_system_example zero_rng))).
  vm_compute. left. reflexivity.
Defined.

(** X10.  The level-system generator can give one text two labels: the
    text [Creative dimension status] is produced both for the query type
    [dimensionStatus] with the dimension [creative] and for the query type
    [creativeDimension]. *)
Theorem level_text_with_two_labels :
  exists ex ex',
    reach level_system_example ex /\ reach level_system_example ex'
    /\ input ex = "Creative dimension status" /\ input ex' = input ex
    /\ ex = dimension_query "Creative dimension status" "creative"
    /\ ex' = level_query "Creative dimension status" "creativeDimension"
    /\ output ex <> output ex'.
Proof.
  exists (fst (level_system_example (draws [3; 0; 1; 3]))),
         (fst (level_system_example (draws [20; 0]))).
  split; [apply reach_fst|]. split; [apply reach_fst|].
  repeat split; try (vm_compute; reflexivity).
  vm_compute. discriminate.
Qed.

Lemma navigation_shape (ex : example) :
  reach navigation_example ex ->
  exists destination templates,
    In (destination, templates) NAVIGATION_DESTINATIONS
    /\ In (input ex) templates
    /\ output ex
       = VStr (make_function_call "navigate" [("destination", VStr destination)]).
Proof.
  intro H. unfold navigation_example in H.
  apply reach_bind in H as ([destination templates] & Hd & H).
  apply reach_choice in Hd; [|discriminate].
  apply reach_bind in H as (template & Ht & H).
  apply reach_choice in Ht;
    [|exact (present_In _ _ _ navigation_templates_present Hd)].
  apply reach_ret in H. subst ex.
  exists destination, templates. repeat split; assumption.
Qed.

Lemma navigation_phrases_apart : phrases_apart NAVIGATION_DESTINATIONS = true.
Proof. vm_compute. reflexivity. Qed.

Lemma phrases_apart_key (bank : list (string * list string))
      (k k' phrase : string) (ps ps' : list string) :
  phrases_apart bank = true ->
  In (k, ps) bank -> In (k', ps') bank ->
  In phrase ps -> In phrase ps' -> k = k'.
Proof.
  unfold phrases_apart. rewrite forallb_forall. intros H Hk Hk' Hp Hp'.
  specialize (H _ Hk). rewrite forallb_forall in H. specialize (H _ Hk').
  cbn [fst snd] in H. apply orb_true_iff in H as [H|H].
  - now apply String.eqb_eq.
  - rewrite forallb_forall in H. specialize (H _ Hp).
    apply negb_true_iff in H. apply mem_In in Hp'. congruence.
Qed.

(** X11.  The navigation generator never gives one text two labels: two of
    its examples with the same text, from any two runs, have the same call,
    and the call names the destination under which the text is listed. *)
Theorem navigation_text_determines_call
        (n n' : nat) (g g' : rng) (ex ex' : example) :
  In ex (fst (generate_navigation_examples n g)) ->
  In ex' (fst (generate_navigation_examples n' g')) ->
  input ex = input ex' ->
  output ex = output ex'
  /\ exists destination templates,
       In (destination, templates) NAVIGATION_DESTINATIONS
       /\ In (input ex) templates
       /\ output ex
          = VStr (make_function_call "navigate" [("destination", VStr destination)]).
Proof.
  intros Hex Hex' Hin.
  pose proof (repeatM_Forall _ n navigation_example navigation_shape g) as H.
  pose proof (repeatM_Forall _ n' navigation_example navigation_shape g') as H'.
  rewrite Forall_forall in H, H'.
  destruct (H _ Hex) as (d & ts & Hd & Ht & Ho).
  destruct (H' _ Hex') as (d' & ts' & Hd' & Ht' & Ho').
  split; [|now exists d, ts].
  rewrite Ho, Ho'. rewrite <- Hin in Ht'.
  now rewrite (phrases_apart_key _ _ _ _ _ _ navigation_phrases_apart Hd Hd' Ht Ht').
Qed.

Lemma navigation_text_determines_call_witness :
  output (fst (navigation_example zero_rng))
  = output (fst (navigation_example (draws [15; 4])))
  /\ exists destination templates,
       In (destination, templates) NAVIGATION_DESTINATIONS
       /\ In (input (fst (navigation_example zero_rng))) templates
       /\ output (fst (navigation_example zero_rng))
          = VStr (make_function_call "navigate" [("destination", VStr destination)]).
Proof.
  apply (navigation_text_determines_call 1 1 zero_rng (draws [15; 4])).
  - vm_compute. left. reflexivity.
  - vm_compute. left. reflexivity.
  - vm_compute. reflexivity.
Defined.

(** * Further properties of the templates: every field is filled *)

Lemma plain_app (a b : string) : plain (a ++ b) = plain a && plain b.
Proof.
  induction a as [|c a IH]; simpl; [reflexivity|].
  rewrite IH. now rewrite andb_assoc.
Qed.

Lemma brace_free_app (a b : string) :
  Str.brace_free (a ++ b) = Str.brace_free a && Str.brace_free b.
Proof.
  induction a as [|c a IH]; cbn [append Str.brace_free]; [reflexivity|].
  rewrite IH. now rewrite andb_assoc.
Qed.

Lemma plain_char_not_open (c : ascii) : plain_char c = true -> "{"%char <> c.
Proof. intros H <-. discriminate H. Qed.

Lemma plain_char_not_close (c : ascii) : plain_char c = true -> "}"%char <> c.
Proof. intros H <-. discriminate H. Qed.

(** A value without brace is passed over. *)
Lemma replace_from_over (x new w r : string) :
  Str.brace_free w = true ->
  Str.replace_from (String "{" x) new (w ++ r) 0
  = w ++ Str.replace_from (String "{" x) new r 0.
Proof.
  induction w as [|c w IH]; intro H; [reflexivity|].
  simpl in H. apply andb_true_iff in H as [Hc Hw].
  cbn [append Str.replace_from].
  destruct (Ascii.eqb_spec c "{"%char) as [->|Hne]; [discriminate|].
  replace (prefix (String "{" x) (String c (w ++ r))) with false.
  - now rewrite IH.
  - cbn [prefix]. destruct (ascii_dec "{" c) as [E|_]; [now subst c|reflexivity].
Qed.

Lemma replace_from_skip (old new a b : string) :
  Str.replace_from old new (a ++ b) (String.length a)
  = Str.replace_from old new b 0.
Proof.
  induction a as [|c a IH]; [reflexivity|].
  cbn [append String.length Str.replace_from]. exact IH.
Qed.

(** Two field names are told apart by the brace that closes them. *)
Lemma prefix_field (n m r : string) :
  plain n = true -> plain m = true ->
  prefix (n ++ "}") (m ++ "}" ++ r) = String.eqb n m.
Proof.
  revert m. induction n as [|a n IH]; intros [|c m] Hn Hm.
  - cbn [append prefix String.eqb].
    destruct (ascii_dec "}" "}") as [_|E]; [now destruct r|congruence].
  - cbn [append prefix].
    simpl in Hm. apply andb_true_iff in Hm as [Hc _].
    destruct (ascii_dec "}" c) as [E|_]; [|reflexivity].
    now apply plain_char_not_close in Hc.
  - cbn [append prefix].
    simpl in Hn. apply andb_true_iff in Hn as [Ha _].
    destruct (ascii_dec a "}") as [E|_]; [|reflexivity].
    symmetry in E. now apply plain_char_not_close in Ha.
  - simpl in Hn, Hm.
    apply andb_true_iff in Hn as [_ Hn]. apply andb_true_iff in Hm as [_ Hm].
    cbn [append prefix String.eqb].
    destruct (ascii_dec a c) as [->|Hne].
    + rewrite Ascii.eqb_refl. now apply IH.
    + destruct (Ascii.eqb_spec a c); [congruence|reflexivity].
Qed.

(** Replacing one field in a pattern fills the pieces of that name. *)
Lemma replace_render (n v : string) (ps : list piece) :
  forallb piece_ok ps = true -> plain n = true ->
  Str.replace ("{" ++ n ++ "}") v (render ps)
  = render (List.map (fill_one n v) ps).
Proof.
  intros Hps Hn. unfold Str.replace.
  change ("{" ++ n ++ "}") with (String "{" (n ++ "}")).
  induction ps as [|p ps IH]; [reflexivity|].
  cbn [forallb] in Hps. apply andb_true_iff in Hps as [Hp Hps].
  specialize (IH Hps).
  destruct p as [c | m | w]; cbn [List.map fill_one render piece_ok] in *.
  - cbn [Str.replace_from prefix].
    destruct (ascii_dec "{" c) as [E|_];
      [now apply plain_char_not_open in Hp|].
    now rewrite IH.
  - change ("{" ++ m ++ "}" ++ render ps)
      with (String "{" (m ++ "}" ++ render ps)).
    cbn [Str.replace_from prefix].
    destruct (ascii_dec "{" "{") as [_|E]; [|congruence].
    rewrite (prefix_field n m _ Hn Hp), String.eqb_sym.
    destruct (String.eqb_spec m n) as [->|Hne].
    + cbn [render]. f_equal.
      replace (String.length (String "{" (n ++ "}")) - 1)
        with (String.length (n ++ "}")) by (cbn; lia).
      rewrite <- append_assoc, replace_from_skip. exact IH.
    + cbn [render].
      change ("{" ++ m ++ "}" ++ render (List.map (fill_one n v) ps))
        with (String "{" (m ++ "}" ++ render (List.map (fill_one n v) ps))).
      f_equal. rewrite <- !append_assoc.
      rewrite replace_from_over; [now rewrite IH|].
      rewrite brace_free_app, (plain_brace_free m Hp). reflexivity.
  - rewrite replace_from_over by now apply plain_brace_free.
    now rewrite IH.
Qed.

Lemma fill_one_ok (n v : string) (p : piece) :
  plain v = true -> piece_ok p = true -> piece_ok (fill_one n v p) = true.
Proof.
  intros Hv Hp. destruct p as [c|m|w]; cbn; auto.
  now destruct (String.eqb m n).
Qed.

(** [format] fills the pieces with its arguments, one after the other. *)
Lemma format_render (args : list (string * string)) (ps : list piece) :
  forallb piece_ok ps = true ->
  forallb (fun a => plain (fst a) && plain (snd a)) args = true ->
  format (render ps) args = render (List.map (fill_piece args) ps).
Proof.
  unfold format, fill_piece. revert ps.
  induction args as [|[n v] args IH]; intros ps Hps Hargs.
  - cbn [fold_left]. now rewrite map_id.
  - cbn [forallb fst snd] in Hargs. apply andb_true_iff in Hargs as [Ha Hargs].
    apply andb_true_iff in Ha as [Hn Hv].
    cbn [fold_left fst snd]. rewrite replace_render by assumption.
    rewrite IH; [now rewrite map_map| |exact Hargs].
    rewrite forallb_map_comp. rewrite forallb_forall in *.
    intros p Hp. apply fill_one_ok; auto.
Qed.

Lemma fill_piece_kept (args : list (string * string)) (p : piece) :
  is_field p = false -> fill_piece args p = p.
Proof.
  unfold fill_piece. induction args as [|a args IH]; intro H; [reflexivity|].
  cbn [fold_left]. destruct p; try discriminate; exact (IH H).
Qed.

(** A field whose name is among the arguments ends up filled. *)
Lemma fill_piece_filled (args : list (string * string)) (p : piece) :
  forallb (fun a => plain (snd a)) args = true ->
  piece_ok p = true -> field_among (List.map fst args) p = true ->
  is_field (fill_piece args p) = false /\ piece_ok (fill_piece args p) = true.
Proof.
  unfold fill_piece. revert p.
  induction args as [|[n v] args IH]; intros p Hargs Hp Hin.
  - destruct p; cbn in *; try discriminate; auto.
  - cbn [forallb snd] in Hargs. apply andb_true_iff in Hargs as [Hv Hargs].
    cbn [fold_left fst snd].
    destruct p as [c|m|w]; cbn [fill_one].
    + change (fold_left _ args (Char c)) with (fill_piece args (Char c)).
      rewrite fill_piece_kept by reflexivity. now split.
    + cbn [field_among List.map fst mem existsb] in Hin.
      destruct (String.eqb m n) eqn:E.
      * change (fold_left _ args (Filled v)) with (fill_piece args (Filled v)).
        rewrite fill_piece_kept by reflexivity. now split.
      * apply IH; auto.
    + change (fold_left _ args (Filled w)) with (fill_piece args (Filled w)).
      rewrite fill_piece_kept by reflexivity. now split.
Qed.

Lemma render_plain (ps : list piece) :
  forallb piece_ok ps = true -> forallb (fun p => negb (is_field p)) ps = true ->
  plain (render ps) = true.
Proof.
  induction ps as [|p ps IH]; intros Hok Hnf; [reflexivity|].
  cbn [forallb] in Hok, Hnf.
  apply andb_true_iff in Hok as [Hp Hok]. apply andb_true_iff in Hnf as [Hf Hnf].
  destruct p as [c|m|w]; cbn [render piece_ok is_field negb] in *.
  - cbn [plain]. now rewrite Hp, IH.
  - discriminate.
  - now rewrite plain_app, Hp, IH.
Qed.

(** A pattern whose fields are all among the arguments becomes plain text:
    no field, no brace is left. *)
Lemma format_resolved (args : list (string * string)) (s : string) :
  resolved_by (List.map fst args) s = true ->
  forallb (fun a => plain (fst a) && plain (snd a)) args = true ->
  plain (format s args) = true.
Proof.
  unfold resolved_by. intros Hs Hargs.
  destruct (scan s None) as [ps|]; [|discriminate].
  apply andb_true_iff in Hs as [Hs Hamong].
  apply andb_true_iff in Hs as [Hrender Hok].
  apply String.eqb_eq in Hrender. rewrite <- Hrender.
  rewrite format_render by assumption.
  assert (Hv : forallb (fun a => plain (snd a)) args = true).
  { rewrite forallb_forall in *. intros a Ha. specialize (Hargs _ Ha).
    now apply andb_true_iff in Hargs. }
  apply render_plain; rewrite forallb_map_comp; apply forallb_forall;
    intros p Hp; rewrite forallb_forall in Hok, Hamong;
    destruct (fill_piece_filled args p Hv (Hok _ Hp) (Hamong _ Hp)) as [H1 H2];
    [exact H2|now rewrite H1].
Qed.

(** The same with the pieces of the pattern at hand *)
Lemma format_pieces (names : list string) (args : list (string * string))
      (s : string) :
  resolved_by names s = true ->
  forallb (fun a => plain (fst a) && plain (snd a)) args = true ->
  format s args = render (List.map (fill_piece args) (pieces s)).
Proof.
  unfold resolved_by, pieces. intros Hs Hargs.
  destruct (scan s None) as [ps|]; [|discriminate].
  apply andb_true_iff in Hs as [Hs _].
  apply andb_true_iff in Hs as [Hrender Hok].
  apply String.eqb_eq in Hrender. rewrite <- Hrender at 1.
  now apply format_render.
Qed.

Lemma substitute_VStr (args : list (string * string)) (s : string) :
  substitute (VStr s) args = VStr (format s args).
Proof.
  unfold substitute, format. revert s.
  induction args as [|a args IH]; intro s; [reflexivity|].
  cbn [fold_left subst_value]. apply IH.
Qed.

Lemma substitute_VList (args : list (string * string)) (l : list value) :
  substitute (VList l) args = VList (List.map (fun v => substitute v args) l).
Proof.
  unfold substitute. revert l.
  induction args as [|a args IH]; intro l.
  - cbn [fold_left]. now rewrite map_id.
  - cbn [fold_left subst_value]. rewrite IH. now rewrite map_map.
Qed.

Lemma substitute_VDict (args : list (string * string)) (d : dict) :
  substitute (VDict d) args
  = VDict (List.map (fun kv => (format (fst kv) args, substitute (snd kv) args)) d).
Proof.
  unfold substitute, format. revert d.
  induction args as [|a args IH]; intro d.
  - cbn [fold_left]. f_equal. induction d as [|[k v] d IHd]; [reflexivity|].
    cbn [List.map fst snd]. now rewrite <- IHd.
  - cbn [fold_left subst_value]. rewrite IH. now rewrite map_map.
Qed.

Lemma substitute_other (args : list (string * string)) (v : value) :
  match v with VStr _ | VList _ | VDict _ => False | _ => True end ->
  substitute v args = v.
Proof.
  unfold substitute. intro H.
  induction args as [|a args IH]; [reflexivity|].
  destruct v; try contradiction; exact IH.
Qed.

(** A skeleton whose fields are all among the arguments becomes a
    descriptor of plain strings. *)
Lemma substitute_resolved (args : list (string * string)) (v : value) :
  value_resolved (List.map fst args) v = true ->
  forallb (fun a => plain (fst a) && plain (snd a)) args = true ->
  value_plain (substitute v args) = true.
Proof.
  intros Hv Hargs. revert Hv.
  induction v as [| b | n | s | l IH | d IH] using value_ind'; intro Hv.
  - now rewrite substitute_other.
  - now rewrite substitute_other.
  - now rewrite substitute_other.
  - rewrite substitute_VStr. cbn [value_plain]. now apply format_resolved.
  - rewrite substitute_VList. cbn [value_plain value_resolved] in *.
    rewrite forallb_map_comp. apply forallb_forall. intros x Hin.
    rewrite forallb_forall in Hv. rewrite Forall_forall in IH. auto.
  - rewrite substitute_VDict. cbn [value_plain value_resolved] in *.
    rewrite forallb_map_comp. apply forallb_forall. intros [k x] Hin.
    rewrite forallb_forall in Hv. rewrite Forall_forall in IH.
    specialize (Hv _ Hin). specialize (IH _ Hin). cbn [fst snd] in *.
    apply andb_true_iff in Hv as [Hk Hx].
    rewrite format_resolved by assumption. now rewrite IH.
Qed.

(** ** The templates of the script and their arguments *)

Lemma pattern_resolved_In (names_in names_out : list string)
      (pool : list template) (t : string) (o : value) :
  forallb (pattern_resolved names_in names_out) pool = true ->
  In (t, o) pool ->
  resolved_by names_in t = true /\ value_resolved names_out o = true.
Proof.
  rewrite forallb_forall. intros H Hin. specialize (H _ Hin).
  now apply andb_true_iff in H.
Qed.

Lemma bank_plain (bank : list string) (x : string) :
  forallb plain bank = true -> In x bank -> plain x = true.
Proof. rewrite forallb_forall. auto. Qed.

Lemma bank_fst_plain {B} (bank : list (string * B)) (x : string) (y : B) :
  forallb (fun r => plain (fst r)) bank = true -> In (x, y) bank ->
  plain x = true.
Proof. rewrite forallb_forall. intros H Hin. exact (H _ Hin). Qed.

Lemma reach_choice_default {A} (d : A) (seq : list A) (x : A) :
  reach (choice d seq) x -> x = d \/ In x seq.
Proof.
  destruct seq as [|a seq].
  - intros [g H]. left. unfold choice, bind, randbelow, ret in H.
    cbn [fst snd length] in H. subst x. now destruct (g 0 mod 0).
  - intro H. right. revert H. apply reach_choice. discriminate.
Qed.

(** A phrase drawn from the list of an entry of a bank of plain phrases *)
Lemma listed_plain {K} (k0 : K) (bank : list (K * list string)) (k : K)
      (phrases : list string) (x : string) :
  forallb (fun e => forallb plain (snd e)) bank = true ->
  In (k, phrases) bank -> reach (choice "" phrases) x -> plain x = true.
Proof.
  rewrite forallb_forall. intros H Hin Hx. specialize (H _ Hin). cbn in H.
  apply reach_choice_default in Hx as [->|Hx]; [reflexivity|].
  exact (bank_plain _ _ H Hx).
Qed.

Lemma plain_string_of_uint (u : Decimal.uint) :
  plain (NilEmpty.string_of_uint u) = true.
Proof. induction u; simpl; auto. Qed.

Lemma plain_of_Z (n : Z) : plain (Str.of_Z n) = true.
Proof.
  unfold Str.of_Z, NilZero.string_of_int.
  destruct (Z.to_int n) as [u|u]; unfold NilZero.string_of_uint.
  - destruct u; simpl; auto using plain_string_of_uint.
  - simpl. destruct u; simpl; auto using plain_string_of_uint.
Qed.

Lemma plain_clock (hour : Z) : plain (TimedCreation.clock hour) = true.
Proof.
  unfold TimedCreation.clock. rewrite plain_app, plain_of_Z.
  now destruct (12 <=? hour)%Z.
Qed.

Lemma plain_upper (c : ascii) :
  plain_char c = true -> plain_char (Str.upper c) = true.
Proof. destruct c as [[] [] [] [] [] [] [] []]; vm_compute; congruence. Qed.

Lemma plain_lower (c : ascii) :
  plain_char c = true -> plain_char (Str.lower c) = true.
Proof. destruct c as [[] [] [] [] [] [] [] []]; vm_compute; congruence. Qed.

Lemma plain_capitalize (s : string) :
  plain s = true -> plain (Str.capitalize s) = true.
Proof.
  destruct s as [|c s]; [reflexivity|]. cbn [Str.capitalize plain].
  intro H. apply andb_true_iff in H as [Hc Hs]. rewrite (plain_upper _ Hc).
  induction s as [|a s IH]; [reflexivity|]. cbn [Str.map plain] in *.
  apply andb_true_iff in Hs as [Ha Hs]. now rewrite (plain_lower _ Ha), IH.
Qed.

Lemma nth_plain (l : list string) (i : nat) :
  (forall y, In y l -> plain y = true) -> plain (nth i l "") = true.
Proof.
  intro H. destruct (nth_in_or_default i l "") as [Hin| ->]; auto.
Qed.

Lemma legacy_pools_resolved :
  forallb (pattern_resolved ["topic"; "task"; "project"; "priority"]
                            ["topic"; "task"; "project"; "priority"])
          SimpleCreation.all_templates = true
  /\ forallb (pattern_resolved ["project_ref"; "topic"; "task"]
                               ["project_ref"; "topic"; "task"])
             ProjectSpecific.all_templates = true
  /\ forallb (pattern_resolved
                ["time"; "relative_time"; "project"; "task"; "person_name"]
                ["time"; "relative_time"; "project"; "person_name"; "task"])
             Modification.all_templates = true
  /\ forallb (pattern_resolved ["query"; "project"; "person_name"]
                               ["query"; "project"; "person_name"])
             Search.all_templates = true
  /\ forallb (pattern_resolved
                ["task1"; "task2"; "task3"; "topic"; "project_ref"]
                ["task1"; "task2"; "task3"; "topic"; "project_ref"])
             Batch.all_templates = true.
Proof. repeat apply conj; vm_compute; reflexivity. Qed.

Lemma timed_pools_resolved :
  forallb (pattern_resolved ["task"; "time"] ["task"; "time"])
          TimedCreation.timed_task_templates = true
  /\ forallb (pattern_resolved ["task"; "relative_time"]
                               ["task"; "relative_time"])
             TimedCreation.relative_task_templates = true
  /\ forallb (pattern_resolved ["start_time"; "end_time"; "block_name"]
                               ["start_time"; "end_time"; "block_name"])
             TimedCreation.block_range_templates = true
  /\ forallb (pattern_resolved ["duration"; "block_name"; "time"]
                               ["duration"; "block_name"; "time"])
             TimedCreation.block_duration_templates = true
  /\ forallb (pattern_resolved ["task"; "time"; "project_ref"]
                               ["task"; "time"; "project_ref"])
             TimedCreation.timed_task_project_templates = true
  /\ forallb (pattern_resolved ["person"; "time"; "relative_time"]
                               ["person"; "time"; "relative_time"])
             TimedCreation.meeting_templates = true.
Proof. repeat apply conj; vm_compute; reflexivity. Qed.

Lemma phrase_pools_resolved :
  forallb (resolved_by ["duration"]) DeepWork.start_with_duration_templates = true
  /\ forallb (resolved_by ["duration"]) DeepWork.extend_templates = true
  /\ forallb (resolved_by ["workout_type"]) Workout.workout_templates = true
  /\ forallb (resolved_by ["workout_type"; "duration"])
             Workout.workout_with_duration_templates = true
  /\ forallb (resolved_by ["distance"]) Workout.run_with_distance_templates = true
  /\ forallb (resolved_by ["exercise"; "sets"; "reps"])
             Workout.strength_templates = true.
Proof. repeat apply conj; vm_compute; reflexivity. Qed.

(** The journal patterns, as they are and with the field [content] renamed
    to [feeling] *)
Lemma journal_patterns_resolved :
  forallb (fun e =>
             forallb (fun t =>
                        resolved_by ["content"; "feeling"] t
                        && resolved_by ["content"; "feeling"]
                             (Str.replace "{content}" "{feeling}" t))
                     (snd e))
          JOURNAL_ENTRY_TYPES = true.
Proof. vm_compute. reflexivity. Qed.

Lemma phrase_banks_plain :
  forallb (fun q => forallb plain (snd q)) LEVEL_QUERY_TYPES = true
  /\ forallb (fun d => forallb plain (snd d)) DEEP_WORK_DURATIONS = true
  /\ forallb (fun w => forallb plain (snd w)) WORKOUT_TYPES = true
  /\ forallb (fun d => forallb plain (snd d)) NAVIGATION_DESTINATIONS = true
  /\ forallb plain DeepWork.start_templates = true
  /\ forallb plain DeepWork.start_pomodoro_templates = true
  /\ forallb plain DeepWork.stop_templates = true.
Proof. repeat apply conj; vm_compute; reflexivity. Qed.

Ltac use_pool L :=
  match goal with
  | Hin : In (?t, ?o) ?pool |- _ =>
      destruct (pattern_resolved_In _ _ pool t o L Hin) as [? ?]
  end.

Ltac plain_args :=
  cbn [forallb fst snd];
  rewrite ?plain_clock, ?plain_of_Z;
  repeat
    match goal with
    | |- context [plain ?x] =>
        is_var x;
        match goal with
        | H : In x ?bank |- _ =>
            rewrite (bank_plain bank x) by assumption
        | H : In (x, ?y) ?bank |- _ =>
            rewrite (bank_fst_plain bank x y) by assumption
        end
    end;
  reflexivity.

Ltac filled_by L :=
  use_pool L; split;
  [ cbn [input]; apply format_resolved; [assumption | plain_args]
  | cbn [output]; intros d Hd; rewrite <- Hd;
    apply substitute_resolved; [assumption | plain_args] ].

Ltac legacy_filled H L :=
  reach_inv H; subst; bank_facts; destruct timed_banks_plain;
  filled_by L.

Lemma simple_creation_filled (ex : example) :
  reach simple_creation_example ex -> filled ex.
Proof.
  intro H. unfold simple_creation_example in H.
  legacy_filled H (proj1 legacy_pools_resolved).
Qed.

Lemma project_specific_filled (ex : example) :
  reach project_specific_example ex -> filled ex.
Proof.
  intro H. unfold project_specific_example in H.
  legacy_filled H (proj1 (proj2 legacy_pools_resolved)).
Qed.

Lemma modification_filled (ex : example) :
  reach modification_example ex -> filled ex.
Proof.
  intro H. unfold modification_example in H.
  legacy_filled H (proj1 (proj2 (proj2 legacy_pools_resolved))).
Qed.

Lemma search_filled (ex : example) : reach search_example ex -> filled ex.
Proof.
  intro H. unfold search_example in H.
  legacy_filled H (proj1 (proj2 (proj2 (proj2 legacy_pools_resolved)))).
Qed.

Lemma timed_creation_filled (ex : example) :
  reach timed_creation_example ex -> filled ex.
Proof.
  intro H. unfold timed_creation_example in H.
  apply reach_bind in H as (template_type & Ht & H).
  apply reach_choice in Ht; [|discriminate].
  destruct timed_pools_resolved as (P1 & P2 & P3 & P4 & P5 & P6).
  destruct Ht as [<-|[<-|[<-|[<-|[<-|[<-|[]]]]]]];
    cbn [String.eqb Ascii.eqb Bool.eqb] in H;
    [ legacy_filled H P1 | legacy_filled H P2 | legacy_filled H P3
    | legacy_filled H P4 | legacy_filled H P6 | legacy_filled H P5 ].
Qed.

Lemma batch_filled (ex : example) : reach batch_example ex -> filled ex.
Proof.
  intro H. unfold batch_example in H. reach_inv H. subst. bank_facts.
  apply sample_spec in Hx0 as (Hincl & _ & _).
  assert (Ht : forall y, In y x -> plain y = true).
  { intros y Hy. apply (bank_plain TASKS); auto. }
  use_pool (proj2 (proj2 (proj2 (proj2 legacy_pools_resolved)))). split.
  - cbn [input]. apply format_resolved; [assumption|].
    cbn [forallb fst snd]. rewrite !nth_plain by exact Ht.
    destruct (Str.contains "{task3}" _); rewrite ?nth_plain by exact Ht;
      plain_args.
  - cbn [output]. intros d Hd. rewrite <- Hd.
    apply substitute_resolved; [assumption|].
    cbn [forallb fst snd]. rewrite !nth_plain by exact Ht. plain_args.
Qed.

Lemma string_output_filled (text call : string) :
  plain text = true -> filled (Example text (VStr call)).
Proof. intro H. split; [exact H|]. intros d Hd. discriminate Hd. Qed.

Lemma level_system_filled (ex : example) :
  reach level_system_example ex -> filled ex.
Proof.
  intro H. unfold level_system_example in H.
  destruct phrase_banks_plain as (P & _). new_bank_facts.
  apply reach_bind in H as ([query_type templates] & Hq & H).
  apply reach_choice in Hq; [|discriminate].
  apply reach_bind in H as (template & Ht & H).
  pose proof (listed_plain "" _ _ _ _ P Hq Ht) as Hplain.
  destruct (String.eqb query_type "dimensionStatus").
  - reach_inv H. subst ex. apply string_output_filled.
    rename x into dimension.
    assert (Hd : plain dimension = true) by (eapply bank_plain; [|eassumption]; assumption).
    destruct Hx0 as [<-|[<-|[<-|[<-|[]]]]];
      rewrite ?plain_app, ?plain_capitalize, ?Hd by exact Hd; reflexivity.
  - apply reach_ret in H. subst ex. now apply string_output_filled.
Qed.

Ltac phrase_filled P :=
  apply string_output_filled, format_resolved;
  [ cbn [List.map fst];
    match goal with
    | Hin : In ?t ?pool |- resolved_by _ ?t = true =>
        exact (proj1 (forallb_forall _ _) P t Hin)
    end
  | plain_args ].

Lemma deep_work_filled (ex : example) :
  reach deep_work_start_example ex \/ reach deep_work_duration_example ex
  \/ reach deep_work_pomodoro_example ex \/ reach deep_work_stop_example ex
  \/ reach deep_work_extend_example ex ->
  filled ex.
Proof.
  destruct phrase_banks_plain as (_ & B & _ & _ & S1 & S2 & S3).
  destruct phrase_pools_resolved as (P1 & P2 & _).
  intros [H|[H|[H|[H|H]]]].
  - unfold deep_work_start_example in H. reach_inv H. subst.
    apply string_output_filled. eapply bank_plain; [|eassumption]; assumption.
  - unfold deep_work_duration_example in H. reach_inv H. subst.
    pose proof (listed_plain 0%Z _ _ _ _ B Hx Hx0) as Hd.
    apply string_output_filled, format_resolved;
      [exact (proj1 (forallb_forall _ _) P1 _ Hx1)|].
    cbn [forallb fst snd]. now rewrite Hd.
  - unfold deep_work_pomodoro_example in H. reach_inv H. subst.
    apply string_output_filled. eapply bank_plain; [|eassumption]; assumption.
  - unfold deep_work_stop_example in H. reach_inv H. subst.
    apply string_output_filled. eapply bank_plain; [|eassumption]; assumption.
  - unfold deep_work_extend_example in H. reach_inv H. subst.
    pose proof (listed_plain 0%Z _ _ _ _ B Hx Hx0) as Hd.
    apply string_output_filled, format_resolved;
      [exact (proj1 (forallb_forall _ _) P2 _ Hx1)|].
    cbn [forallb fst snd]. now rewrite Hd.
Qed.

Lemma journal_filled (ex : example) : reach journal_example ex -> filled ex.
Proof.
  intro H. unfold journal_example in H. new_bank_facts.
  apply reach_bind in H as ([entry_type templates] & He & H).
  apply reach_choice in He; [|discriminate].
  apply reach_bind in H as (template & Ht & H).
  apply reach_bind in H as ([content template'] & Hc & H).
  apply reach_ret in H. subst ex.
  apply string_output_filled, format_resolved.
  - cbn [List.map fst].
    assert (Hboth : resolved_by ["content"; "feeling"] template = true
                    /\ resolved_by ["content"; "feeling"]
                         (Str.replace "{content}" "{feeling}" template) = true).
    { pose proof journal_patterns_resolved as P.
      rewrite forallb_forall in P. specialize (P _ He). cbn [snd] in P.
      apply reach_choice_default in Ht as [->|Ht];
        [split; vm_compute; reflexivity|].
      rewrite forallb_forall in P. specialize (P _ Ht).
      now apply andb_true_iff in P. }
    destruct Hboth as [Rt Rt'].
    destruct (String.eqb entry_type "gratitude");
      [|destruct (String.eqb entry_type "mood");
        [|destruct (String.eqb entry_type "learning")]];
      reach_inv Hc; injection Hc as _ Et; subst template'; assumption.
  - assert (Hcontent : plain content = true).
    { destruct (String.eqb entry_type "gratitude");
        [|destruct (String.eqb entry_type "mood");
          [|destruct (String.eqb entry_type "learning")]];
        reach_inv Hc; injection Hc as -> _;
        (eapply bank_plain; [|eassumption]; assumption). }
    cbn [forallb fst snd]. now rewrite Hcontent.
Qed.

Lemma workout_filled (ex : example) :
  reach workout_basic_example ex \/ reach workout_duration_example ex
  \/ reach workout_distance_example ex \/ reach workout_strength_example ex ->
  filled ex.
Proof.
  destruct phrase_banks_plain as (_ & _ & B & _).
  destruct phrase_pools_resolved as (_ & _ & P1 & P2 & P3 & P4).
  intros [R|[R|[R|R]]]; new_bank_facts.
  - unfold workout_basic_example in R. reach_inv R. subst.
    pose proof (listed_plain "" _ _ _ _ B Hx Hx0) as Hw.
    apply string_output_filled, format_resolved;
      [exact (proj1 (forallb_forall _ _) P1 _ Hx1)|].
    cbn [forallb fst snd]. now rewrite Hw.
  - unfold workout_duration_example in R. reach_inv R. subst.
    pose proof (listed_plain "" _ _ _ _ B Hx Hx0) as Hw.
    apply string_output_filled, format_resolved;
      [exact (proj1 (forallb_forall _ _) P2 _ Hx2)|].
    cbn [forallb fst snd]. now rewrite Hw, plain_of_Z.
  - unfold workout_distance_example in R. reach_inv R. subst.
    apply string_output_filled, format_resolved;
      [exact (proj1 (forallb_forall _ _) P3 _ Hx0)|].
    cbn [forallb fst snd]. now rewrite plain_of_Z.
  - unfold workout_strength_example in R. reach_inv R. subst.
    apply string_output_filled, format_resolved;
      [exact (proj1 (forallb_forall _ _) P4 _ Hx2)|].
    plain_args.
Qed.

Lemma navigation_filled (ex : example) :
  reach navigation_example ex -> filled ex.
Proof.
  intro H. unfold navigation_example in H.
  destruct phrase_banks_plain as (_ & _ & _ & B & _).
  reach_inv H. subst. apply string_output_filled.
  exact (listed_plain "" _ _ _ _ B Hx Hx0).
Qed.

Lemma deep_work_all_filled (n : nat) (l : list example) :
  reach (generate_deep_work_examples n) l -> Forall filled l.
Proof.
  intro H. unfold generate_deep_work_examples in H. loops H. subst l.
  apply (reach_repeatM filled) in Hl as [F1 _];
    [|intros; apply deep_work_filled; tauto].
  apply (reach_repeatM filled) in Hl0 as [F2 _];
    [|intros; apply deep_work_filled; tauto].
  apply (reach_repeatM filled) in Hl1 as [F3 _];
    [|intros; apply deep_work_filled; tauto].
  apply (reach_repeatM filled) in Hl2 as [F4 _];
    [|intros; apply deep_work_filled; tauto].
  apply (reach_repeatM filled) in Hl3 as [F5 _];
    [|intros; apply deep_work_filled; tauto].
  repeat (apply Forall_app; split); assumption.
Qed.

Lemma workout_all_filled (n : nat) (l : list example) :
  reach (generate_workout_examples n) l -> Forall filled l.
Proof.
  intro H. unfold generate_workout_examples in H. loops H. subst l.
  apply (reach_repeatM filled) in Hl as [F1 _];
    [|intros; apply workout_filled; tauto].
  apply (reach_repeatM filled) in Hl0 as [F2 _];
    [|intros; apply workout_filled; tauto].
  apply (reach_repeatM filled) in Hl1 as [F3 _];
    [|intros; apply workout_filled; tauto].
  apply (reach_repeatM filled) in Hl2 as [F4 _];
    [|intros; apply workout_filled; tauto].
  repeat (apply Forall_app; split); assumption.
Qed.

Lemma generators_filled (gen : nat -> Rand (list example)) (n : nat) (g : rng) :
  In gen generators -> Forall filled (fst (gen n g)).
Proof.
  intro H. unfold generators in H.
  repeat (destruct H as [<-|H]);
    [ apply repeatM_Forall, simple_creation_filled
    | apply repeatM_Forall, project_specific_filled
    | apply repeatM_Forall, timed_creation_filled
    | apply repeatM_Forall, modification_filled
    | apply repeatM_Forall, search_filled
    | apply repeatM_Forall, batch_filled
    | apply repeatM_Forall, level_system_filled
    | apply (deep_work_all_filled n), reach_fst
    | apply repeatM_Forall, journal_filled
    | apply (workout_all_filled n), reach_fst
    | apply repeatM_Forall, navigation_filled
    | destruct H ].
Qed.

(** X12.  No field of a template is left unfilled: in every example of
    every category generator the text is plain (printable ASCII without
    brace, quote or backslash), and where the output is a descriptor every
    string of it, keys included, is plain as well. *)
Theorem templates_are_filled
        (gen : nat -> Rand (list example)) (n : nat) (g : rng) (ex : example) :
  In gen generators -> In ex (fst (gen n g)) ->
  plain (input ex) = true
  /\ forall d, output ex = VDict d -> value_plain (VDict d) = true.
Proof.
  intros Hgen Hex. pose proof (generators_filled gen n g Hgen) as H.
  rewrite Forall_forall in H. exact (H ex Hex).
Qed.

Lemma templates_are_filled_witness :
  plain (input (fst (batch_example count_rng))) = true
  /\ forall d, output (fst (batch_example count_rng)) = VDict d ->
               value_plain (VDict d) = true.
Proof.
  apply (templates_are_filled generate_batch_examples 1 count_rng).
  - unfold generators. do 5 right. left. reflexivity.
  - vm_compute. left. reflexivity.
Defined.

(** * Further properties of the validator: its findings and its reach *)

Lemma validate_one_cases (i : nat) (ex : example) (l : list string) :
  validate_one i ex = Some l -> l = [] \/ exists message, l = [issue i message].
Proof.
  unfold validate_one. intro H.
  destruct (output ex) as [| b | n | out | items | d].
  - injection H as <-. now left.
  - injection H as <-. now left.
  - injection H as <-. now left.
  - destruct (negb (Str.startswith out "<start_function_call>"));
      [injection H as <-; right; now eexists|].
    destruct (negb (Str.endswith out "<end_function_call>"));
      [injection H as <-; right; now eexists|].
    destruct (Re.search_call out) as [func_name|];
      [|injection H as <-; right; now eexists].
    destruct (negb (mem func_name valid_functions));
      injection H as <-; [right; now eexists|now left].
  - injection H as <-. now left.
  - destruct (dict_get "action" d) as [action|]; [|injection H as <-; now left].
    destruct (truthy action); [|injection H as <-; now left].
    destruct action as [| b | n | a | l' | d']; try discriminate;
      try (injection H as <-; right; now eexists).
    destruct (negb (mem a valid_actions));
      injection H as <-; [right; now eexists|now left].
Qed.

Lemma validate_from_positions (examples : list example) :
  forall (i : nat) (issues : list string),
    validate_from i examples = Some issues ->
    length issues <= length examples
    /\ Forall (fun s => exists j ex message,
                   nth_error examples j = Some ex
                   /\ s = issue (i + j) message
                   /\ validate_one (i + j) ex = Some [s]) issues.
Proof.
  induction examples as [|ex rest IH]; intros i issues H.
  - injection H as <-. split; [apply le_n|constructor].
  - cbn [validate_from] in H.
    destruct (validate_one i ex) as [a|] eqn:Ea; [|discriminate].
    destruct (validate_from (S i) rest) as [b|] eqn:Eb; [|discriminate].
    injection H as <-. destruct (IH _ _ Eb) as [Hlen Hall].
    assert (Hrest : Forall (fun s => exists j ex0 message,
                              nth_error (ex :: rest) j = Some ex0
                              /\ s = issue (i + j) message
                              /\ validate_one (i + j) ex0 = Some [s]) b).
    { rewrite Forall_forall in *. intros s Hs.
      destruct (Hall s Hs) as (j & ex0 & m & Hj & Hm & Hv).
      exists (S j), ex0, m. rewrite Nat.add_succ_r. now repeat split. }
    destruct (validate_one_cases _ _ _ Ea) as [->|[m ->]].
    + split; [cbn; lia|exact Hrest].
    + split; [cbn; lia|]. constructor; [|exact Hrest].
      exists 0, ex, m. rewrite Nat.add_0_r. now repeat split.
Qed.

(** X13.  When the validator returns, it has at most one finding for each
    example, and every finding is the finding of one example of the list
    and begins with the position of that example. *)
Theorem findings_name_examples (examples : list example) (issues : list string) :
  validate_examples examples = Some issues ->
  length issues <= length examples
  /\ Forall (fun s => exists j ex message,
                 nth_error examples j = Some ex
                 /\ s = issue j message
                 /\ validate_one j ex = Some [s]) issues.
Proof. intro H. exact (validate_from_positions examples 0 issues H). Qed.

Lemma findings_name_examples_witness :
  length ["Example 1: Missing <start_function_call> prefix"] <= 2
  /\ Forall (fun s => exists j ex message,
                 nth_error [Example "go home"
                              (VStr (make_function_call "navigate" []));
Example "go back" (VStr "navigate{}")] j = Some ex
                 /\ s = issue j message
                 /\ validate_one j ex = Some [s])
            ["Example 1: Missing <start_function_call> prefix"].
Proof.
  apply (findings_name_examples
           [Example "go home" (VStr (make_function_call "navigate" []));
Example "go back" (VStr "navigate{}")]).
  vm_compute. reflexivity.
Defined.

Lemma startswith_app (a b p : string) :
  Str.startswith a p = true -> Str.startswith (a ++ b) p = true.
Proof.
  unfold Str.startswith. revert a.
  induction p as [|c p IH]; intros a H; [now destruct a, b|].
  destruct a as [|x a]; [discriminate|].
  cbn [append prefix] in *. destruct (ascii_dec c x); [now apply IH|discriminate].
Qed.

Lemma search_call_after_name (func_name r : string) :
  func_name <> "" -> all_word func_name = true ->
  Re.search_call ("<start_function_call>" ++ "call:" ++ func_name ++ String "{" r)
  = Some func_name.
Proof.
  intros Hne Hw. cbn [append]. cbn -[Re.span_word append].
  unfold Re.match_call_here. cbn -[Re.span_word append].
  rewrite (span_word_brace _ _ Hw).
  destruct func_name; [congruence|reflexivity].
Qed.

Lemma make_function_call_app (func_name : string) (params : dict) (r : string) :
  make_function_call func_name params ++ r
  = "<start_function_call>" ++ "call:" ++ func_name
      ++ String "{" ((Str.join "," (List.map param_part params)
                      ++ "}<end_function_call>") ++ r).
Proof.
  rewrite make_function_call_eq.
  rewrite !append_assoc. cbn [append]. rewrite !append_assoc. reflexivity.
Qed.

Lemma append_last_inj (a b : string) (c d : ascii) :
  a ++ String c "" = b ++ String d "" -> a = b /\ c = d.
Proof.
  revert b. induction a as [|x a IH]; intros [|y b] H; cbn [append] in H.
  - injection H as ->. now split.
  - injection H as _ H. destruct b; discriminate H.
  - injection H as _ H. destruct a; discriminate H.
  - injection H as -> H. destruct (IH _ H) as [-> ->]. now split.
Qed.

Lemma append_inv_tail (a b t : string) : a ++ t = b ++ t -> a = b.
Proof.
  revert b. induction a as [|x a IH]; intros [|y b] H; cbn [append] in H.
  - reflexivity.
  - apply (f_equal String.length) in H. cbn [String.length] in H.
    rewrite string_length_app in H. lia.
  - apply (f_equal String.length) in H. cbn [String.length] in H.
    rewrite string_length_app in H. lia.
  - injection H as -> H. now rewrite (IH _ H).
Qed.

(** A string that ends with a line feed and the closing marker is outside
    the grammar. *)
Lemma line_feed_before_marker (x : string) :
  ~ matches_grammar (x ++ String Str.newline "<end_function_call>").
Proof.
  intros (name & body & tail & E & _ & _ & _ & [->| ->]).
  - replace ("<start_function_call>call:" ++ name ++ "{" ++ body
               ++ "}<end_function_call>" ++ "")
      with ((("<start_function_call>call:" ++ name ++ "{" ++ body)
               ++ String "}" "") ++ "<end_function_call>") in E
      by (rewrite !append_assoc; reflexivity).
    replace (x ++ String Str.newline "<end_function_call>")
      with ((x ++ String Str.newline "") ++ "<end_function_call>") in E
      by (rewrite !append_assoc; reflexivity).
    apply append_inv_tail, append_last_inj in E as [_ E]. discriminate E.
  - replace ("<start_function_call>call:" ++ name ++ "{" ++ body
               ++ "}<end_function_call>" ++ String Str.newline "")
      with (("<start_function_call>call:" ++ name ++ "{" ++ body
               ++ "}<end_function_call>") ++ String Str.newline "") in E
      by (rewrite !append_assoc; reflexivity).
    replace (x ++ String Str.newline "<end_function_call>")
      with ((x ++ String Str.newline "<end_function_call") ++ String ">" "") in E
      by (rewrite !append_assoc; reflexivity).
    apply append_last_inj in E as [_ E]. discriminate E.
Qed.

(** X14.  The validator accepts more than the grammar: an output of the
    encoder for an allowed function, followed by any text, a line feed and
    the closing marker, gets no finding, and is outside the grammar. *)
Theorem validator_accepts_more_than_grammar
        (text func_name junk : string) (params : dict) :
  In func_name valid_functions ->
  validate_examples
    [Example text
       (VStr (make_function_call func_name params ++ junk
                ++ String Str.newline "<end_function_call>"))]
  = Some []
  /\ ~ matches_grammar (make_function_call func_name params ++ junk
                          ++ String Str.newline "<end_function_call>").
Proof.
  intro Hin. destruct (valid_function_word _ Hin) as [Hne Hw]. split.
  - unfold validate_examples. cbn [validate_from]. unfold validate_one.
    cbn [output].
    rewrite startswith_app by apply make_function_call_starts.
    replace (make_function_call func_name params ++ junk
               ++ String Str.newline "<end_function_call>")
      with ((make_function_call func_name params ++ junk
               ++ String Str.newline "") ++ "<end_function_call>")
      by (rewrite !append_assoc; reflexivity).
    rewrite endswith_app. cbn [negb].
    rewrite append_assoc, make_function_call_app.
    rewrite search_call_after_name by assumption.
    apply mem_In in Hin. now rewrite Hin.
  - rewrite <- append_assoc. apply line_feed_before_marker.
Qed.

Lemma validator_accepts_more_than_grammar_witness :
  validate_examples
    [Example "go home"
       (VStr (make_function_call "navigate" [("destination", VStr "home")]
                ++ " and more" ++ String Str.newline "<end_function_call>"))]
  = Some []
  /\ ~ matches_grammar
         (make_function_call "navigate" [("destination", VStr "home")]
            ++ " and more" ++ String Str.newline "<end_function_call>").
Proof.
  apply (validator_accepts_more_than_grammar "go home" "navigate" " and more").
  cbn. tauto.
Defined.

(** * Further properties of the generators: one text, one call? *)

Lemma reach_choice_bind {A B} (d : A) (seq : list A) (x : A)
      (k : A -> Rand B) (b : B) :
  In x seq -> reach (k x) b -> reach (bind (choice d seq) k) b.
Proof.
  intros Hin [g Hg]. destruct (In_nth _ _ d Hin) as (i & Hi & Hn).
  exists (push i g). cbv [bind choice randbelow ret push]. cbn [fst snd].
  rewrite Nat.mod_small by exact Hi. rewrite Hn. exact Hg.
Qed.

Lemma reach_ret_eq {A} (x y : A) : x = y -> reach (ret x) y.
Proof. intros <-. now exists zero_rng. Qed.

Lemma listed_In {K} (bank : list (K * list string)) (k : K)
      (phrases : list string) (x : string) :
  forallb (fun e => match snd e with [] => false | _ => true end) bank = true ->
  In (k, phrases) bank -> reach (choice "" phrases) x -> In x phrases.
Proof.
  rewrite forallb_forall. intros H Hin Hx. specialize (H _ Hin). cbn in H.
  revert Hx. apply reach_choice. now destruct phrases.
Qed.

Lemma deep_work_durations_present :
  forallb (fun e => match snd e with [] => false | _ => true end)
          DEEP_WORK_DURATIONS = true.
Proof. vm_compute. reflexivity. Qed.

Lemma deep_work_listed (ex : example) :
  reach deep_work_start_example ex \/ reach deep_work_duration_example ex
  \/ reach deep_work_pomodoro_example ex \/ reach deep_work_stop_example ex
  \/ reach deep_work_extend_example ex ->
  In ex deep_work_table.
Proof.
  unfold deep_work_table. intros [H|[H|[H|[H|H]]]].
  - unfold deep_work_start_example in H. reach_inv H. subst.
    apply in_or_app. left. apply in_map_iff. now eexists.
  - unfold deep_work_duration_example in H. reach_inv H. subst.
    pose proof (listed_In _ _ _ _ deep_work_durations_present Hx Hx0) as Ht.
    apply in_or_app. right. apply in_or_app. left.
    apply in_flat_map. eexists. split; [exact Hx|].
    apply in_flat_map. eexists. split; [exact Ht|].
    apply in_map_iff. eexists. split; [reflexivity|exact Hx1].
  - unfold deep_work_pomodoro_example in H. reach_inv H. subst.
    do 2 (apply in_or_app; right). apply in_or_app. left.
    apply in_map_iff. now eexists.
  - unfold deep_work_stop_example in H. reach_inv H. subst.
    do 3 (apply in_or_app; right). apply in_or_app. left.
    apply in_map_iff. now eexists.
  - unfold deep_work_extend_example in H. reach_inv H. subst.
    pose proof (listed_In _ _ _ _ deep_work_durations_present Hx Hx0) as Ht.
    do 4 (apply in_or_app; right).
    apply in_flat_map. eexists. split; [exact Hx|].
    apply in_flat_map. eexists. split; [exact Ht|].
    apply in_map_iff. eexists. split; [reflexivity|exact Hx1].
Qed.

Lemma deep_work_all_listed (n : nat) (l : list example) :
  reach (generate_deep_work_examples n) l ->
  Forall (fun ex => In ex deep_work_table) l.
Proof.
  intro H. unfold generate_deep_work_examples in H. loops H. subst l.
  apply (reach_repeatM (fun ex => In ex deep_work_table)) in Hl as [F1 _];
    [|intros; apply deep_work_listed; tauto].
  apply (reach_repeatM (fun ex => In ex deep_work_table)) in Hl0 as [F2 _];
    [|intros; apply deep_work_listed; tauto].
  apply (reach_repeatM (fun ex => In ex deep_work_table)) in Hl1 as [F3 _];
    [|intros; apply deep_work_listed; tauto].
  apply (reach_repeatM (fun ex => In ex deep_work_table)) in Hl2 as [F4 _];
    [|intros; apply deep_work_listed; tauto].
  apply (reach_repeatM (fun ex => In ex deep_work_table)) in Hl3 as [F5 _];
    [|intros; apply deep_work_listed; tauto].
  repeat (apply Forall_app; split); assumption.
Qed.

Lemma deep_work_table_apart : text_determines_call deep_work_table = true.
Proof. vm_compute. reflexivity. Qed.

Lemma text_determines_call_In (table : list example) (p q : example) :
  text_determines_call table = true -> In p table -> In q table ->
  input p = input q -> output p = output q.
Proof.
  unfold text_determines_call. rewrite forallb_forall. intros H Hp Hq E.
  specialize (H _ Hp). rewrite forallb_forall in H. specialize (H _ Hq).
  rewrite E, String.eqb_refl in H. cbn [negb orb] in H.
  unfold same_call in H.
  destruct (output p) as [| | |a| |]; try discriminate.
  destruct (output q) as [| | |b| |]; try discriminate.
  apply String.eqb_eq in H. now subst.
Qed.

(** X15.  The deep-work generator never gives one text two labels: two of
    its examples with the same text, from any two runs and any of its five
    loops, have the same call. *)
Theorem deep_work_text_determines_call
        (n n' : nat) (g g' : rng) (ex ex' : example) :
  In ex (fst (generate_deep_work_examples n g)) ->
  In ex' (fst (generate_deep_work_examples n' g')) ->
  input ex = input ex' -> output ex = output ex'.
Proof.
  intros Hex Hex' E.
  pose proof (deep_work_all_listed n _ (reach_fst _ g)) as H.
  pose proof (deep_work_all_listed n' _ (reach_fst _ g')) as H'.
  rewrite Forall_forall in H, H'.
  exact (text_determines_call_In deep_work_table ex ex' deep_work_table_apart
           (H _ Hex) (H' _ Hex') E).
Qed.

Lemma deep_work_text_determines_call_witness :
  output (fst (deep_work_stop_example zero_rng))
  = output (fst (deep_work_stop_example (draws [10]))).
Proof.
  apply (deep_work_text_determines_call 5 5 zero_rng (draws [0; 0; 0; 0; 10])).
  - vm_compute. right. right. left. reflexivity.
  - vm_compute. right. right. left. reflexivity.
  - vm_compute. reflexivity.
Defined.

Lemma of_Z_inj (a b : Z) : Str.of_Z a = Str.of_Z b -> a = b.
Proof.
  intro H. apply (f_equal Z_of_string) in H.
  rewrite !Z_of_string_of_Z in H. now injection H.
Qed.

Lemma append_inv_head (a b c : string) : a ++ b = a ++ c -> b = c.
Proof.
  induction a as [|x a IH]; cbn [append]; intro H; [exact H|].
  injection H as H. exact (IH H).
Qed.

Lemma strength_call_inj (exercise : string) (sets reps reps' : Z) :
  strength_call exercise sets reps = strength_call exercise sets reps' ->
  reps = reps'.
Proof.
  unfold strength_call, make_function_call, Str.join, param_part.
  cbn [List.map String.concat fst snd escape].
  intro E. rewrite !append_assoc in E. cbn [append] in E.
  repeat (first [injection E as E | apply append_inv_head in E]).
  now apply append_inv_tail, of_Z_inj in E.
Qed.

Lemma exercises_plain : forallb plain EXERCISES = true.
Proof. vm_compute. reflexivity. Qed.

Ltac compute_pieces :=
  match goal with
  | |- context [pieces ?s] =>
      let P := eval vm_compute in (pieces s) in change (pieces s) with P
  end.

(** X16.  The strength loop of the workout generator gives one text
    several labels.  The pattern [Completed {sets} sets of {exercise}] names
    no number of repetitions, yet each example carries one in its call: for
    every exercise and number of sets, the same text is generated with any
    two of the numbers of repetitions, and the two calls differ. *)
Theorem strength_text_leaves_reps_open
        (exercise : string) (sets reps reps' : Z) :
  In exercise EXERCISES -> In sets [3; 4; 5]%Z ->
  In reps [8; 10; 12; 15; 20]%Z -> In reps' [8; 10; 12; 15; 20]%Z ->
  reps <> reps' ->
  let text := "Completed " ++ Str.of_Z sets ++ " sets of " ++ exercise in
  reach workout_strength_example
        (Example text (VStr (strength_call exercise sets reps)))
  /\ reach workout_strength_example
           (Example text (VStr (strength_call exercise sets reps')))
  /\ strength_call exercise sets reps <> strength_call exercise sets reps'.
Proof.
  intros He Hs Hr Hr' Hne text.
  assert (Hreach : forall r, In r [8; 10; 12; 15; 20]%Z ->
            reach workout_strength_example
                  (Example text (VStr (strength_call exercise sets r)))).
  { intros r Hin. unfold workout_strength_example.
    apply reach_choice_bind with (x := exercise); [exact He|].
    apply reach_choice_bind with (x := sets); [exact Hs|].
    apply reach_choice_bind with (x := r); [exact Hin|].
    apply reach_choice_bind with (x := "Completed {sets} sets of {exercise}");
      [cbn; tauto|].
    apply reach_ret_eq. unfold strength_call. f_equal.
    rewrite (format_pieces ["exercise"; "sets"; "reps"]);
      [|vm_compute; reflexivity
       |cbn [forallb fst snd];
        now rewrite (bank_plain _ _ exercises_plain He), !plain_of_Z].
    subst text. generalize (Str.of_Z sets) (Str.of_Z r). intros vs vr.
    compute_pieces.
    cbn [List.map fill_piece fold_left fill_one fst snd
         String.eqb Ascii.eqb Bool.eqb render append].
    now rewrite append_nil_r. }
  split; [now apply Hreach|]. split; [now apply Hreach|].
  intro E. apply Hne. exact (strength_call_inj _ _ _ _ E).
Qed.

Lemma strength_text_leaves_reps_open_witness :
  let text := "Completed " ++ Str.of_Z 3 ++ " sets of " ++ "squats" in
  reach workout_strength_example
        (Example text (VStr (strength_call "squats" 3 8)))
  /\ reach workout_strength_example
           (Example text (VStr (strength_call "squats" 3 20)))
  /\ strength_call "squats" 3 8 <> strength_call "squats" 3 20.
Proof.
  apply (strength_text_leaves_reps_open "squats" 3 8 20).
  - vm_compute. tauto.
  - vm_compute. tauto.
  - vm_compute. tauto.
  - vm_compute. tauto.
  - lia.
Defined.

(** X17.  The timed generator writes the hours of the afternoon on the
    24-hour clock with a [pm] after them: for the start hours 13, 14 and 15,
    every length of one to three hours and every block name, the block from
    [13pm], [14pm] or [15pm] on is generated, in the text and in the
    descriptor alike. *)
Theorem afternoon_blocks_keep_24_hour_clock
        (start_hour delta : Z) (block_name : string) :
  In start_hour [13; 14; 15]%Z -> In delta [1; 2; 3]%Z ->
  In block_name TimedCreation.block_names ->
  let start_time := Str.of_Z start_hour ++ "pm" in
  let end_time := Str.of_Z (start_hour + delta) ++ "pm" in
  reach timed_creation_example
        (Example ("Block " ++ start_time ++ " to " ++ end_time ++ " for "
                    ++ block_name)
                 (focus_block block_name start_time end_time)).
Proof.
  intros Hh Hd Hb start_time end_time. unfold timed_creation_example.
  apply reach_choice_bind with (x := "block_range"); [cbn; tauto|].
  cbn [String.eqb Ascii.eqb Bool.eqb].
  apply reach_choice_bind
    with (x := ("Block {start_time} to {end_time} for {block_name}",
                focus_block "{block_name}" "{start_time}" "{end_time}"));
    [left; reflexivity|].
  apply reach_choice_bind with (x := start_hour);
    [cbn in Hh |- *; tauto|].
  apply reach_choice_bind with (x := delta); [exact Hd|].
  apply reach_choice_bind with (x := block_name); [exact Hb|].
  apply reach_ret_eq. subst start_time end_time.
  cbn in Hh, Hd.
  destruct Hh as [<-|[<-|[<-|[]]]]; destruct Hd as [<-|[<-|[<-|[]]]];
    cbn; now rewrite !append_nil_r.
Qed.

Lemma afternoon_blocks_keep_24_hour_clock_witness :
  let start_time := Str.of_Z 13 ++ "pm" in
  let end_time := Str.of_Z (13 + 3) ++ "pm" in
  reach timed_creation_example
        (Example ("Block " ++ start_time ++ " to " ++ end_time ++ " for "
                    ++ "planning")
                 (focus_block "planning" start_time end_time)).
Proof.
  apply (afternoon_blocks_keep_24_hour_clock 13 3 "planning").
  - vm_compute. tauto.
  - vm_compute. tauto.
  - vm_compute. tauto.
Defined.

(** * Further properties of the journal generator *)

Lemma journal_templates_present :
  forallb (fun e => match snd e with [] => false | _ => true end)
          JOURNAL_ENTRY_TYPES = true.
Proof. vm_compute. reflexivity. Qed.

(** No content of a journal entry reaches fifty characters. *)
Lemma journal_contents_short :
  forallb (fun e =>
             forallb (fun content => (String.length content <? 50)%nat)
                     (journal_contents (fst e)))
          JOURNAL_ENTRY_TYPES = true.
Proof. vm_compute. reflexivity. Qed.

Lemma journal_listed (ex : example) :
  reach journal_example ex -> In ex journal_table.
Proof.
  intro H. unfold journal_example in H.
  apply reach_bind in H as ([entry_type templates] & He & H).
  apply reach_choice in He; [|discriminate].
  apply reach_bind in H as (template & Ht & H).
  apply (listed_In _ _ _ _ journal_templates_present He) in Ht.
  apply reach_bind in H as ([content template'] & Hc & H).
  apply reach_ret in H. subst ex.
  assert (Hin : In content (journal_contents entry_type)
                /\ template' = if String.eqb entry_type "mood"
                               then Str.replace "{content}" "{feeling}" template
                               else template).
  { unfold journal_contents.
    destruct (String.eqb_spec entry_type "gratitude") as [->|_];
      [|destruct (String.eqb entry_type "mood");
        [|destruct (String.eqb entry_type "learning")]];
      reach_inv Hc; injection Hc as <- <-; now split. }
  destruct Hin as [Hin ->].
  pose proof journal_contents_short as Hshort.
  rewrite forallb_forall in Hshort. specialize (Hshort _ He). cbn [fst] in Hshort.
  rewrite forallb_forall in Hshort. specialize (Hshort _ Hin).
  rewrite Hshort.
  unfold journal_table. apply in_flat_map. eexists. split; [exact He|].
  apply in_flat_map. eexists. split; [exact Ht|].
  apply in_map_iff. eexists. split; [|exact Hin]. reflexivity.
Qed.

Lemma journal_table_apart : text_determines_call journal_table = true.
Proof. vm_compute. reflexivity. Qed.

(** X18.  The title of a journal example is never cut (every content of
    the script is shorter than fifty characters): each example is made of an
    entry type, one of its patterns and one of its contents, with the title
    [Feeling] and the feeling for a mood and the capitalised content
    otherwise.  And the generator never gives one text two labels. *)
Theorem journal_text_determines_call
        (n n' : nat) (g g' : rng) (ex ex' : example) :
  In ex (fst (generate_journal_examples n g)) ->
  In ex' (fst (generate_journal_examples n' g')) ->
  In ex journal_table /\ (input ex = input ex' -> output ex = output ex').
Proof.
  intros Hex Hex'.
  pose proof (repeatM_Forall _ n journal_example journal_listed g) as H.
  pose proof (repeatM_Forall _ n' journal_example journal_listed g') as H'.
  rewrite Forall_forall in H, H'.
  split; [exact (H _ Hex)|]. intro E.
  exact (text_determines_call_In journal_table ex ex' journal_table_apart
           (H _ Hex) (H' _ Hex') E).
Qed.

Lemma journal_text_determines_call_witness :
  In (fst (journal_example zero_rng)) journal_table
  /\ (input (fst (journal_example zero_rng))
      = input (fst (journal_example (draws [9; 5; 13])))
      -> output (fst (journal_example zero_rng))
         = output (fst (journal_example (draws [9; 5; 13])))).
Proof.
  apply (journal_text_determines_call 1 1 zero_rng (draws [9; 5; 13])).
  - vm_compute. left. reflexivity.
  - vm_compute. left. reflexivity.
Defined.

